(** * Client-side tabular data engine: embedding and properties

    A shallow embedding of the Redux slices, the RTK Query base query, the
    mock backend and the pagination hook of the dashboard application,
    followed by the properties established about them.

    Conventions:
    - JavaScript numbers that hold counts and page numbers are integers far
      below 2^53; they are modelled as [Z], and a division that feeds
      [Math.ceil] is carried out in [Q], so that no rounding is hidden.  A
      division by 0 has no value in [Z]: every statement about a quotient
      assumes a positive divisor.
    - [null]/[undefined] are [None]; the truthiness tests of the source
      ([if (token)], [!!x], [a || b]) are written out with [truthy].
    - Immer reducers ([state.x = v]) are functions from state to state, one
      [let] per assignment. *)

From Stdlib Require Import ZArith QArith Qround Bool Ascii String DecimalString Lia.
From stdpp Require Import base option list gmap strings.

Local Open Scope string_scope.
Local Open Scope Z_scope.

(* ====================================================================== *)
(** * JavaScript primitives used by the sources *)
(* ====================================================================== *)

Module JS.

(** Truthiness of a string: only the empty string is falsy. *)
Definition truthy (s : string) : bool :=
  negb (String.eqb s "").

(** Truthiness of a [string | null] value. *)
Definition truthy_opt (o : option string) : bool :=
  match o with
  | Some s => truthy s
  | None => false
  end.

(** [a || b] on a [string | undefined] left operand. *)
Definition or_default (o : option string) (d : string) : string :=
  match o with
  | Some s => if truthy s then s else d
  | None => d
  end.

(** [Math.ceil(a / b)] for integers [a], [b] with [b <> 0]: the quotient is
    formed first, the ceiling is taken afterwards.  For [b = 0] JavaScript
    yields [Infinity] or [NaN], which [Z] does not have, and the value below
    (0) is not that of the code: every statement about a page count assumes
    [0 < b]. *)
Definition Math_ceil_div (a b : Z) : Z :=
  Qceiling (Qdiv (inject_Z a) (inject_Z b)).

(** [Math.floor(a / b)], same reading. *)
Definition Math_floor_div (a b : Z) : Z :=
  Qfloor (Qdiv (inject_Z a) (inject_Z b)).

(** [Array.prototype.slice(start, end)]: a negative index counts from the
    end of the array, indices beyond the ends are clipped. *)
Definition slice_index (len i : Z) : Z :=
  if i <? 0 then Z.max (len + i) 0 else Z.min i len.

Definition slice {A : Type} (l : list A) (start stop : Z) : list A :=
  let len := Z.of_nat (length l) in
  let k := slice_index len start in
  let final := slice_index len stop in
  take (Z.to_nat (final - k)) (drop (Z.to_nat k) l).

(** [String.prototype.toLowerCase] on ASCII text: the letters [A] to [Z]
    are lowered and every other byte is kept, where JavaScript also lowers
    the letters beyond ASCII.  The statements about the search either do not
    depend on what this function computes or speak of ASCII text. *)
Definition lower_ascii (c : ascii) : ascii :=
  let n := nat_of_ascii c in
  if ((65 <=? n)%nat && (n <=? 90)%nat)%bool then ascii_of_nat (n + 32) else c.

Fixpoint toLowerCase (s : string) : string :=
  match s with
  | EmptyString => EmptyString
  | String c rest => String (lower_ascii c) (toLowerCase rest)
  end.

(** [String.prototype.includes]. *)
Fixpoint includes (s sub : string) : bool :=
  if String.prefix sub s then true
  else match s with
       | EmptyString => false
       | String _ rest => includes rest sub
       end.

(** [Array.prototype.findIndex], with [None] for [-1]. *)
Fixpoint findIndex {A : Type} (f : A -> bool) (l : list A) : option nat :=
  match l with
  | [] => None
  | x :: rest => if f x then Some O else option_map S (findIndex f rest)
  end.

End JS.

(* ====================================================================== *)
(** * types/index.ts *)
(* ====================================================================== *)

Inductive UserRole := RoleAdmin | RoleManager | RoleUser.

Module User.
Record t := mk {
  id : string;
  email : string;
  firstName : string;
  lastName : string;
  role : UserRole;
  avatar : option string;
  department : option string;
  createdAt : string;
  updatedAt : string;
  isActive : bool
}.
End User.

(** [Partial<User>]: every field optional. *)
Module PartialUser.
Record t := mk {
  id : option string;
  email : option string;
  firstName : option string;
  lastName : option string;
  role : option UserRole;
  avatar : option string;
  department : option string;
  createdAt : option string;
  updatedAt : option string;
  isActive : option bool
}.

Definition over {A : Type} (new : option A) (old : A) : A :=
  match new with Some v => v | None => old end.

Definition over_opt {A : Type} (new old : option A) : option A :=
  match new with Some v => Some v | None => old end.

(** [{ ...u, ...p }] *)
Definition spread (u : User.t) (p : t) : User.t :=
  {| User.id := over (id p) (User.id u);
     User.email := over (email p) (User.email u);
     User.firstName := over (firstName p) (User.firstName u);
     User.lastName := over (lastName p) (User.lastName u);
     User.role := over (role p) (User.role u);
     User.avatar := over_opt (avatar p) (User.avatar u);
     User.department := over_opt (department p) (User.department u);
     User.createdAt := over (createdAt p) (User.createdAt u);
     User.updatedAt := over (updatedAt p) (User.updatedAt u);
     User.isActive := over (isActive p) (User.isActive u) |}.
End PartialUser.

Module AuthResponse.
Record t := mk {
  user : User.t;
  token : string;
  refreshToken : string;
  expiresIn : Z
}.
End AuthResponse.

Module AuthState.
Record t := mk {
  user : option User.t;
  token : option string;
  refreshToken : option string;
  isAuthenticated : bool;
  isLoading : bool;
  error : option string
}.

Definition set_user v (s : t) : t :=
  mk v (token s) (refreshToken s) (isAuthenticated s) (isLoading s) (error s).
Definition set_token v (s : t) : t :=
  mk (user s) v (refreshToken s) (isAuthenticated s) (isLoading s) (error s).
Definition set_refreshToken v (s : t) : t :=
  mk (user s) (token s) v (isAuthenticated s) (isLoading s) (error s).
Definition set_isAuthenticated v (s : t) : t :=
  mk (user s) (token s) (refreshToken s) v (isLoading s) (error s).
Definition set_isLoading v (s : t) : t :=
  mk (user s) (token s) (refreshToken s) (isAuthenticated s) v (error s).
Definition set_error v (s : t) : t :=
  mk (user s) (token s) (refreshToken s) (isAuthenticated s) (isLoading s) v.
End AuthState.

(** The anonymous [pagination] object of [PaginatedResponse] and of the
    slices. *)
Module Pagination.
Record t := mk {
  page : Z;
  pageSize : Z;
  total : Z;
  totalPages : Z
}.

Definition set_total v (p : t) : t :=
  mk (page p) (pageSize p) v (totalPages p).
End Pagination.

Module PaginatedResponse.
Record t (A : Type) := mk {
  data : list A;
  pagination : Pagination.t
}.
Arguments mk {A} _ _.
Arguments data {A} _.
Arguments pagination {A} _.
End PaginatedResponse.

Inductive SortDirection := asc | desc.

Module SortConfig.
Record t := mk { field : string; direction : SortDirection }.
End SortConfig.

Inductive FilterOperator := op_eq | op_contains | op_gt | op_lt | op_gte | op_lte | op_in.

Inductive FilterValue :=
| FString (s : string)
| FNumber (n : Z)
| FStrings (l : list string)
| FNumbers (l : list Z).

Module FilterConfig.
Record t := mk { field : string; operator : FilterOperator; value : FilterValue }.
End FilterConfig.

Module TableState.
Record t := mk {
  page : Z;
  pageSize : Z;
  sort : option SortConfig.t;
  filters : list FilterConfig.t;
  search : string
}.
End TableState.

(** [Partial<TableState>]: the own properties of the payload object.  [sort]
    is nullable in [TableState], so a payload may carry [sort: null]. *)
Module PartialTableState.
Record t := mk {
  page : option Z;
  pageSize : option Z;
  sort : option (option SortConfig.t);
  filters : option (list FilterConfig.t);
  search : option string
}.

Definition empty : t := mk None None None None None.

(** [{ ...ts, ...p }] *)
Definition spread (ts : TableState.t) (p : t) : TableState.t :=
  {| TableState.page := PartialUser.over (page p) (TableState.page ts);
     TableState.pageSize := PartialUser.over (pageSize p) (TableState.pageSize ts);
     TableState.sort := PartialUser.over (sort p) (TableState.sort ts);
     TableState.filters := PartialUser.over (filters p) (TableState.filters ts);
     TableState.search := PartialUser.over (search p) (TableState.search ts) |}.
End PartialTableState.

(* ====================================================================== *)
(** * features/users/usersSlice.ts *)
(* ====================================================================== *)

Module UsersSlice.

Record UsersState := mkUsersState {
  users : list User.t;
  selectedUser : option User.t;
  tableState : TableState.t;
  pagination : Pagination.t;
  isLoading : bool;
  isCreating : bool;
  isUpdating : bool;
  isDeleting : bool;
  error : option string
}.

Definition set_users v (s : UsersState) :=
  mkUsersState v (selectedUser s) (tableState s) (pagination s)
               (isLoading s) (isCreating s) (isUpdating s) (isDeleting s) (error s).
Definition set_selectedUser v (s : UsersState) :=
  mkUsersState (users s) v (tableState s) (pagination s)
               (isLoading s) (isCreating s) (isUpdating s) (isDeleting s) (error s).
Definition set_tableState v (s : UsersState) :=
  mkUsersState (users s) (selectedUser s) v (pagination s)
               (isLoading s) (isCreating s) (isUpdating s) (isDeleting s) (error s).
Definition set_pagination v (s : UsersState) :=
  mkUsersState (users s) (selectedUser s) (tableState s) v
               (isLoading s) (isCreating s) (isUpdating s) (isDeleting s) (error s).
Definition set_isLoading v (s : UsersState) :=
  mkUsersState (users s) (selectedUser s) (tableState s) (pagination s)
               v (isCreating s) (isUpdating s) (isDeleting s) (error s).
Definition set_isCreating v (s : UsersState) :=
  mkUsersState (users s) (selectedUser s) (tableState s) (pagination s)
               (isLoading s) v (isUpdating s) (isDeleting s) (error s).
Definition set_isUpdating v (s : UsersState) :=
  mkUsersState (users s) (selectedUser s) (tableState s) (pagination s)
               (isLoading s) (isCreating s) v (isDeleting s) (error s).
Definition set_isDeleting v (s : UsersState) :=
  mkUsersState (users s) (selectedUser s) (tableState s) (pagination s)
               (isLoading s) (isCreating s) (isUpdating s) v (error s).
Definition set_error v (s : UsersState) :=
  mkUsersState (users s) (selectedUser s) (tableState s) (pagination s)
               (isLoading s) (isCreating s) (isUpdating s) (isDeleting s) v.

Definition initialState : UsersState :=
  {| users := [];
     selectedUser := None;
     tableState := {| TableState.page := 1;
                      TableState.pageSize := 25;
                      TableState.sort := None;
                      TableState.filters := [];
                      TableState.search := "" |};
     pagination := {| Pagination.page := 1;
                      Pagination.pageSize := 25;
                      Pagination.total := 0;
                      Pagination.totalPages := 0 |};
     isLoading := false;
     isCreating := false;
     isUpdating := false;
     isDeleting := false;
     error := None |}.

(** The actions handled by the slice.  A rejected [fetchUsers] or
    [fetchUserById] carries [action.error.message]; the rejected mutations
    carry the string passed to [rejectWithValue]. *)
Inductive Action :=
| setTableState (payload : PartialTableState.t)
| setSelectedUser (payload : option User.t)
| clearError
| optimisticUpdateUserStatus (id : string) (isActive : bool)
| fetchUsers_pending
| fetchUsers_fulfilled (payload : PaginatedResponse.t User.t)
| fetchUsers_rejected (message : option string)
| fetchUserById_pending
| fetchUserById_fulfilled (payload : User.t)
| fetchUserById_rejected (message : option string)
| createUser_pending
| createUser_fulfilled (payload : User.t)
| createUser_rejected (payload : string)
| updateUser_pending
| updateUser_fulfilled (payload : User.t)
| updateUser_rejected (payload : string)
| deleteUser_pending
| deleteUser_fulfilled (payload : string)
| deleteUser_rejected (payload : string).

Definition has_id (i : string) (u : User.t) : bool :=
  String.eqb (User.id u) i.

(** [state.selectedUser?.id === i] *)
Definition selected_has_id (s : UsersState) (i : string) : bool :=
  match selectedUser s with
  | Some u => has_id i u
  | None => false
  end.

Definition set_user_isActive (v : bool) (u : User.t) : User.t :=
  User.mk (User.id u) (User.email u) (User.firstName u) (User.lastName u)
          (User.role u) (User.avatar u) (User.department u)
          (User.createdAt u) (User.updatedAt u) v.

Definition reducer (state : UsersState) (action : Action) : UsersState :=
  match action with
  | setTableState payload =>
      set_tableState (PartialTableState.spread (tableState state) payload) state
  | setSelectedUser payload =>
      set_selectedUser payload state
  | clearError =>
      set_error None state
  | optimisticUpdateUserStatus i v =>
      match JS.findIndex (has_id i) (users state) with
      | Some index => set_users (alter (set_user_isActive v) index (users state)) state
      | None => state
      end
  | fetchUsers_pending =>
      let state := set_isLoading true state in
      let state := set_error None state in
      state
  | fetchUsers_fulfilled payload =>
      let state := set_isLoading false state in
      let state := set_users (PaginatedResponse.data payload) state in
      let state := set_pagination (PaginatedResponse.pagination payload) state in
      state
  | fetchUsers_rejected message =>
      let state := set_isLoading false state in
      let state := set_error (Some (JS.or_default message "Failed to fetch users")) state in
      state
  | fetchUserById_pending =>
      set_isLoading true state
  | fetchUserById_fulfilled payload =>
      let state := set_isLoading false state in
      let state := set_selectedUser (Some payload) state in
      state
  | fetchUserById_rejected message =>
      let state := set_isLoading false state in
      let state := set_error (Some (JS.or_default message "Failed to fetch user")) state in
      state
  | createUser_pending =>
      let state := set_isCreating true state in
      let state := set_error None state in
      state
  | createUser_fulfilled payload =>
      let state := set_isCreating false state in
      let state := set_users (payload :: users state) state in
      let state := set_pagination
                     (Pagination.set_total (Pagination.total (pagination state) + 1)
                                           (pagination state)) state in
      state
  | createUser_rejected payload =>
      let state := set_isCreating false state in
      let state := set_error (Some payload) state in
      state
  | updateUser_pending =>
      let state := set_isUpdating true state in
      let state := set_error None state in
      state
  | updateUser_fulfilled payload =>
      let state := set_isUpdating false state in
      let state :=
        match JS.findIndex (has_id (User.id payload)) (users state) with
        | Some index => set_users (<[index := payload]> (users state)) state
        | None => state
        end in
      let state :=
        if selected_has_id state (User.id payload)
        then set_selectedUser (Some payload) state
        else state in
      state
  | updateUser_rejected payload =>
      let state := set_isUpdating false state in
      let state := set_error (Some payload) state in
      state
  | deleteUser_pending =>
      let state := set_isDeleting true state in
      let state := set_error None state in
      state
  | deleteUser_fulfilled payload =>
      let state := set_isDeleting false state in
      let state := set_users
                     (List.filter (fun u => negb (has_id payload u)) (users state)) state in
      let state := set_pagination
                     (Pagination.set_total (Pagination.total (pagination state) - 1)
                                           (pagination state)) state in
      let state :=
        if selected_has_id state payload
        then set_selectedUser None state
        else state in
      state
  | deleteUser_rejected payload =>
      let state := set_isDeleting false state in
      let state := set_error (Some payload) state in
      state
  end.

(** Running the reducer over a sequence of dispatched actions. *)
Definition dispatch_all (state : UsersState) (actions : list Action) : UsersState :=
  fold_left reducer actions state.

End UsersSlice.

(* ====================================================================== *)
(** * services/mockApi.ts *)
(* ====================================================================== *)

(** How an [async] function of the mock backend ends: it resolves with a
    value or throws an [Error] with a message. *)
Inductive Outcome (A : Type) : Type :=
| Resolved (value : A)
| Rejected (message : string).

Arguments Resolved {A} _.
Arguments Rejected {A} _.

Module MockApi.

(** The predicate of the [filter] call in [getUsers]. *)
Definition matches (searchLower : string) (u : User.t) : bool :=
  JS.includes (JS.toLowerCase (User.firstName u)) searchLower
  || JS.includes (JS.toLowerCase (User.lastName u)) searchLower
  || JS.includes (JS.toLowerCase (User.email u)) searchLower.

(** [let filtered = mockUsers; if (search) { ... }] *)
Definition filtered (mockUsers : list User.t) (search : string) : list User.t :=
  if JS.truthy search then
    let searchLower := JS.toLowerCase search in
    List.filter (matches searchLower) mockUsers
  else mockUsers.

(** [mockApi.getUsers]; the module-level array [mockUsers] is passed in, the
    simulated network delay plays no part in the result. *)
Definition getUsers (mockUsers : list User.t) (page pageSize : Z) (search : string)
  : PaginatedResponse.t User.t :=
  let filtered := filtered mockUsers search in
  let start := (page - 1) * pageSize in
  let end_ := start + pageSize in
  let data := JS.slice filtered start end_ in
  {| PaginatedResponse.data := data;
     PaginatedResponse.pagination :=
       {| Pagination.page := page;
          Pagination.pageSize := pageSize;
          Pagination.total := Z.of_nat (length filtered);
          Pagination.totalPages := JS.Math_ceil_div (Z.of_nat (length filtered)) pageSize |} |}.

(** [mockApi.deleteUser] *)
Definition deleteUser (mockUsers : list User.t) (id : string) : list User.t :=
  List.filter (fun u => negb (String.eqb (User.id u) id)) mockUsers.

(** [`${n}`] for an integer [n]. *)
Definition decimal (n : Z) : string :=
  NilZero.string_of_int (Z.to_int n).

(** The demo accounts; [loadedAt] is the time stamp taken when the module
    is loaded. *)
Record DemoUser := mkDemoUser {
  password : string;
  user : User.t
}.

Definition adminUser (loadedAt : string) : User.t :=
  User.mk "admin-1" "admin@enterprise.com" "Admin" "User" RoleAdmin
          None (Some "IT") loadedAt loadedAt true.

Definition managerUser (loadedAt : string) : User.t :=
  User.mk "manager-1" "manager@enterprise.com" "Manager" "User" RoleManager
          None (Some "Sales") loadedAt loadedAt true.

Definition regularUser (loadedAt : string) : User.t :=
  User.mk "user-1" "user@enterprise.com" "Regular" "User" RoleUser
          None (Some "Marketing") loadedAt loadedAt true.

Definition demoUsers (loadedAt : string) : gmap string DemoUser :=
  <[ "admin@enterprise.com" := mkDemoUser "admin123" (adminUser loadedAt) ]>
  (<[ "manager@enterprise.com" := mkDemoUser "manager123" (managerUser loadedAt) ]>
   (<[ "user@enterprise.com" := mkDemoUser "user123" (regularUser loadedAt) ]> ∅)).

(** [mockApi.login]; [now] and [now'] are the two reads of [Date.now()]. *)
Definition login (loadedAt : string) (now now' : Z) (email pass : string)
  : Outcome AuthResponse.t :=
  match demoUsers loadedAt !! email with
  | Some demoUser =>
      if negb (String.eqb (password demoUser) pass)
      then Rejected "Invalid email or password"
      else Resolved {| AuthResponse.user := user demoUser;
                       AuthResponse.token := "mock-jwt-token-" ++ decimal now;
                       AuthResponse.refreshToken := "mock-refresh-token-" ++ decimal now';
                       AuthResponse.expiresIn := 3600 |}
  | None => Rejected "Invalid email or password"
  end.

(** [mockApi.refreshToken] *)
Definition refreshToken (loadedAt : string) (now now' : Z) (refreshToken : string)
  : Outcome AuthResponse.t :=
  if negb (String.prefix "mock-refresh-token" refreshToken)
  then Rejected "Invalid refresh token"
  else (* Return admin user for demo *)
    Resolved {| AuthResponse.user := adminUser loadedAt;
                AuthResponse.token := "mock-jwt-token-" ++ decimal now;
                AuthResponse.refreshToken := "mock-refresh-token-" ++ decimal now';
                AuthResponse.expiresIn := 3600 |}.

(** [mockApi.getUserById] *)
Definition getUserById (mockUsers : list User.t) (id : string) : Outcome User.t :=
  match List.find (fun u => String.eqb (User.id u) id) mockUsers with
  | Some u => Resolved u
  | None => Rejected "User not found"
  end.

(** [mockApi.createUser]: the new user and the new value of [mockUsers].
    [now] is [Date.now()], [createdAt] and [updatedAt] the two readings of
    [new Date().toISOString()]. *)
Definition createUser (mockUsers : list User.t) (userData : PartialUser.t)
           (now : Z) (createdAt updatedAt : string) : User.t * list User.t :=
  let newUser :=
    {| User.id := "user-" ++ decimal now;
       User.email := JS.or_default (PartialUser.email userData) "";
       User.firstName := JS.or_default (PartialUser.firstName userData) "";
       User.lastName := JS.or_default (PartialUser.lastName userData) "";
       User.role := PartialUser.over (PartialUser.role userData) RoleUser;
       User.avatar := None;
       User.department := PartialUser.department userData;
       User.createdAt := createdAt;
       User.updatedAt := updatedAt;
       User.isActive := true |} in
  (newUser, newUser :: mockUsers).

Definition set_updatedAt (v : string) (u : User.t) : User.t :=
  User.mk (User.id u) (User.email u) (User.firstName u) (User.lastName u)
          (User.role u) (User.avatar u) (User.department u)
          (User.createdAt u) v (User.isActive u).

(** [mockApi.updateUser]: the outcome and the new value of [mockUsers]. *)
Definition updateUser (mockUsers : list User.t) (id : string) (userData : PartialUser.t)
           (updatedAt : string) : Outcome User.t * list User.t :=
  match JS.findIndex (fun u => String.eqb (User.id u) id) mockUsers with
  | None => (Rejected "User not found", mockUsers)
  | Some index =>
      match mockUsers !! index with
      | Some old =>
          let updated := set_updatedAt updatedAt (PartialUser.spread old userData) in
          (Resolved updated, <[index := updated]> mockUsers)
      | None => (Rejected "User not found", mockUsers)
      end
  end.

End MockApi.

(* ====================================================================== *)
(** * features/users/usersSlice.ts: the thunks *)
(* ====================================================================== *)

Module UsersThunks.

(** The argument of [fetchUsers]; an absent field takes its default. *)
Record FetchUsersArg := mkFetchUsersArg {
  page : option Z;
  pageSize : option Z;
  search : option string
}.

(** Each thunk yields the actions it dispatches, in order, and where the
    backend changes, the new value of [mockUsers]. *)
Definition fetchUsers (mockUsers : list User.t) (arg : FetchUsersArg)
  : list UsersSlice.Action :=
  let page := PartialUser.over (page arg) 1 in
  let pageSize := PartialUser.over (pageSize arg) 25 in
  let search := PartialUser.over (search arg) "" in
  [UsersSlice.fetchUsers_pending;
   UsersSlice.fetchUsers_fulfilled (MockApi.getUsers mockUsers page pageSize search)].

(** The life cycle [createAsyncThunk] gives to [fetchUsers], whatever the
    backend call does: [pending] is dispatched before the payload creator
    runs; when the awaited call resolves, [fulfilled] carries its value; when
    it throws, [rejected] carries the serialised error in [action.error], of
    which the reducer reads [message] only ([undefined] when the thrown value
    has none).  [mockApi.getUsers] itself always resolves. *)
Inductive Settled :=
| Value (response : PaginatedResponse.t User.t)
| Thrown (message : option string).

Definition fetchUsers_settled (outcome : Settled) : list UsersSlice.Action :=
  [UsersSlice.fetchUsers_pending;
   match outcome with
   | Value response => UsersSlice.fetchUsers_fulfilled response
   | Thrown message => UsersSlice.fetchUsers_rejected message
   end].

Definition fetchUserById (mockUsers : list User.t) (id : string) : list UsersSlice.Action :=
  [UsersSlice.fetchUserById_pending;
   match MockApi.getUserById mockUsers id with
   | Resolved u => UsersSlice.fetchUserById_fulfilled u
   | Rejected message => UsersSlice.fetchUserById_rejected (Some message)
   end].

Definition createUser (mockUsers : list User.t) (userData : PartialUser.t)
           (now : Z) (createdAt updatedAt : string)
  : list UsersSlice.Action * list User.t :=
  let '(newUser, mockUsers') := MockApi.createUser mockUsers userData now createdAt updatedAt in
  ([UsersSlice.createUser_pending; UsersSlice.createUser_fulfilled newUser], mockUsers').

Definition updateUser (mockUsers : list User.t) (id : string) (data : PartialUser.t)
           (updatedAt : string)
  : list UsersSlice.Action * list User.t :=
  match MockApi.updateUser mockUsers id data updatedAt with
  | (Resolved u, mockUsers') =>
      ([UsersSlice.updateUser_pending; UsersSlice.updateUser_fulfilled u], mockUsers')
  | (Rejected message, mockUsers') =>
      ([UsersSlice.updateUser_pending; UsersSlice.updateUser_rejected message], mockUsers')
  end.

Definition deleteUser (mockUsers : list User.t) (id : string)
  : list UsersSlice.Action * list User.t :=
  ([UsersSlice.deleteUser_pending; UsersSlice.deleteUser_fulfilled id],
   MockApi.deleteUser mockUsers id).

End UsersThunks.

(* ====================================================================== *)
(** * hooks/usePagination.ts *)
(* ====================================================================== *)

Module UsePagination.

(** The two [useState] cells of the hook. *)
Record State := mkState {
  page : Z;
  pageSize : Z
}.

Definition initial (initialPage initialPageSize : Z) : State :=
  {| page := initialPage; pageSize := initialPageSize |}.

(** What a render computes from the prop [totalItems] and the cells as it
    sees them. *)
Definition totalPages (totalItems : Z) (st : State) : Z :=
  JS.Math_ceil_div totalItems (pageSize st).

Definition startIndex (st : State) : Z :=
  (page st - 1) * pageSize st.

Definition endIndex (totalItems : Z) (st : State) : Z :=
  Z.min (startIndex st + pageSize st - 1) (totalItems - 1).

Definition hasPreviousPage (st : State) : bool :=
  1 <? page st.

Definition hasNextPage (totalItems : Z) (st : State) : bool :=
  page st <? totalPages totalItems st.

(** The callbacks.  A callback is created by a render and closes over what
    that render computed ([totalPages], [hasNextPage], [hasPreviousPage]):
    [render] is the state that render saw.  [prev] is the state the update
    is applied to, that is the cells with the updates queued before this
    one: [setPage((prev) => prev + 1)] reads the cell when the update runs,
    [setPage(validPage)] overwrites it. *)
Definition goToPage (totalItems : Z) (render : State) (newPage : Z) (prev : State) : State :=
  let validPage := Z.max 1 (Z.min newPage (totalPages totalItems render)) in
  {| page := validPage; pageSize := pageSize prev |}.

Definition nextPage (totalItems : Z) (render : State) (prev : State) : State :=
  if hasNextPage totalItems render
  then {| page := page prev + 1; pageSize := pageSize prev |}
  else prev.

Definition previousPage (render : State) (prev : State) : State :=
  if hasPreviousPage render
  then {| page := page prev - 1; pageSize := pageSize prev |}
  else prev.

Definition setPageSize (size : Z) (prev : State) : State :=
  {| page := 1; pageSize := size |}.

(** The operations the hook returns, as a command language. *)
Inductive Op :=
| GoToPage (newPage : Z)
| NextPage
| PreviousPage
| SetPageSize (size : Z).

Definition call (totalItems : Z) (render : State) (op : Op) (prev : State) : State :=
  match op with
  | GoToPage newPage => goToPage totalItems render newPage prev
  | NextPage => nextPage totalItems render prev
  | PreviousPage => previousPage render prev
  | SetPageSize size => setPageSize size prev
  end.

(** A mounted hook: the prop and the state its last render saw (of which
    the callbacks in the hands of the component are made), and the cells
    with the updates queued since. *)
Record Hook := mkHook {
  prop : Z;
  seen : State;
  cells : State
}.

(** What happens to a mounted hook: the component calls one of the
    callbacks of the last render, or it renders again, with the value the
    prop [totalItems] has by then. *)
Inductive Event :=
| Call (op : Op)
| Render (totalItems : Z).

Definition mount (totalItems initialPage initialPageSize : Z) : Hook :=
  {| prop := totalItems;
     seen := initial initialPage initialPageSize;
     cells := initial initialPage initialPageSize |}.

Definition handle (h : Hook) (e : Event) : Hook :=
  match e with
  | Call op =>
      {| prop := prop h; seen := seen h; cells := call (prop h) (seen h) op (cells h) |}
  | Render totalItems =>
      {| prop := totalItems; seen := cells h; cells := cells h |}
  end.

Definition run (h : Hook) (events : list Event) : Hook :=
  fold_left handle events h.

(** Every page size a call installs is positive (the UI offers 10, 25, 50
    and 100). *)
Definition event_ok (e : Event) : bool :=
  match e with
  | Call (SetPageSize size) => 0 <? size
  | _ => true
  end.

(** Every call is made with the callbacks of the latest render: a render
    separates any two calls.  [fresh] says whether the hook has rendered
    since the last call. *)
Fixpoint one_call_per_render (fresh : bool) (events : list Event) : bool :=
  match events with
  | [] => true
  | Call _ :: rest => fresh && one_call_per_render false rest
  | Render _ :: rest => one_call_per_render true rest
  end.

(** The prop [totalItems] never falls below [totalItems], its value at the
    last render, from one render to the next. *)
Fixpoint total_never_shrinks (totalItems : Z) (events : list Event) : bool :=
  match events with
  | [] => true
  | Call _ :: rest => total_never_shrinks totalItems rest
  | Render n :: rest => (totalItems <=? n) && total_never_shrinks n rest
  end.

(** The page numbers offered by the pagination UI.  [Array.from] with a
    length that is not positive yields the empty array. *)
Definition pageNumbers (totalItems : Z) (st : State) : list Z :=
  let maxVisible := 5 in
  let half := JS.Math_floor_div maxVisible 2 in
  let start := Z.max 1 (page st - half) in
  let end_ := Z.min (totalPages totalItems st) (start + maxVisible - 1) in
  let start :=
    if end_ - start + 1 <? maxVisible then Z.max 1 (end_ - maxVisible + 1) else start in
  map (fun i => start + Z.of_nat i) (seq 0 (Z.to_nat (end_ - start + 1))).

End UsePagination.

(* ====================================================================== *)
(** * components/common/DataTable.tsx: the pagination buttons *)
(* ====================================================================== *)

Module DataTable.

(** The page handed to [onPageChange] by the "previous" button, [None] when
    the button is disabled. *)
Definition previousButton (pagination : Pagination.t) (isLoading : bool) : option Z :=
  if (Pagination.page pagination <=? 1) || isLoading
  then None
  else Some (Pagination.page pagination - 1).

(** The same for the "next" button. *)
Definition nextButton (pagination : Pagination.t) (isLoading : bool) : option Z :=
  if (Pagination.page pagination >=? Pagination.totalPages pagination) || isLoading
  then None
  else Some (Pagination.page pagination + 1).

(** What the component renders: the early returns of [DataTableInner], in
    their order, then the table with one row per element of [data]. *)
Inductive View (T : Type) : Type :=
| LoadingView
| ErrorView (description : string)
| EmptyView
| TableView (rows : list T).

Arguments LoadingView {T}.
Arguments ErrorView {T} _.
Arguments EmptyView {T}.
Arguments TableView {T} _.

Definition view {T : Type} (data : list T) (isLoading : bool) (error : option string)
  : View T :=
  if isLoading && (length data =? 0)%nat then LoadingView
  else match error with
       | Some description =>
           if JS.truthy description then ErrorView description
           else if (length data =? 0)%nat then EmptyView else TableView data
       | None =>
           if (length data =? 0)%nat then EmptyView else TableView data
       end.

End DataTable.

(* ====================================================================== *)
(** * pages/UsersPage.tsx and pages/ProductsPage.tsx: query state *)
(* ====================================================================== *)

Module UsersPage.

(** [handlePageChange]: [dispatch(setTableState({ page }))] *)
Definition handlePageChange (page : Z) : UsersSlice.Action :=
  UsersSlice.setTableState
    (PartialTableState.mk (Some page) None None None None).

(** [handlePageSizeChange]: [dispatch(setTableState({ pageSize, page: 1 }))] *)
Definition handlePageSizeChange (pageSize : Z) : UsersSlice.Action :=
  UsersSlice.setTableState
    (PartialTableState.mk (Some 1) (Some pageSize) None None None).

(** The effect on [debouncedSearch]:
    [dispatch(setTableState({ search: debouncedSearch, page: 1 }))] *)
Definition searchEffect (debouncedSearch : string) : UsersSlice.Action :=
  UsersSlice.setTableState
    (PartialTableState.mk (Some 1) None None None (Some debouncedSearch)).

(** The updates of the query state the page can issue. *)
Inductive Update :=
| PageChange (page : Z)
| PageSizeChange (pageSize : Z)
| SearchChange (debouncedSearch : string).

Definition action_of (u : Update) : UsersSlice.Action :=
  match u with
  | PageChange page => handlePageChange page
  | PageSizeChange pageSize => handlePageSizeChange pageSize
  | SearchChange debouncedSearch => searchEffect debouncedSearch
  end.

Definition apply (state : UsersSlice.UsersState) (u : Update) : UsersSlice.UsersState :=
  UsersSlice.reducer state (action_of u).

Definition apply_all (state : UsersSlice.UsersState) (us : list Update) : UsersSlice.UsersState :=
  fold_left apply us state.

(** The fetch effect: [fetchUsers({ page: tableState.page, pageSize:
    tableState.pageSize, search: debouncedSearch })]. *)
Definition fetchEffect (state : UsersSlice.UsersState) (debouncedSearch : string)
  : UsersThunks.FetchUsersArg :=
  {| UsersThunks.page := Some (TableState.page (UsersSlice.tableState state));
     UsersThunks.pageSize := Some (TableState.pageSize (UsersSlice.tableState state));
     UsersThunks.search := Some debouncedSearch |}.

(** The props handed to [DataTable]: [data={users}], [isLoading], [error]. *)
Definition tableView (state : UsersSlice.UsersState) : DataTable.View User.t :=
  DataTable.view (UsersSlice.users state) (UsersSlice.isLoading state)
                 (UsersSlice.error state).

(** [pagination={pagination}] and [isLoading] as seen by the two buttons. *)
Definition previousButton (state : UsersSlice.UsersState) : option Z :=
  DataTable.previousButton (UsersSlice.pagination state) (UsersSlice.isLoading state).

Definition nextButton (state : UsersSlice.UsersState) : option Z :=
  DataTable.nextButton (UsersSlice.pagination state) (UsersSlice.isLoading state).

End UsersPage.

Module ProductsPage.

(** What the products page holds about the current query: the slice's
    [tableState] (updated through [setTableState], the same merge as in the
    users slice) and the component state [categoryFilter]. *)
Record QueryState := mkQueryState {
  tableState : TableState.t;
  categoryFilter : string
}.

(** The argument of [fetchProducts] issued by the fetch effect. *)
Record Descriptor := mkDescriptor {
  page : Z;
  pageSize : Z;
  search : string;
  category : string
}.

Definition descriptor (q : QueryState) (debouncedSearch : string) : Descriptor :=
  {| page := TableState.page (tableState q);
     pageSize := TableState.pageSize (tableState q);
     search := debouncedSearch;
     category := categoryFilter q |}.

(** [setCategoryFilter(category)], the [onClick] of a category menu item. *)
Definition setCategoryFilter (category : string) (q : QueryState) : QueryState :=
  {| tableState := tableState q; categoryFilter := category |}.

End ProductsPage.

(* ====================================================================== *)
(** * features/auth/authSlice.ts *)
(* ====================================================================== *)

Module AuthSlice.

(** [config.tokenKey] and [config.refreshTokenKey]. *)
Definition tokenKey : string := "enterprise_auth_token".
Definition refreshTokenKey : string := "enterprise_refresh_token".

(** The initial state is read from [localStorage] when the module loads. *)
Definition initialState (localStorage : gmap string string) : AuthState.t :=
  {| AuthState.user := None;
     AuthState.token := localStorage !! tokenKey;
     AuthState.refreshToken := localStorage !! refreshTokenKey;
     AuthState.isAuthenticated := JS.truthy_opt (localStorage !! tokenKey);
     AuthState.isLoading := false;
     AuthState.error := None |}.

Inductive Action :=
| setCredentials (payload : AuthResponse.t)
| logout
| clearError
| updateUser (payload : PartialUser.t)
| loginAsync_pending
| loginAsync_fulfilled (payload : AuthResponse.t)
| loginAsync_rejected (payload : string)
| logoutAsync_fulfilled
| refreshTokenAsync_fulfilled (payload : AuthResponse.t)
| refreshTokenAsync_rejected.

Import AuthState.

Definition reducer (state : AuthState.t) (action : Action) : AuthState.t :=
  match action with
  | setCredentials payload =>
      let state := set_user (Some (AuthResponse.user payload)) state in
      let state := set_token (Some (AuthResponse.token payload)) state in
      let state := set_refreshToken (Some (AuthResponse.refreshToken payload)) state in
      let state := set_isAuthenticated true state in
      let state := set_error None state in
      state
  | logout =>
      let state := set_user None state in
      let state := set_token None state in
      let state := set_refreshToken None state in
      let state := set_isAuthenticated false state in
      let state := set_error None state in
      state
  | clearError =>
      set_error None state
  | updateUser payload =>
      match user state with
      | Some u => set_user (Some (PartialUser.spread u payload)) state
      | None => state
      end
  | loginAsync_pending =>
      let state := set_isLoading true state in
      let state := set_error None state in
      state
  | loginAsync_fulfilled payload =>
      let state := set_isLoading false state in
      let state := set_user (Some (AuthResponse.user payload)) state in
      let state := set_token (Some (AuthResponse.token payload)) state in
      let state := set_refreshToken (Some (AuthResponse.refreshToken payload)) state in
      let state := set_isAuthenticated true state in
      state
  | loginAsync_rejected payload =>
      let state := set_isLoading false state in
      let state := set_error (Some payload) state in
      state
  | logoutAsync_fulfilled =>
      let state := set_user None state in
      let state := set_token None state in
      let state := set_refreshToken None state in
      let state := set_isAuthenticated false state in
      state
  | refreshTokenAsync_fulfilled payload =>
      let state := set_token (Some (AuthResponse.token payload)) state in
      let state := set_refreshToken (Some (AuthResponse.refreshToken payload)) state in
      let state := set_user (Some (AuthResponse.user payload)) state in
      let state := set_isAuthenticated true state in
      state
  | refreshTokenAsync_rejected =>
      let state := set_user None state in
      let state := set_token None state in
      let state := set_refreshToken None state in
      let state := set_isAuthenticated false state in
      state
  end.

(** The [logout] reducer also removes both keys from [localStorage]; no other
    reducer touches it. *)
Definition reducer_storage (localStorage : gmap string string) (action : Action)
  : gmap string string :=
  match action with
  | logout => delete refreshTokenKey (delete tokenKey localStorage)
  | _ => localStorage
  end.

Definition dispatch_all (state : AuthState.t) (actions : list Action) : AuthState.t :=
  fold_left reducer actions state.

(** The equivalence of the flag and the token. *)
Definition consistent (state : AuthState.t) : Prop :=
  isAuthenticated state = true <-> token state <> None.

End AuthSlice.

(* ====================================================================== *)
(** * features/auth/authSlice.ts: the thunks and the store around them *)
(* ====================================================================== *)

Module AuthThunks.

(** Each thunk yields the actions the slice handles, in the order they are
    dispatched, and the new content of [localStorage]. *)
Definition loginAsync (localStorage : gmap string string)
           (loadedAt : string) (now now' : Z) (email pass : string)
  : list AuthSlice.Action * gmap string string :=
  match MockApi.login loadedAt now now' email pass with
  | Resolved response =>
      (* Store tokens *)
      ([AuthSlice.loginAsync_pending; AuthSlice.loginAsync_fulfilled response],
       <[AuthSlice.refreshTokenKey := AuthResponse.refreshToken response]>
         (<[AuthSlice.tokenKey := AuthResponse.token response]> localStorage))
  | Rejected message =>
      ([AuthSlice.loginAsync_pending; AuthSlice.loginAsync_rejected message], localStorage)
  end.

Definition logoutAsync (localStorage : gmap string string)
  : list AuthSlice.Action * gmap string string :=
  ([AuthSlice.logoutAsync_fulfilled],
   delete AuthSlice.refreshTokenKey (delete AuthSlice.tokenKey localStorage)).

Definition refreshTokenAsync (localStorage : gmap string string)
           (loadedAt : string) (now now' : Z) (refreshToken : string)
  : list AuthSlice.Action * gmap string string :=
  match MockApi.refreshToken loadedAt now now' refreshToken with
  | Resolved response =>
      ([AuthSlice.refreshTokenAsync_fulfilled response],
       <[AuthSlice.refreshTokenKey := AuthResponse.refreshToken response]>
         (<[AuthSlice.tokenKey := AuthResponse.token response]> localStorage))
  | Rejected _ =>
      ([AuthSlice.refreshTokenAsync_rejected],
       delete AuthSlice.refreshTokenKey (delete AuthSlice.tokenKey localStorage))
  end.

(** The auth state together with the browser storage it is loaded from. *)
Record Session := mkSession {
  auth : AuthState.t;
  localStorage : gmap string string
}.

(** Dispatching an action: the reducer, and its writes to [localStorage]. *)
Definition dispatch (s : Session) (action : AuthSlice.Action) : Session :=
  {| auth := AuthSlice.reducer (auth s) action;
     localStorage := AuthSlice.reducer_storage (localStorage s) action |}.

(** Running a thunk: its storage writes, then its actions. *)
Definition run_thunk (s : Session)
           (thunk : gmap string string -> list AuthSlice.Action * gmap string string)
  : Session :=
  let '(actions, storage) := thunk (localStorage s) in
  fold_left dispatch actions {| auth := auth s; localStorage := storage |}.

(** Reloading the page: the slice starts again from what is stored. *)
Definition reload (s : Session) : Session :=
  {| auth := AuthSlice.initialState (localStorage s);
     localStorage := localStorage s |}.

End AuthThunks.

(* ====================================================================== *)
(** * hooks/usePermissions.ts and the permission table of types/index.ts *)
(* ====================================================================== *)

Module UsePermissions.

Inductive Permission :=
| users_read | users_write | users_delete
| products_read | products_write | products_delete
| dashboard_admin | dashboard_manager
| reports_read | reports_export
| settings_read | settings_write.

#[global] Instance Permission_eq_dec : EqDecision Permission.
Proof. solve_decision. Defined.

#[global] Instance UserRole_eq_dec : EqDecision UserRole.
Proof. solve_decision. Defined.

Definition ROLE_PERMISSIONS (role : UserRole) : list Permission :=
  match role with
  | RoleAdmin =>
      [users_read; users_write; users_delete;
       products_read; products_write; products_delete;
       dashboard_admin; dashboard_manager;
       reports_read; reports_export;
       settings_read; settings_write]
  | RoleManager =>
      [users_read;
       products_read; products_write;
       dashboard_manager;
       reports_read; reports_export]
  | RoleUser =>
      [products_read;
       reports_read]
  end.

(** [Array.prototype.includes] *)
Definition includes {A : Type} `{EqDecision A} (l : list A) (x : A) : bool :=
  existsb (fun y => bool_decide (y = x)) l.

(** [selectUserRole]: [state.auth.user?.role] *)
Definition selectUserRole (state : AuthState.t) : option UserRole :=
  option_map User.role (AuthState.user state).

Definition permissions (userRole : option UserRole) : list Permission :=
  match userRole with
  | None => []
  | Some role => ROLE_PERMISSIONS role
  end.

Definition hasPermission (userRole : option UserRole) (permission : Permission) : bool :=
  includes (permissions userRole) permission.

Definition hasAnyPermission (userRole : option UserRole) (required : list Permission) : bool :=
  existsb (fun p => includes (permissions userRole) p) required.

Definition hasAllPermissions (userRole : option UserRole) (required : list Permission) : bool :=
  forallb (fun p => includes (permissions userRole) p) required.

Definition canAccessRoute (userRole : option UserRole) (allowedRoles : list UserRole) : bool :=
  match userRole with
  | None => false
  | Some role => includes allowedRoles role
  end.

End UsePermissions.

(* ====================================================================== *)
(** * The navigation table, the routes and the route guard *)
(* ====================================================================== *)

Module Config.

Record NavItem := mkNavItem {
  id : string;
  label : string;
  path : string;
  icon : string;
  permissions : list UserRole
}.

(** [navigationConfig] *)
Definition navigationConfig : list NavItem :=
  [ mkNavItem "dashboard" "Dashboard" "/dashboard" "LayoutDashboard"
              [RoleAdmin; RoleManager; RoleUser];
    mkNavItem "users" "Users" "/users" "Users" [RoleAdmin; RoleManager];
    mkNavItem "products" "Products" "/products" "Package"
              [RoleAdmin; RoleManager; RoleUser];
    mkNavItem "reports" "Reports" "/reports" "BarChart3" [RoleAdmin; RoleManager];
    mkNavItem "settings" "Settings" "/settings" "Settings" [RoleAdmin] ].

End Config.

Module ProtectedRoute.

Inductive Rendered :=
| NavigateToLogin
| NavigateToDashboard
| Children.

(** The component body; [allowedRoles] is an optional prop. *)
Definition render (state : AuthState.t) (allowedRoles : option (list UserRole)) : Rendered :=
  let isAuthenticated := AuthState.isAuthenticated state in
  let userRole := UsePermissions.selectUserRole state in
  if negb isAuthenticated then NavigateToLogin
  else
    match allowedRoles, userRole with
    | Some roles, Some role =>
        if (0 <? length roles)%nat && negb (UsePermissions.includes roles role)
        then NavigateToDashboard
        else Children
    | _, _ => Children
    end.

End ProtectedRoute.

Module App.

(** The [allowedRoles] of the guard around each page route; every page
    route also sits inside the outer guard, which has none. *)
Definition allowedRoles (path : string) : option (list UserRole) :=
  if String.eqb path "/users" then Some [RoleAdmin; RoleManager]
  else if String.eqb path "/reports" then Some [RoleAdmin; RoleManager]
  else if String.eqb path "/settings" then Some [RoleAdmin]
  else None.

(** A page route renders its page when the outer and the inner guard both
    render their children. *)
Definition page_renders (state : AuthState.t) (path : string) : bool :=
  match ProtectedRoute.render state None, ProtectedRoute.render state (allowedRoles path) with
  | ProtectedRoute.Children, ProtectedRoute.Children => true
  | _, _ => false
  end.

(** [AppSidebar]: [navigationConfig.filter((item) =>
    canAccessRoute(item.permissions))] *)
Definition filteredNav (state : AuthState.t) : list Config.NavItem :=
  List.filter
    (fun item => UsePermissions.canAccessRoute (UsePermissions.selectUserRole state)
                                               (Config.permissions item))
    Config.navigationConfig.

End App.

(* ====================================================================== *)
(** * features/ui/uiSlice.ts and hooks/useOnlineStatus.ts *)
(* ====================================================================== *)

Module UiSlice.

Inductive NotificationType := info | success | warning | error.
Inductive Theme := light | dark | system.

Record Notification := mkNotification {
  id : string;
  type : NotificationType;
  title : string;
  message : string;
  read : bool;
  createdAt : string
}.

(** [Omit<Notification, 'id' | 'createdAt' | 'read'>] *)
Record NotificationPayload := mkNotificationPayload {
  p_type : NotificationType;
  p_title : string;
  p_message : string
}.

Record UIState := mkUIState {
  sidebarCollapsed : bool;
  activeModal : option string;
  isOnline : bool;
  notifications : list Notification;
  theme : Theme
}.

(** [onLine] is [navigator.onLine] when the module loads. *)
Definition initialState (onLine : bool) : UIState :=
  {| sidebarCollapsed := false;
     activeModal := None;
     isOnline := onLine;
     notifications := [];
     theme := light |}.

(** [addNotification] reads the clock inside the reducer; the readings
    travel with the action here. *)
Inductive Action :=
| toggleSidebar
| setSidebarCollapsed (payload : bool)
| openModal (payload : string)
| closeModal
| setOnlineStatus (payload : bool)
| addNotification (payload : NotificationPayload) (now : Z) (createdAt : string)
| markNotificationAsRead (payload : string)
| markAllNotificationsAsRead
| clearNotifications
| setTheme (payload : Theme).

Definition set_read (v : bool) (n : Notification) : Notification :=
  mkNotification (id n) (type n) (title n) (message n) v (createdAt n).

Definition set_notifications (v : list Notification) (state : UIState) : UIState :=
  mkUIState (sidebarCollapsed state) (activeModal state) (isOnline state) v (theme state).

Definition reducer (state : UIState) (action : Action) : UIState :=
  match action with
  | toggleSidebar =>
      mkUIState (negb (sidebarCollapsed state)) (activeModal state) (isOnline state)
                (notifications state) (theme state)
  | setSidebarCollapsed payload =>
      mkUIState payload (activeModal state) (isOnline state)
                (notifications state) (theme state)
  | openModal payload =>
      mkUIState (sidebarCollapsed state) (Some payload) (isOnline state)
                (notifications state) (theme state)
  | closeModal =>
      mkUIState (sidebarCollapsed state) None (isOnline state)
                (notifications state) (theme state)
  | setOnlineStatus payload =>
      mkUIState (sidebarCollapsed state) (activeModal state) payload
                (notifications state) (theme state)
  | addNotification payload now created =>
      let notification :=
        {| id := "notif-" ++ MockApi.decimal now;
           type := p_type payload;
           title := p_title payload;
           message := p_message payload;
           read := false;
           createdAt := created |} in
      let state := set_notifications (notification :: notifications state) state in
      (* Keep only last 50 notifications *)
      if (50 <? length (notifications state))%nat
      then set_notifications (JS.slice (notifications state) 0 50) state
      else state
  | markNotificationAsRead payload =>
      match JS.findIndex (fun n => String.eqb (id n) payload) (notifications state) with
      | Some index =>
          set_notifications (alter (set_read true) index (notifications state)) state
      | None => state
      end
  | markAllNotificationsAsRead =>
      set_notifications (map (set_read true) (notifications state)) state
  | clearNotifications =>
      set_notifications [] state
  | setTheme payload =>
      mkUIState (sidebarCollapsed state) (activeModal state) (isOnline state)
                (notifications state) payload
  end.

Definition dispatch_all (state : UIState) (actions : list Action) : UIState :=
  fold_left reducer actions state.

(** [selectUnreadNotificationsCount] *)
Definition selectUnreadNotificationsCount (state : UIState) : nat :=
  length (List.filter (fun n => negb (read n)) (notifications state)).

(** [useOnlineStatus]: what the two event handlers dispatch. *)
Definition handleOnline (now : Z) (createdAt : string) : list Action :=
  [setOnlineStatus true;
   addNotification
     (mkNotificationPayload success "Connection Restored"
        "You are back online. All features are now available.") now createdAt].

Definition handleOffline (now : Z) (createdAt : string) : list Action :=
  [setOnlineStatus false;
   addNotification
     (mkNotificationPayload warning "Connection Lost"
        "You are currently offline. Some features may be limited.") now createdAt].

End UiSlice.

(* ====================================================================== *)
(** * services/api.ts: the base query with re-authentication *)
(* ====================================================================== *)

Module Api.

(** Response data has type [unknown] in the source.  The code tests its
    truthiness and casts it to [AuthResponse] without a check; both are
    taken as given. *)
Class Unknown := {
  Data : Type;
  truthy : Data -> bool;
  asAuthResponse : Data -> AuthResponse.t
}.

Inductive Body :=
| BodyRefresh (refreshToken : option string)   (* [{ refreshToken }] *)
| BodyJson (json : string).

Record FetchArgs := mkFetchArgs {
  url : string;
  method : string;
  body : option Body
}.

(** [string | FetchArgs] *)
Inductive Args :=
| ArgsUrl (url : string)
| ArgsFetch (fetchArgs : FetchArgs).

(** What goes on the wire: the arguments and the [Authorization] header
    that [prepareHeaders] has set, if any. *)
Record Request := mkRequest {
  args : Args;
  authorization : option string
}.

(** [FetchBaseQueryError['status']] *)
Inductive Status :=
| HttpStatus (code : Z)
| FETCH_ERROR
| PARSING_ERROR
| TIMEOUT_ERROR
| CUSTOM_ERROR.

#[global] Instance Body_eq_dec : EqDecision Body.
Proof. solve_decision. Defined.
#[global] Instance FetchArgs_eq_dec : EqDecision FetchArgs.
Proof. solve_decision. Defined.
#[global] Instance Args_eq_dec : EqDecision Args.
Proof. solve_decision. Defined.

Section Transport.
Context `{Unknown}.

(** The result of [fetchBaseQuery]: [{ data }] or [{ error }]. *)
Inductive QueryResult :=
| ResultData (data : Data)
| ResultError (status : Status).

(** [result.error && result.error.status === 401] *)
Definition is401 (result : QueryResult) : bool :=
  match result with
  | ResultError (HttpStatus code) => code =? 401
  | _ => false
  end.

(** [if (refreshResult.data)]: the data when it is there and truthy. *)
Definition truthy_data (result : QueryResult) : option Data :=
  match result with
  | ResultData data => if truthy data then Some data else None
  | ResultError _ => None
  end.

(** An [async] function body: it reads the store, dispatches actions, and
    suspends at each [await] of a network call until the response is
    delivered. *)
Inductive Prog (A : Type) : Type :=
| Ret (a : A)
| GetState (k : AuthState.t -> Prog A)
| Dispatch (action : AuthSlice.Action) (k : Prog A)
| Await (req : Request) (k : QueryResult -> Prog A).

Arguments Ret {A} _.
Arguments GetState {A} _.
Arguments Dispatch {A} _ _.
Arguments Await {A} _ _.

Fixpoint bind {A B : Type} (p : Prog A) (f : A -> Prog B) : Prog B :=
  match p with
  | Ret a => f a
  | GetState k => GetState (fun state => bind (k state) f)
  | Dispatch action k => Dispatch action (bind k f)
  | Await req k => Await req (fun result => bind (k result) f)
  end.

Definition getState : Prog AuthState.t := GetState Ret.
Definition dispatch (action : AuthSlice.Action) : Prog unit := Dispatch action (Ret tt).

Local Notation "'let!' x ':=' p 'in' q" := (bind p (fun x => q))
  (at level 10, x name, p at level 100, q at level 200).

(** [prepareHeaders]: the header is set only for a truthy token. *)
Definition prepareHeaders (state : AuthState.t) : option string :=
  match AuthState.token state with
  | Some token => if JS.truthy token then Some ("Bearer " ++ token)%string else None
  | None => None
  end.

(** [baseQuery(args, api, extraOptions)] *)
Definition baseQuery (args : Args) : Prog QueryResult :=
  let! state := getState in
  Await {| args := args; authorization := prepareHeaders state |} Ret.

Definition refreshArgs (refreshToken : option string) : Args :=
  ArgsFetch {| url := "/auth/refresh";
               method := "POST";
               body := Some (BodyRefresh refreshToken) |}.

Definition baseQueryWithReauth (args : Args) : Prog QueryResult :=
  let! result := baseQuery args in
  if is401 result then
    (* Try to refresh the token *)
    let! state := getState in
    let refreshToken := AuthState.refreshToken state in
    if JS.truthy_opt refreshToken then
      let! refreshResult := baseQuery (refreshArgs refreshToken) in
      match truthy_data refreshResult with
      | Some data =>
          let authData := asAuthResponse data in
          let! _ := dispatch (AuthSlice.setCredentials authData) in
          (* Retry the original query *)
          let! result := baseQuery args in
          Ret result
      | None =>
          let! _ := dispatch AuthSlice.logout in
          Ret result
      end
    else
      let! _ := dispatch AuthSlice.logout in
      Ret result
  else
    Ret result.

(** ** Requests in flight

    JavaScript runs one continuation at a time: a call runs up to its next
    [await], and nothing else runs in between.  A world holds the store, the
    calls in flight (each suspended at an [await], or returned) and the log
    of what the calls have sent and dispatched. *)

Inductive Event :=
| Sent (pid : nat) (req : Request)
| Dispatched (pid : nat) (action : AuthSlice.Action).

Record World := mkWorld {
  auth : AuthState.t;
  localStorage : gmap string string;
  procs : list (Prog QueryResult);
  log : list Event
}.

Definition initial (state : AuthState.t) (storage : gmap string string) : World :=
  {| auth := state; localStorage := storage; procs := []; log := [] |}.

(** Run call [pid] until it suspends or returns. *)
Fixpoint settle (pid : nat) (p : Prog QueryResult) (w : World)
  : Prog QueryResult * World :=
  match p with
  | Ret a => (Ret a, w)
  | GetState k => settle pid (k (auth w)) w
  | Dispatch action k =>
      settle pid k
        {| auth := AuthSlice.reducer (auth w) action;
           localStorage := AuthSlice.reducer_storage (localStorage w) action;
           procs := procs w;
           log := log w ++ [Dispatched pid action] |}
  | Await req k =>
      (Await req k,
       {| auth := auth w; localStorage := localStorage w; procs := procs w;
          log := log w ++ [Sent pid req] |})
  end.

Definition set_procs (ps : list (Prog QueryResult)) (w : World) : World :=
  {| auth := auth w; localStorage := localStorage w; procs := ps; log := log w |}.

(** A new call of [baseQueryWithReauth]: it runs to its first [await]. *)
Definition launch (w : World) (a : Args) : World :=
  let pid := length (procs w) in
  let '(p, w') := settle pid (baseQueryWithReauth a) w in
  set_procs (procs w' ++ [p]) w'.

Definition launch_all (w : World) (argsl : list Args) : World :=
  fold_left launch argsl w.

(** The response [result] arrives for the pending [await] of call [pid]. A
    call that has returned awaits nothing, and nothing happens. *)
Definition deliver (w : World) (pid : nat) (result : QueryResult) : World :=
  match procs w !! pid with
  | Some (Await req k) =>
      let '(p, w') := settle pid (k result) w in
      set_procs (<[pid := p]> (procs w')) w'
  | _ => w
  end.

(** A schedule: in which order the responses arrive, and what they are. *)
Definition run (w : World) (schedule : list (nat * QueryResult)) : World :=
  fold_left (fun w d => deliver w (fst d) (snd d)) schedule w.

(** ** Counting what happened *)

Definition is_refresh (a : Args) : bool :=
  match a with
  | ArgsUrl u => String.eqb u "/auth/refresh"
  | ArgsFetch f => String.eqb (url f) "/auth/refresh"
  end.

Definition is_logout (action : AuthSlice.Action) : bool :=
  match action with
  | AuthSlice.logout => true
  | _ => false
  end.

Definition pid_of (e : Event) : nat :=
  match e with
  | Sent pid _ => pid
  | Dispatched pid _ => pid
  end.

(** A call of the refresh endpoint. *)
Definition is_refresh_call (e : Event) : bool :=
  match e with
  | Sent _ req => is_refresh (args req)
  | Dispatched _ _ => false
  end.

(** A send of the request [a]. *)
Definition is_send_of (a : Args) (e : Event) : bool :=
  match e with
  | Sent _ req => bool_decide (args req = a)
  | Dispatched _ _ => false
  end.

(** The logout signal. *)
Definition is_logout_signal (e : Event) : bool :=
  match e with
  | Sent _ _ => false
  | Dispatched _ action => is_logout action
  end.

Definition by_call (pid : nat) (f : Event -> bool) (e : Event) : bool :=
  Nat.eqb (pid_of e) pid && f e.

Definition count (f : Event -> bool) (l : list Event) : nat :=
  length (List.filter f l).

(** Refresh calls issued by call [pid]. *)
Definition refresh_calls (pid : nat) (w : World) : nat :=
  count (by_call pid is_refresh_call) (log w).

(** Times call [pid] has sent its own request [a]: the first is the
    original send, any further one is a retry. *)
Definition sends (pid : nat) (a : Args) (w : World) : nat :=
  count (by_call pid (is_send_of a)) (log w).

(** Logout signals emitted by call [pid]. *)
Definition logouts (pid : nat) (w : World) : nat :=
  count (by_call pid is_logout_signal) (log w).

(** The same, over all calls. *)
Definition total_refresh_calls (w : World) : nat :=
  count is_refresh_call (log w).

Definition total_logouts (w : World) : nat :=
  count is_logout_signal (log w).

(** The credential state is cleared. *)
Definition cleared (state : AuthState.t) : Prop :=
  AuthState.token state = None
  /\ AuthState.refreshToken state = None
  /\ AuthState.isAuthenticated state = false.

(** ** The suspension points of [baseQueryWithReauth]

    The code that remains to run at each of its three [await]s, written out;
    [baseQueryWithReauth_unfold] below checks that this is the function
    above. *)

(** After [result = await baseQuery(args, ...)] of the retry. *)
Definition after_retry : QueryResult -> Prog QueryResult :=
  fun result => Ret result.

(** After [refreshResult = await baseQuery({ url: '/auth/refresh', ... })]. *)
Definition after_refresh (a : Args) (result : QueryResult)
  : QueryResult -> Prog QueryResult :=
  fun refreshResult =>
    match truthy_data refreshResult with
    | Some data =>
        Dispatch (AuthSlice.setCredentials (asAuthResponse data))
          (GetState (fun state =>
             Await {| args := a; authorization := prepareHeaders state |} after_retry))
    | None => Dispatch AuthSlice.logout (Ret result)
    end.

(** After the first [result = await baseQuery(args, ...)]. *)
Definition after_first (a : Args) : QueryResult -> Prog QueryResult :=
  fun result =>
    if is401 result then
      GetState (fun state =>
        if JS.truthy_opt (AuthState.refreshToken state) then
          GetState (fun state' =>
            Await {| args := refreshArgs (AuthState.refreshToken state);
                     authorization := prepareHeaders state' |}
                  (after_refresh a result))
        else Dispatch AuthSlice.logout (Ret result))
    else Ret result.

(** Where a call of [baseQueryWithReauth a] stands. *)
Inductive Phase :=
| AwaitFirst                          (* the original request is out *)
| AwaitRefresh (result : QueryResult) (* the refresh call is out; [result] is the 401 *)
| AwaitRetry                          (* the retry is out *)
| Returned (result : QueryResult).

Definition at_phase (a : Args) (ph : Phase) (p : Prog QueryResult) : Prop :=
  match ph with
  | AwaitFirst =>
      exists hdr, p = Await {| args := a; authorization := hdr |} (after_first a)
  | AwaitRefresh result =>
      exists rt hdr,
        p = Await {| args := refreshArgs rt; authorization := hdr |} (after_refresh a result)
  | AwaitRetry =>
      exists hdr, p = Await {| args := a; authorization := hdr |} after_retry
  | Returned result => p = Ret result
  end.

(** What the log may hold about a call in a given phase. *)
Definition counts_ok (pid : nat) (a : Args) (ph : Phase) (w : World) : Prop :=
  match ph with
  | AwaitFirst =>
      refresh_calls pid w = 0%nat /\ sends pid a w = 1%nat /\ logouts pid w = 0%nat
  | AwaitRefresh _ =>
      refresh_calls pid w = 1%nat /\ sends pid a w = 1%nat /\ logouts pid w = 0%nat
  | AwaitRetry =>
      refresh_calls pid w = 1%nat /\ sends pid a w = 2%nat /\ logouts pid w = 0%nat
  | Returned _ =>
      (refresh_calls pid w <= 1)%nat
      /\ (1 <= sends pid a w <= 1 + refresh_calls pid w)%nat
      /\ (logouts pid w <= 1)%nat
      /\ (sends pid a w = 2%nat -> logouts pid w = 0%nat)
  end.

(** The invariant of the worlds reached from [launch_all] by deliveries:
    one call per request, every event belongs to a call, and every call is
    in a phase that agrees with the log. *)
Definition inv (argsl : list Args) (w : World) : Prop :=
  length (procs w) = length argsl
  /\ Forall (fun e => (pid_of e < length argsl)%nat) (log w)
  /\ forall pid a, argsl !! pid = Some a ->
       exists ph p, procs w !! pid = Some p /\ at_phase a ph p /\ counts_ok pid a ph w.

(** Call [pid] receives [r] and has no way to refresh: either [r] is a 401
    for its first request while the store holds no truthy refresh token, or
    [r] is the response of its refresh call and carries no truthy data (as
    every error response does). *)
Definition refresh_ruled_out (w : World) (pid : nat) (r : QueryResult) : Prop :=
  (exists req a,
      procs w !! pid = Some (Await req (after_first a))
      /\ is401 r = true
      /\ JS.truthy_opt (AuthState.refreshToken (auth w)) = false)
  \/ (exists req a result,
         procs w !! pid = Some (Await req (after_refresh a result))
         /\ truthy_data r = None).

End Transport.

Arguments Ret {_ A} _.
Arguments GetState {_ A} _.
Arguments Dispatch {_ A} _ _.
Arguments Await {_ A} _ _.

(** A concrete reading of response data for the examples: a body is an
    [AuthResponse] or empty. *)
Definition no_user : User.t :=
  User.mk "" "" "" "" RoleUser None None "" "" false.

Definition example_data : Unknown :=
  {| Data := option AuthResponse.t;
     truthy := fun d => match d with Some _ => true | None => false end;
     asAuthResponse := fun d => match d with
                                | Some a => a
                                | None => AuthResponse.mk no_user "" "" 0
                                end |}.

End Api.

(* ====================================================================== *)
(** * Vocabulary of the statements *)
(* ====================================================================== *)

Module Spec.

(** [n] is the ceiling of the quotient [a / b] for a positive [b]:
    [n - 1 < a / b <= n], with the division cleared. *)
Definition is_ceiling (n a b : Z) : Prop :=
  (n - 1) * b < a <= n * b.

(** The page of the pagination hook lies between 1 and the number of pages,
    and is 1 when there are no pages. *)
Definition page_in_range (totalItems : Z) (st : UsePagination.State) : Prop :=
  1 <= UsePagination.page st
  <= Z.max 1 (UsePagination.totalPages totalItems st).

(** All fields of a table state except [page]. *)
Definition same_but_page (a b : TableState.t) : Prop :=
  TableState.pageSize a = TableState.pageSize b
  /\ TableState.sort a = TableState.sort b
  /\ TableState.filters a = TableState.filters b
  /\ TableState.search a = TableState.search b.

End Spec.

(* ====================================================================== *)
(** * Properties *)
(* ====================================================================== *)

Section UsersSliceFacts.
Import UsersSlice.

(** C5. A page fetch that fails records the error of that call and leaves
    the previously stored page untouched.  After the call ([pending], then
    [rejected]) the [error] field holds the message of the failure, or
    [Failed to fetch users] when the failure carries no message or an empty
    one, so that it is never empty; [isLoading] is down; and [users] and
    [pagination] (and the selection and the table state) are exactly what
    they were before the call, as they are while the call is running.  The
    same holds of the [rejected] step on its own, in any state. *)
Theorem fetch_rejected_keeps_stale_page
  (state : UsersState) (mockUsers : list User.t) (arg : UsersThunks.FetchUsersArg)
  (message : option string) :
  let during := reducer state fetchUsers_pending in
  let state' := dispatch_all state (UsersThunks.fetchUsers_settled (UsersThunks.Thrown message)) in
  let alone := reducer state (fetchUsers_rejected message) in
  state' = reducer during (fetchUsers_rejected message)
  /\ error state' = Some (JS.or_default message "Failed to fetch users")
  /\ (forall m, message = Some m -> m <> "" -> error state' = Some m)
  /\ (message = None \/ message = Some "" -> error state' = Some "Failed to fetch users")
  /\ (exists msg, error state' = Some msg /\ msg <> "")
  /\ isLoading state' = false
  /\ users state' = users state
  /\ pagination state' = pagination state
  /\ selectedUser state' = selectedUser state
  /\ tableState state' = tableState state
  /\ users during = users state
  /\ pagination during = pagination state
  /\ error alone = error state'
  /\ isLoading alone = false
  /\ users alone = users state
  /\ pagination alone = pagination state
  /\ selectedUser alone = selectedUser state
  /\ tableState alone = tableState state
  /\ UsersThunks.fetchUsers mockUsers arg
     = UsersThunks.fetchUsers_settled
         (UsersThunks.Value
            (MockApi.getUsers mockUsers
               (PartialUser.over (UsersThunks.page arg) 1)
               (PartialUser.over (UsersThunks.pageSize arg) 25)
               (PartialUser.over (UsersThunks.search arg) ""))).
Proof.
  cbv zeta.
  assert (Hor : forall m, m <> "" -> JS.or_default (Some m) "Failed to fetch users" = m).
  { intros m Hm. unfold JS.or_default, JS.truthy.
    destruct (String.eqb_spec m "") as [->|_]; [contradiction|reflexivity]. }
  assert (Hne : JS.or_default message "Failed to fetch users" <> "").
  { destruct message as [m|]; [|discriminate].
    destruct (String.eqb_spec m "") as [->|Hm]; [discriminate|].
    rewrite (Hor m Hm). exact Hm. }
  split; [reflexivity|].
  split; [reflexivity|].
  split.
  { intros m -> Hm. cbn [dispatch_all UsersThunks.fetchUsers_settled fold_left].
    cbn [reducer error set_error set_isLoading]. rewrite (Hor m Hm). reflexivity. }
  split.
  { intros [->| ->]; reflexivity. }
  split.
  { eexists. split; [reflexivity|exact Hne]. }
  repeat split.
Qed.

End UsersSliceFacts.

Section NumberFacts.

(** On a positive divisor, dividing and rounding down is Euclidean
    division. *)
Lemma Math_floor_div_pos (a b : Z) :
  0 < b -> JS.Math_floor_div a b = a / b.
Proof.
  intros Hb. unfold JS.Math_floor_div.
  destruct b as [|p|p]; try lia.
  cbn. rewrite Z.mul_1_r. reflexivity.
Qed.

(** On a positive divisor, dividing and rounding up is the negated
    Euclidean quotient of the negated dividend. *)
Lemma Math_ceil_div_pos (a b : Z) :
  0 < b -> JS.Math_ceil_div a b = - ((- a) / b).
Proof.
  intros Hb. unfold JS.Math_ceil_div.
  destruct b as [|p|p]; try lia.
  unfold Qceiling. cbn. rewrite Z.mul_1_r. reflexivity.
Qed.

(** The ceiling is the least integer whose multiple reaches the dividend. *)
Lemma Math_ceil_div_bounds (a b : Z) :
  0 < b ->
  (JS.Math_ceil_div a b - 1) * b < a <= JS.Math_ceil_div a b * b.
Proof.
  intros Hb. rewrite Math_ceil_div_pos by assumption.
  pose proof (Z.div_mod (- a) b ltac:(lia)) as Hdm.
  pose proof (Z.mod_pos_bound (- a) b Hb) as Hm.
  nia.
Qed.

Lemma Math_ceil_div_unique (a b n : Z) :
  0 < b -> (n - 1) * b < a <= n * b -> n = JS.Math_ceil_div a b.
Proof.
  intros Hb Hn. pose proof (Math_ceil_div_bounds a b Hb) as Hc. nia.
Qed.

Lemma Math_ceil_div_nonneg (a b : Z) :
  0 < b -> 0 <= a -> 0 <= JS.Math_ceil_div a b.
Proof.
  intros Hb Ha. pose proof (Math_ceil_div_bounds a b Hb). nia.
Qed.

Lemma Math_ceil_div_ge_1 (a b : Z) :
  0 < b -> 0 < a -> 1 <= JS.Math_ceil_div a b.
Proof.
  intros Hb Ha. pose proof (Math_ceil_div_bounds a b Hb). nia.
Qed.

Lemma Math_ceil_div_0 (b : Z) :
  0 < b -> JS.Math_ceil_div 0 b = 0.
Proof.
  intros Hb. symmetry. apply Math_ceil_div_unique; lia.
Qed.

Lemma Math_floor_div_bounds (a b : Z) :
  0 < b ->
  JS.Math_floor_div a b * b <= a < (JS.Math_floor_div a b + 1) * b.
Proof.
  intros Hb. rewrite Math_floor_div_pos by assumption.
  pose proof (Z.div_mod a b ltac:(lia)) as Hdm.
  pose proof (Z.mod_pos_bound a b Hb) as Hm.
  nia.
Qed.

End NumberFacts.

Section MockApiFacts.

(** C7. For every page returned by [mockApi.getUsers] with a positive page
    size, [total] is the number of users that match the search (hence not
    negative) and [totalPages] is exactly the ceiling of [total / pageSize]:
    the one integer [n] with [n - 1 < total / pageSize <= n].  The hook
    [usePagination] computes the same number from the same two inputs. *)
Theorem totalPages_is_ceiling
  (mockUsers : list User.t) (page pageSize : Z) (search : string) :
  0 < pageSize ->
  let p := PaginatedResponse.pagination (MockApi.getUsers mockUsers page pageSize search) in
  Pagination.total p = Z.of_nat (length (MockApi.filtered mockUsers search))
  /\ 0 <= Pagination.total p
  /\ Pagination.pageSize p = pageSize
  /\ Spec.is_ceiling (Pagination.totalPages p) (Pagination.total p) pageSize
  /\ (forall n, Spec.is_ceiling n (Pagination.total p) pageSize -> n = Pagination.totalPages p)
  /\ UsePagination.totalPages (Pagination.total p) (UsePagination.mkState page pageSize)
     = Pagination.totalPages p.
Proof.
  intros Hps. cbn.
  split; [reflexivity|].
  split; [lia|].
  split; [reflexivity|].
  split; [apply Math_ceil_div_bounds; assumption|].
  split; [|reflexivity].
  intros n Hn. apply Math_ceil_div_unique; assumption.
Qed.

Lemma totalPages_is_ceiling_witness :
  let users := [User.mk "user-1" "user1@enterprise.com" "John" "Smith" RoleAdmin None None "" "" true;
                User.mk "user-2" "user2@enterprise.com" "Jane" "Brown" RoleUser None None "" "" true;
                User.mk "user-3" "user3@enterprise.com" "Emma" "Smith" RoleUser None None "" "" false] in
  let p := PaginatedResponse.pagination (MockApi.getUsers users 1 2 "") in
  0 < 2
  /\ Pagination.total p = 3 /\ Pagination.totalPages p = 2
  /\ Spec.is_ceiling (Pagination.totalPages p) (Pagination.total p) 2.
Proof.
  intros users p.
  assert (Hps : 0 < 2) by lia.
  destruct (totalPages_is_ceiling users 1 2 "" Hps) as (_ & _ & _ & Hceil & _).
  split; [exact Hps|]. split; [reflexivity|]. split; [reflexivity|]. exact Hceil.
Defined.

(** The search is case-insensitive on first name, last name and e-mail. *)
Example getUsers_search_smith :
  let users := [User.mk "user-1" "user1@enterprise.com" "John" "Smith" RoleAdmin None None "" "" true;
                User.mk "user-2" "user2@enterprise.com" "Jane" "Brown" RoleUser None None "" "" true;
                User.mk "user-3" "user3@enterprise.com" "Emma" "Smith" RoleUser None None "" "" false] in
  let r := MockApi.getUsers users 1 25 "SMITH" in
  map User.id (PaginatedResponse.data r) = ["user-1"; "user-3"]
  /\ Pagination.total (PaginatedResponse.pagination r) = 2
  /\ Pagination.totalPages (PaginatedResponse.pagination r) = 1.
Proof. repeat split. Qed.

End MockApiFacts.

Section UsersSliceRoundTrip.
Import UsersSlice.

Lemma pagination_after_create_pending (state : UsersState) :
  pagination (reducer state createUser_pending) = pagination state.
Proof. reflexivity. Qed.

Lemma pagination_after_delete_pending (state : UsersState) :
  pagination (reducer state deleteUser_pending) = pagination state.
Proof. reflexivity. Qed.

Lemma total_after_create_fulfilled (state : UsersState) (created : User.t) :
  Pagination.total (pagination (reducer state (createUser_fulfilled created)))
  = Pagination.total (pagination state) + 1.
Proof. reflexivity. Qed.

Lemma total_after_delete_fulfilled (state : UsersState) (id : string) :
  Pagination.total (pagination (reducer state (deleteUser_fulfilled id)))
  = Pagination.total (pagination state) - 1.
Proof.
  unfold reducer. cbv zeta.
  match goal with |- context [if ?c then _ else _] => destruct c end; reflexivity.
Qed.

(** C8. Whatever the cache state, a create that succeeds followed by a
    delete that succeeds on the id of the created entity brings [total] back
    to its value before the create: the create adds exactly 1, the delete
    takes exactly 1 away. *)
Theorem create_then_delete_restores_total (state : UsersState) (created : User.t) :
  let s1 := dispatch_all state [createUser_pending; createUser_fulfilled created] in
  let s2 := dispatch_all s1 [deleteUser_pending; deleteUser_fulfilled (User.id created)] in
  Pagination.total (pagination s1) = Pagination.total (pagination state) + 1
  /\ Pagination.total (pagination s2) = Pagination.total (pagination s1) - 1
  /\ Pagination.total (pagination s2) = Pagination.total (pagination state).
Proof.
  cbv zeta. unfold dispatch_all. cbn [fold_left].
  rewrite !total_after_delete_fulfilled, !pagination_after_delete_pending,
    !total_after_create_fulfilled, !pagination_after_create_pending.
  lia.
Qed.

End UsersSliceRoundTrip.

Section QueryStateFacts.
Import UsersSlice.

(** The table state after a page change, a page-size change and a search
    change, spelled out. *)
Lemma apply_PageChange (state : UsersState) (page : Z) :
  tableState (UsersPage.apply state (UsersPage.PageChange page))
  = TableState.mk page
      (TableState.pageSize (tableState state)) (TableState.sort (tableState state))
      (TableState.filters (tableState state)) (TableState.search (tableState state)).
Proof. reflexivity. Qed.

Lemma apply_PageSizeChange (state : UsersState) (pageSize : Z) :
  tableState (UsersPage.apply state (UsersPage.PageSizeChange pageSize))
  = TableState.mk 1 pageSize (TableState.sort (tableState state))
      (TableState.filters (tableState state)) (TableState.search (tableState state)).
Proof. reflexivity. Qed.

Lemma apply_SearchChange (state : UsersState) (debouncedSearch : string) :
  tableState (UsersPage.apply state (UsersPage.SearchChange debouncedSearch))
  = TableState.mk 1 (TableState.pageSize (tableState state))
      (TableState.sort (tableState state)) (TableState.filters (tableState state))
      debouncedSearch.
Proof. reflexivity. Qed.

(** [setTableState] on its own changes a filter and keeps the page; a
    category chosen on the products page changes the descriptor and keeps
    the page as well. *)
Lemma filter_update_keeps_page :
  let on_page_3 := UsersPage.apply initialState (UsersPage.PageChange 3) in
  let only_filters :=
    PartialTableState.mk None None None
      (Some [FilterConfig.mk "role" op_eq (FString "admin")]) None in
  let after := reducer on_page_3 (setTableState only_filters) in
  let q := ProductsPage.mkQueryState (tableState on_page_3) "" in
  let q' := ProductsPage.setCategoryFilter "Books" q in
  (TableState.filters (tableState after) <> TableState.filters (tableState on_page_3)
   /\ TableState.page (tableState after) = 3
   /\ TableState.page (tableState after) <> 1)
  /\ (ProductsPage.category (ProductsPage.descriptor q' "")
        <> ProductsPage.category (ProductsPage.descriptor q "")
      /\ ProductsPage.page (ProductsPage.descriptor q' "") = 3
      /\ ProductsPage.page (ProductsPage.descriptor q' "") <> 1).
Proof. cbn. repeat split; discriminate. Qed.

(** C4 (as the code has it). [setTableState] merges the partial it is given
    into the table state: a field the partial does not name keeps its value.
    After any sequence of the updates the users page issues, a page-size
    change and a search change yield [page = 1] (their partial names
    [page: 1]), and a page change sets [page] and leaves [pageSize], [sort],
    [filters] and [search] as they were. *)
Theorem query_updates_page_reset (state : UsersState) (us : list UsersPage.Update) :
  let current := UsersPage.apply_all state us in
  (forall pageSize,
      let ts := tableState (UsersPage.apply current (UsersPage.PageSizeChange pageSize)) in
      TableState.page ts = 1 /\ TableState.pageSize ts = pageSize)
  /\ (forall debouncedSearch,
      let ts := tableState (UsersPage.apply current (UsersPage.SearchChange debouncedSearch)) in
      TableState.page ts = 1 /\ TableState.search ts = debouncedSearch)
  /\ (forall page,
      let ts := tableState (UsersPage.apply current (UsersPage.PageChange page)) in
      TableState.page ts = page /\ Spec.same_but_page ts (tableState current))
  /\ (forall payload,
      let ts := tableState (reducer current (setTableState payload)) in
      (PartialTableState.page payload = None ->
       TableState.page ts = TableState.page (tableState current))
      /\ (PartialTableState.pageSize payload = None ->
          TableState.pageSize ts = TableState.pageSize (tableState current))
      /\ (PartialTableState.sort payload = None ->
          TableState.sort ts = TableState.sort (tableState current))
      /\ (PartialTableState.filters payload = None ->
          TableState.filters ts = TableState.filters (tableState current))
      /\ (PartialTableState.search payload = None ->
          TableState.search ts = TableState.search (tableState current))).
Proof.
  intros current.
  split; [intros pageSize; rewrite apply_PageSizeChange; split; reflexivity|].
  split; [intros s; rewrite apply_SearchChange; split; reflexivity|].
  split; [intros page; rewrite apply_PageChange; repeat split; reflexivity|].
  intros payload. cbn.
  repeat split; intros ->; reflexivity.
Qed.

(** Only the table state is touched by these updates: the stored page of
    users and its pagination stay as they are. *)
Lemma apply_all_keeps_page_data (state : UsersState) (us : list UsersPage.Update) :
  users (UsersPage.apply_all state us) = users state
  /\ pagination (UsersPage.apply_all state us) = pagination state.
Proof.
  revert state. induction us as [|u us IH]; intros state; [split; reflexivity|].
  cbn [UsersPage.apply_all fold_left].
  destruct (IH (UsersPage.apply state u)) as [Hu Hp].
  unfold UsersPage.apply_all in Hu, Hp. rewrite Hu, Hp.
  destruct u; split; reflexivity.
Qed.

End QueryStateFacts.

Section PaginationFacts.
Import UsePagination.

(** With an empty collection there are no pages, and [goToPage] still
    leaves the page at 1. *)
Lemma goToPage_empty_collection :
  let st := goToPage 0 (initial 1 25) 5 (initial 1 25) in
  totalPages 0 st = 0
  /\ page st = 1
  /\ ~ (1 <= page st <= totalPages 0 st).
Proof.
  assert (Hpages : totalPages 0 (goToPage 0 (initial 1 25) 5 (initial 1 25)) = 0)
    by reflexivity.
  assert (Hpage : page (goToPage 0 (initial 1 25) 5 (initial 1 25)) = 1) by reflexivity.
  cbv zeta. rewrite Hpages, Hpage. lia.
Qed.

(** Two calls of [nextPage] from one render both pass the guard of that
    render, and the page leaves the range: page 3 of 2. *)
Example nextPage_twice_in_one_render :
  let h := run (mount 50 1 25) [Call NextPage; Call NextPage] in
  page (cells h) = 3 /\ totalPages (prop h) (cells h) = 2
  /\ page (cells (run (mount 50 1 25) [Call NextPage; Render 50; Call NextPage])) = 2.
Proof. repeat split. Qed.

(** The hook takes [initialPage] as it is given. *)
Example initialPage_is_not_clamped :
  let h := mount 10 7 25 in
  page (cells h) = 7 /\ totalPages (prop h) (cells h) = 1.
Proof. repeat split. Qed.

(** When the collection shrinks the page stays where it was. *)
Example page_outlives_shrinking_total :
  let h := run (mount 137 1 25) [Call (GoToPage 6); Render 10] in
  page (cells h) = 6 /\ totalPages (prop h) (cells h) = 1.
Proof. repeat split. Qed.

Lemma goToPage_page (totalItems newPage : Z) (render prev : State) :
  page (goToPage totalItems render newPage prev)
  = Z.max 1 (Z.min newPage (totalPages totalItems render)).
Proof. reflexivity. Qed.

Lemma Math_ceil_div_mono (a a' b : Z) :
  0 < b -> a <= a' -> JS.Math_ceil_div a b <= JS.Math_ceil_div a' b.
Proof.
  intros Hb Ha.
  pose proof (Math_ceil_div_bounds a b Hb). pose proof (Math_ceil_div_bounds a' b Hb).
  nia.
Qed.

(** A call made with the callbacks of a render that saw the cells as they
    are keeps the page in range. *)
Lemma call_in_range (totalItems : Z) (st : State) (op : Op) :
  event_ok (Call op) = true ->
  0 < pageSize st ->
  Spec.page_in_range totalItems st ->
  0 < pageSize (call totalItems st op st)
  /\ Spec.page_in_range totalItems (call totalItems st op st).
Proof.
  unfold Spec.page_in_range. intros Hop Hps Hst.
  destruct op as [newPage| | |size]; cbn [call].
  - split; [exact Hps|]. rewrite goToPage_page.
    change (totalPages totalItems (goToPage totalItems st newPage st))
      with (totalPages totalItems st).
    lia.
  - unfold nextPage, hasNextPage.
    destruct (Z.ltb_spec (page st) (totalPages totalItems st)) as [Hlt|Hge];
      [|split; assumption].
    split; [exact Hps|].
    change (totalPages totalItems {| page := page st + 1; pageSize := pageSize st |})
      with (totalPages totalItems st).
    cbn [page]. lia.
  - unfold previousPage, hasPreviousPage.
    destruct (Z.ltb_spec 1 (page st)) as [Hlt|Hge]; [|split; assumption].
    split; [exact Hps|].
    change (totalPages totalItems {| page := page st - 1; pageSize := pageSize st |})
      with (totalPages totalItems st).
    cbn [page]. lia.
  - cbn in Hop. apply Z.ltb_lt in Hop. cbn. split; lia.
Qed.

(** A render under a total that has not shrunk keeps the page in range. *)
Lemma render_in_range (totalItems n : Z) (st : State) :
  0 < pageSize st ->
  totalItems <= n ->
  Spec.page_in_range totalItems st ->
  Spec.page_in_range n st.
Proof.
  unfold Spec.page_in_range, totalPages. intros Hps Hn Hst.
  pose proof (Math_ceil_div_mono totalItems n (pageSize st) Hps Hn). lia.
Qed.

Lemma run_in_range (events : list Event) (h : Hook) (fresh : bool) :
  one_call_per_render fresh events = true ->
  forallb event_ok events = true ->
  total_never_shrinks (prop h) events = true ->
  (fresh = true -> seen h = cells h) ->
  0 < pageSize (cells h) ->
  Spec.page_in_range (prop h) (cells h) ->
  0 < pageSize (cells (run h events))
  /\ Spec.page_in_range (prop (run h events)) (cells (run h events)).
Proof.
  revert h fresh.
  induction events as [|e events IH]; intros h fresh Hone Hok Hmono Hfresh Hps Hst.
  { split; assumption. }
  cbn [forallb] in Hok. apply andb_prop in Hok as [He Hok].
  cbn [run fold_left]. fold (run (handle h e) events).
  destruct e as [op|n].
  - cbn [one_call_per_render] in Hone. apply andb_prop in Hone as [Hf Hone].
    cbn [total_never_shrinks] in Hmono.
    specialize (Hfresh Hf).
    destruct (call_in_range (prop h) (cells h) op He Hps Hst) as [Hps' Hst'].
    apply (IH _ false); cbn [handle prop seen cells]; try assumption.
    + discriminate.
    + rewrite Hfresh. exact Hps'.
    + rewrite Hfresh. exact Hst'.
  - cbn [one_call_per_render] in Hone.
    cbn [total_never_shrinks] in Hmono. apply andb_prop in Hmono as [Hle Hmono].
    apply Z.leb_le in Hle.
    apply (IH _ true); cbn [handle prop seen cells]; try assumption.
    + reflexivity.
    + apply (render_in_range (prop h)); assumption.
Qed.

(** C6 (as the code has it). Once the total is known, the pagination hook
    keeps its page between 1 and the number of pages, and at 1 when the
    collection is empty (where the number of pages is 0).  This holds for a
    hook mounted with a positive page size on a page in that range
    ([initialPage] is taken as given), under every sequence of calls of
    [goToPage], [nextPage], [previousPage] and [setPageSize] (with positive
    sizes) and of renders in which the component renders between any two
    calls (a callback tests what its own render saw) and the total does not
    shrink from one render to the next.  [goToPage] sets the page to
    [max 1 (min newPage totalPages)], which lies in [1, totalPages] as soon
    as there is a page.  The buttons of the data table only ask for the
    neighbouring page while it exists. *)
Theorem page_kept_in_range
  (totalItems initialPage initialPageSize : Z) (events : list Event) (newPage : Z)
  (pagination : Pagination.t) (isLoading : bool) :
  0 < initialPageSize ->
  Spec.page_in_range totalItems (initial initialPage initialPageSize) ->
  one_call_per_render true events = true ->
  forallb event_ok events = true ->
  total_never_shrinks totalItems events = true ->
  let h := run (mount totalItems initialPage initialPageSize) events in
  let st := cells h in
  let pages := totalPages (prop h) st in
  Spec.page_in_range (prop h) st
  /\ 0 < pageSize st
  /\ (0 < prop h -> 1 <= page st <= pages)
  /\ page (goToPage (prop h) st newPage st) = Z.max 1 (Z.min newPage pages)
  /\ (1 <= pages -> 1 <= page (goToPage (prop h) st newPage st) <= pages)
  /\ (1 <= newPage <= pages -> page (goToPage (prop h) st newPage st) = newPage)
  /\ (pages <= 0 -> page (goToPage (prop h) st newPage st) = 1)
  /\ (forall p, DataTable.previousButton pagination isLoading = Some p ->
                p = Pagination.page pagination - 1 /\ 1 <= p)
  /\ (forall p, DataTable.nextButton pagination isLoading = Some p ->
                p = Pagination.page pagination + 1 /\ p <= Pagination.totalPages pagination).
Proof.
  intros Hps Hinit Hone Hok Hmono h st pages.
  destruct (run_in_range events (mount totalItems initialPage initialPageSize) true
              Hone Hok Hmono (fun _ => eq_refl) Hps Hinit) as [Hsz Hr].
  fold h in Hsz, Hr. fold st in Hsz, Hr.
  split; [assumption|]. split; [assumption|].
  split.
  { intros Hpos. pose proof (Math_ceil_div_ge_1 (prop h) (pageSize st) Hsz Hpos) as Hge.
    unfold Spec.page_in_range in Hr. fold (totalPages (prop h) st) in Hge.
    subst pages. lia. }
  rewrite goToPage_page. fold pages.
  split; [reflexivity|].
  split; [lia|]. split; [lia|]. split; [lia|].
  split.
  - intros p. unfold DataTable.previousButton.
    destruct (Z.leb_spec (Pagination.page pagination) 1); cbn; [discriminate|].
    destruct isLoading; [discriminate|]. intros [= <-]. lia.
  - intros p. unfold DataTable.nextButton.
    destruct (Z.geb_spec (Pagination.page pagination) (Pagination.totalPages pagination));
      cbn; [discriminate|].
    destruct isLoading; [discriminate|]. intros [= <-]. lia.
Qed.

Lemma page_kept_in_range_witness :
  let events := [Call (GoToPage 7); Render 137; Call PreviousPage; Render 140;
                 Call (SetPageSize 50); Render 140; Call NextPage; Render 140;
                 Call NextPage; Render 140; Call NextPage] in
  let h := run (mount 137 2 25) events in
  0 < 25
  /\ Spec.page_in_range 137 (initial 2 25)
  /\ one_call_per_render true events = true
  /\ forallb event_ok events = true
  /\ total_never_shrinks 137 events = true
  /\ Spec.page_in_range (prop h) (cells h)
  /\ page (cells h) = 3 /\ totalPages (prop h) (cells h) = 3.
Proof.
  intros events h.
  assert (Hps : 0 < 25) by lia.
  assert (Hinit : Spec.page_in_range 137 (initial 2 25)) by (vm_compute; split; discriminate).
  assert (Hone : one_call_per_render true events = true) by reflexivity.
  assert (Hok : forallb event_ok events = true) by reflexivity.
  assert (Hmono : total_never_shrinks 137 events = true) by reflexivity.
  destruct (page_kept_in_range 137 2 25 events 7 (Pagination.mk 1 25 137 6) false
              Hps Hinit Hone Hok Hmono) as [Hr _].
  split; [exact Hps|]. split; [exact Hinit|]. split; [exact Hone|].
  split; [exact Hok|]. split; [exact Hmono|].
  split; [exact Hr|]. split; reflexivity.
Defined.

(** The scenario of the specification: 137 items in pages of 25 make 6
    pages; the hook clamps a request for page 7 to page 6; the backend
    answers a request for page 7 with an empty page and the same totals; on
    page 6 the "next" button is disabled. *)
Example scenario_137_items :
  let mockUsers :=
    map (fun i => User.mk "user" "user@enterprise.com" "John" "Smith" RoleUser
                          None None "" "" true) (seq 0 137) in
  let first := MockApi.getUsers mockUsers 1 25 "" in
  let seventh := MockApi.getUsers mockUsers 7 25 "" in
  Pagination.total (PaginatedResponse.pagination first) = 137
  /\ Pagination.totalPages (PaginatedResponse.pagination first) = 6
  /\ length (PaginatedResponse.data first) = 25%nat
  /\ page (goToPage 137 (initial 1 25) 7 (initial 1 25)) = 6
  /\ PaginatedResponse.data seventh = []
  /\ PaginatedResponse.pagination seventh = Pagination.mk 7 25 137 6
  /\ DataTable.nextButton (Pagination.mk 6 25 137 6) false = None.
Proof. vm_compute. repeat split. Qed.

End PaginationFacts.

Section AuthSliceFacts.
Import AuthSlice.

(** An empty string under the token key is a token that is not [null] and
    is falsy: the initial state then holds a token and is not
    authenticated. *)
Lemma initialState_empty_token_inconsistent :
  let state := initialState {[ tokenKey := "" ]} in
  AuthState.token state = Some ""
  /\ AuthState.isAuthenticated state = false
  /\ ~ consistent state.
Proof.
  assert (Ht : AuthState.token (initialState {[ tokenKey := "" ]}) = Some "")
    by (unfold initialState; cbn [AuthState.token]; apply lookup_singleton_eq).
  assert (Ha : AuthState.isAuthenticated (initialState {[ tokenKey := "" ]}) = false)
    by (unfold initialState; cbn [AuthState.isAuthenticated];
        rewrite lookup_singleton_eq; reflexivity).
  cbv zeta. split; [exact Ht|]. split; [exact Ha|].
  unfold consistent. rewrite Ht, Ha. intros [_ H].
  discriminate H. discriminate.
Qed.

(** Every reducer of the slice either leaves the token and the flag alone or
    sets them together. *)
Lemma reducer_consistent (state : AuthState.t) (action : Action) :
  consistent state -> consistent (reducer state action).
Proof.
  unfold consistent. intros H.
  destruct action; cbn; try exact H;
    try (split; [discriminate|reflexivity]);
    try (split; [discriminate|intros Hn; exfalso; apply Hn; reflexivity]).
  destruct (AuthState.user state); exact H.
Qed.

Lemma dispatch_all_consistent (actions : list Action) (state : AuthState.t) :
  consistent state -> consistent (dispatch_all state actions).
Proof.
  revert state. induction actions as [|a actions IH]; intros state H; [exact H|].
  cbn [dispatch_all fold_left]. apply IH. apply reducer_consistent. exact H.
Qed.

Lemma initialState_consistent (localStorage : gmap string string) :
  localStorage !! tokenKey <> Some "" ->
  consistent (initialState localStorage).
Proof.
  unfold consistent, initialState. cbn. intros Hne.
  destruct (localStorage !! tokenKey) as [t|]; cbn.
  - unfold JS.truthy. destruct (String.eqb_spec t "") as [->|Hd]; cbn.
    + exfalso. apply Hne. reflexivity.
    + split; [discriminate|reflexivity].
  - split; [discriminate|intros H; exfalso; apply H; reflexivity].
Qed.

(** C10 (as the code has it). When the token found in [localStorage] at
    start-up is absent or not the empty string, then in every state reached
    from the initial state by any sequence of auth actions [isAuthenticated]
    is true exactly when the token is not [null]; and from any state, the
    actions that store or clear credentials establish the equivalence
    whatever held before. *)
Theorem isAuthenticated_iff_token
  (localStorage : gmap string string) (actions : list Action) :
  localStorage !! tokenKey <> Some "" ->
  consistent (dispatch_all (initialState localStorage) actions)
  /\ (forall state payload,
         consistent (reducer state (setCredentials payload))
         /\ consistent (reducer state (loginAsync_fulfilled payload))
         /\ consistent (reducer state (refreshTokenAsync_fulfilled payload))
         /\ consistent (reducer state logout)
         /\ consistent (reducer state logoutAsync_fulfilled)
         /\ consistent (reducer state refreshTokenAsync_rejected)).
Proof.
  intros Hne. split.
  - apply dispatch_all_consistent, initialState_consistent, Hne.
  - intros state payload. unfold consistent. cbn.
    repeat split; try discriminate; try reflexivity;
      intros Hn; exfalso; apply Hn; reflexivity.
Qed.

Lemma isAuthenticated_iff_token_witness :
  let stored : gmap string string := {[ tokenKey := "mock-jwt-token-1" ]} in
  let admin := User.mk "admin-1" "admin@enterprise.com" "Admin" "User" RoleAdmin
                       None (Some "IT") "" "" true in
  let actions := [clearError; logout; loginAsync_pending;
                  loginAsync_fulfilled (AuthResponse.mk admin "mock-jwt-token-2"
                                                        "mock-refresh-token-2" 3600);
                  updateUser (PartialUser.mk None None (Some "Root") None None None None
                                             None None None)] in
  stored !! tokenKey <> Some ""
  /\ consistent (dispatch_all (initialState stored) actions).
Proof.
  intros stored admin actions.
  assert (Hne : stored !! tokenKey <> Some "").
  { unfold stored. rewrite lookup_singleton_eq. discriminate. }
  split; [exact Hne|].
  apply (isAuthenticated_iff_token stored actions Hne).
Defined.

End AuthSliceFacts.

Section TransportFacts.
Import Api.
Context `{Unknown}.

(** The suspension points are those of the function. *)
Lemma baseQueryWithReauth_unfold (a : Args) :
  baseQueryWithReauth a
  = GetState (fun state =>
      Await {| args := a; authorization := prepareHeaders state |} (after_first a)).
Proof. reflexivity. Qed.

(** *** Counting over a growing log *)

Lemma count_app (f : Event -> bool) (l1 l2 : list Event) :
  count f (l1 ++ l2) = (count f l1 + count f l2)%nat.
Proof. unfold count. rewrite List.filter_app, length_app. reflexivity. Qed.

Lemma count_cons (f : Event -> bool) (e : Event) (l : list Event) :
  count f (e :: l) = ((if f e then 1 else 0) + count f l)%nat.
Proof. unfold count. cbn. destruct (f e); reflexivity. Qed.

Lemma count_nil (f : Event -> bool) : count f [] = 0%nat.
Proof. reflexivity. Qed.

Lemma count_none (f : Event -> bool) (l : list Event) :
  Forall (fun e => f e = false) l -> count f l = 0%nat.
Proof.
  unfold count. induction 1 as [|e l He _ IH]; [reflexivity|].
  cbn. rewrite He. exact IH.
Qed.

Lemma count_other_call (pid pid' : nat) (f : Event -> bool) (l evs : list Event) :
  Forall (fun e => pid_of e = pid) evs ->
  pid' <> pid ->
  count (by_call pid' f) (l ++ evs) = count (by_call pid' f) l.
Proof.
  intros Hevs Hne. rewrite count_app, (count_none _ evs); [lia|].
  eapply Forall_impl; [exact Hevs|].
  intros e He. cbn beta in He. unfold by_call. rewrite He.
  destruct (Nat.eqb_spec pid pid'); [congruence|reflexivity].
Qed.

Lemma count_fresh_call (pid : nat) (f : Event -> bool) (l : list Event) :
  Forall (fun e => (pid_of e < pid)%nat) l ->
  count (by_call pid f) l = 0%nat.
Proof.
  intros Hl. apply count_none. eapply Forall_impl; [exact Hl|].
  intros e He. cbn beta in He. unfold by_call.
  destruct (Nat.eqb_spec (pid_of e) pid); [lia|reflexivity].
Qed.

Lemma by_call_Sent (pid : nat) (f : Event -> bool) (req : Request) :
  by_call pid f (Sent pid req) = f (Sent pid req).
Proof. unfold by_call. cbn. rewrite Nat.eqb_refl. reflexivity. Qed.

Lemma by_call_Dispatched (pid : nat) (f : Event -> bool) (action : AuthSlice.Action) :
  by_call pid f (Dispatched pid action) = f (Dispatched pid action).
Proof. unfold by_call. cbn. rewrite Nat.eqb_refl. reflexivity. Qed.

Lemma refreshArgs_is_refresh (rt : option string) :
  is_refresh (refreshArgs rt) = true.
Proof. reflexivity. Qed.

Lemma send_of_refresh (a : Args) (rt : option string) (hdr : option string) (pid : nat) :
  is_refresh a = false ->
  is_send_of a (Sent pid {| args := refreshArgs rt; authorization := hdr |}) = false.
Proof.
  intros Ha. cbn. apply bool_decide_eq_false. intros Heq.
  rewrite <- Heq in Ha. discriminate Ha.
Qed.

Lemma send_of_self (a : Args) (hdr : option string) (pid : nat) :
  is_send_of a (Sent pid {| args := a; authorization := hdr |}) = true.
Proof. cbn. apply bool_decide_eq_true. reflexivity. Qed.

Lemma refresh_call_self (a : Args) (hdr : option string) (pid : nat) :
  is_refresh a = false ->
  is_refresh_call (Sent pid {| args := a; authorization := hdr |}) = false.
Proof. intros Ha. exact Ha. Qed.

(** *** One call, one step *)

Lemma launch_eq (w : World) (a : Args) :
  launch w a
  = {| auth := auth w;
       localStorage := localStorage w;
       procs := procs w
                ++ [Await {| args := a; authorization := prepareHeaders (auth w) |}
                          (after_first a)];
       log := log w ++ [Sent (length (procs w))
                             {| args := a; authorization := prepareHeaders (auth w) |}] |}.
Proof. reflexivity. Qed.

Lemma deliver_nothing (w : World) (pid : nat) (r : QueryResult) :
  procs w !! pid = None -> deliver w pid r = w.
Proof. intros Hp. unfold deliver. rewrite Hp. reflexivity. Qed.

Lemma deliver_returned (w : World) (pid : nat) (r r0 : QueryResult) :
  procs w !! pid = Some (Ret r0) -> deliver w pid r = w.
Proof. intros Hp. unfold deliver. rewrite Hp. reflexivity. Qed.

Lemma deliver_first_passes (w : World) (pid : nat) (req : Request) (a : Args)
      (r : QueryResult) :
  procs w !! pid = Some (Await req (after_first a)) ->
  is401 r = false ->
  deliver w pid r = set_procs (<[pid := Ret r]> (procs w)) w.
Proof.
  intros Hp Hr. unfold deliver. rewrite Hp. unfold after_first. rewrite Hr.
  reflexivity.
Qed.

Lemma deliver_first_refreshes (w : World) (pid : nat) (req : Request) (a : Args)
      (r : QueryResult) :
  procs w !! pid = Some (Await req (after_first a)) ->
  is401 r = true ->
  JS.truthy_opt (AuthState.refreshToken (auth w)) = true ->
  let refresh := {| args := refreshArgs (AuthState.refreshToken (auth w));
                    authorization := prepareHeaders (auth w) |} in
  deliver w pid r
  = {| auth := auth w;
       localStorage := localStorage w;
       procs := <[pid := Await refresh (after_refresh a r)]> (procs w);
       log := log w ++ [Sent pid refresh] |}.
Proof.
  intros Hp Hr Hrt. unfold deliver. rewrite Hp. unfold after_first. rewrite Hr.
  cbn. rewrite Hrt. reflexivity.
Qed.

Lemma deliver_first_logs_out (w : World) (pid : nat) (req : Request) (a : Args)
      (r : QueryResult) :
  procs w !! pid = Some (Await req (after_first a)) ->
  is401 r = true ->
  JS.truthy_opt (AuthState.refreshToken (auth w)) = false ->
  deliver w pid r
  = {| auth := AuthSlice.reducer (auth w) AuthSlice.logout;
       localStorage := AuthSlice.reducer_storage (localStorage w) AuthSlice.logout;
       procs := <[pid := Ret r]> (procs w);
       log := log w ++ [Dispatched pid AuthSlice.logout] |}.
Proof.
  intros Hp Hr Hrt. unfold deliver. rewrite Hp. unfold after_first. rewrite Hr.
  cbn. rewrite Hrt. reflexivity.
Qed.

Lemma deliver_refresh_succeeds (w : World) (pid : nat) (req : Request) (a : Args)
      (result r : QueryResult) (data : Data) :
  procs w !! pid = Some (Await req (after_refresh a result)) ->
  truthy_data r = Some data ->
  let action := AuthSlice.setCredentials (asAuthResponse data) in
  let retry := {| args := a;
                  authorization := prepareHeaders (AuthSlice.reducer (auth w) action) |} in
  deliver w pid r
  = {| auth := AuthSlice.reducer (auth w) action;
       localStorage := localStorage w;
       procs := <[pid := Await retry after_retry]> (procs w);
       log := (log w ++ [Dispatched pid action]) ++ [Sent pid retry] |}.
Proof.
  intros Hp Hr. unfold deliver. rewrite Hp. unfold after_refresh. rewrite Hr.
  reflexivity.
Qed.

Lemma deliver_refresh_fails (w : World) (pid : nat) (req : Request) (a : Args)
      (result r : QueryResult) :
  procs w !! pid = Some (Await req (after_refresh a result)) ->
  truthy_data r = None ->
  deliver w pid r
  = {| auth := AuthSlice.reducer (auth w) AuthSlice.logout;
       localStorage := AuthSlice.reducer_storage (localStorage w) AuthSlice.logout;
       procs := <[pid := Ret result]> (procs w);
       log := log w ++ [Dispatched pid AuthSlice.logout] |}.
Proof.
  intros Hp Hr. unfold deliver. rewrite Hp. unfold after_refresh. rewrite Hr.
  reflexivity.
Qed.

Lemma deliver_retry_returns (w : World) (pid : nat) (req : Request) (r : QueryResult) :
  procs w !! pid = Some (Await req after_retry) ->
  deliver w pid r = set_procs (<[pid := Ret r]> (procs w)) w.
Proof. intros Hp. unfold deliver. rewrite Hp. reflexivity. Qed.

Lemma logout_clears (state : AuthState.t) :
  cleared (AuthSlice.reducer state AuthSlice.logout).
Proof. repeat split. Qed.

(** *** The invariant *)

Lemma count_snoc (f : Event -> bool) (l : list Event) (e : Event) :
  count f (l ++ [e]) = (count f l + (if f e then 1 else 0))%nat.
Proof. rewrite count_app. unfold count. cbn. destruct (f e); reflexivity. Qed.

Lemma counts_ok_other (pid pid' : nat) (a : Args) (ph : Phase) (w w' : World)
      (evs : list Event) :
  log w' = (log w ++ evs)%list ->
  Forall (fun e => pid_of e = pid) evs ->
  pid' <> pid ->
  counts_ok pid' a ph w -> counts_ok pid' a ph w'.
Proof.
  intros Hlog Hevs Hne.
  unfold counts_ok, refresh_calls, sends, logouts. rewrite Hlog.
  rewrite !(count_other_call pid pid') by assumption.
  exact (fun x => x).
Qed.

Lemma inv_initial (state : AuthState.t) (storage : gmap string string) :
  inv [] (initial state storage).
Proof.
  split; [reflexivity|]. split; [constructor|].
  intros pid a Hpid. rewrite lookup_nil in Hpid. discriminate.
Qed.

Lemma inv_update (argsl : list Args) (w w' : World) (pid : nat) (a : Args)
      (evs : list Event) (ph' : Phase) (p' : Prog QueryResult) :
  inv argsl w ->
  argsl !! pid = Some a ->
  procs w' = <[pid := p']> (procs w) ->
  log w' = (log w ++ evs)%list ->
  Forall (fun e => pid_of e = pid) evs ->
  at_phase a ph' p' ->
  counts_ok pid a ph' w' ->
  inv argsl w'.
Proof.
  intros (Hlen & Hlog & Hcalls) Hpid Hprocs Hlog' Hevs Hph Hcnt.
  assert (Hlt : (pid < length argsl)%nat) by (eapply lookup_lt_Some; eassumption).
  split; [rewrite Hprocs, length_insert; exact Hlen|].
  split.
  { rewrite Hlog'. apply Forall_app. split; [exact Hlog|].
    eapply Forall_impl; [exact Hevs|]. intros e He. cbn beta in He. lia. }
  intros pid' a' Hpid'.
  destruct (Nat.eq_dec pid' pid) as [->|Hne].
  - assert (a' = a) by congruence. subst a'.
    exists ph', p'. split; [|split; assumption].
    rewrite Hprocs. apply list_lookup_insert_eq. lia.
  - destruct (Hcalls pid' a' Hpid') as (ph & p & Hp & Hat & Hc).
    exists ph, p. split; [|split; [exact Hat|]].
    + rewrite Hprocs, list_lookup_insert_ne by congruence. exact Hp.
    + eapply counts_ok_other; eassumption.
Qed.

Lemma inv_launch (argsl : list Args) (w : World) (a : Args) :
  is_refresh a = false ->
  inv argsl w ->
  inv (argsl ++ [a]) (launch w a).
Proof.
  intros Ha (Hlen & Hlog & Hcalls). rewrite launch_eq.
  split; [cbn; rewrite !length_app, Hlen; reflexivity|].
  split.
  { cbn [log]. rewrite length_app. apply Forall_app. split.
    - eapply Forall_impl; [exact Hlog|]. intros e He. cbn beta in He. lia.
    - constructor; [|constructor]. cbn. lia. }
  intros pid a' Hpid.
  destruct (Nat.lt_ge_cases pid (length argsl)) as [Hlt|Hge].
  - rewrite lookup_app_l in Hpid by exact Hlt.
    destruct (Hcalls pid a' Hpid) as (ph & p & Hp & Hat & Hc).
    exists ph, p. split; [|split; [exact Hat|]].
    + cbn [procs]. rewrite lookup_app_l by lia. exact Hp.
    + eapply (counts_ok_other (length (procs w)) pid); [reflexivity| |lia|exact Hc].
      constructor; [reflexivity|constructor].
  - assert (pid = length argsl).
    { apply lookup_lt_Some in Hpid. rewrite length_app in Hpid. cbn in Hpid. lia. }
    subst pid. rewrite list_lookup_middle in Hpid by reflexivity.
    injection Hpid as <-.
    exists AwaitFirst. eexists. split; [|split].
    + cbn [procs]. rewrite <- Hlen. apply list_lookup_middle. reflexivity.
    + eexists. reflexivity.
    + unfold counts_ok, refresh_calls, sends, logouts. cbn [log].
      rewrite !count_snoc, Hlen, !count_fresh_call by exact Hlog.
      rewrite !by_call_Sent, send_of_self, refresh_call_self by exact Ha.
      cbn. repeat split.
Qed.

Lemma inv_launch_all (argsl pre : list Args) (w : World) :
  Forall (fun a => is_refresh a = false) argsl ->
  inv pre w ->
  inv (pre ++ argsl) (launch_all w argsl).
Proof.
  intros Hall. revert pre w.
  induction Hall as [|a argsl Ha _ IH]; intros pre w Hinv.
  - rewrite app_nil_r. exact Hinv.
  - cbn [launch_all fold_left]. rewrite (cons_middle a), app_assoc.
    apply IH. apply inv_launch; assumption.
Qed.

Lemma inv_deliver (argsl : list Args) (w : World) (pid : nat) (r : QueryResult) :
  Forall (fun a => is_refresh a = false) argsl ->
  inv argsl w ->
  inv argsl (deliver w pid r).
Proof.
  intros Hall Hinv.
  destruct (argsl !! pid) as [a|] eqn:Hpid.
  2:{ rewrite deliver_nothing; [exact Hinv|].
      destruct Hinv as (Hlen & _). apply lookup_ge_None. rewrite Hlen.
      apply lookup_ge_None in Hpid. exact Hpid. }
  assert (Ha : is_refresh a = false).
  { rewrite Forall_forall in Hall. apply Hall. eapply list_elem_of_lookup_2. exact Hpid. }
  destruct Hinv as (Hlen & Hlog & Hcalls).
  destruct (Hcalls pid a Hpid) as (ph & p & Hp & Hat & Hc).
  pose proof (conj Hlen (conj Hlog Hcalls)) as Hinv.
  destruct ph as [|result| |result]; cbn in Hat, Hc.
  - (* the first response *)
    destruct Hat as (hdr & ->). destruct Hc as (Hr & Hs & Hl).
    destruct (is401 r) eqn:H401.
    + destruct (JS.truthy_opt (AuthState.refreshToken (auth w))) eqn:Hrt.
      * rewrite (deliver_first_refreshes w pid _ a r Hp H401 Hrt).
        eapply (inv_update argsl w _ pid a _ (AwaitRefresh r)); try eassumption;
          try reflexivity.
        -- constructor; [reflexivity|constructor].
        -- cbn. eexists _, _. reflexivity.
        -- unfold counts_ok, refresh_calls, sends, logouts in *. cbn [log].
           rewrite !count_snoc, !by_call_Sent, send_of_refresh by exact Ha.
           cbn. lia.
      * rewrite (deliver_first_logs_out w pid _ a r Hp H401 Hrt).
        eapply (inv_update argsl w _ pid a _ (Returned r)); try eassumption;
          try reflexivity.
        -- constructor; [reflexivity|constructor].
        -- unfold counts_ok, refresh_calls, sends, logouts in *. cbn [log].
           rewrite !count_snoc, !by_call_Dispatched. cbn. lia.
    + rewrite (deliver_first_passes w pid _ a r Hp H401).
      eapply (inv_update argsl w _ pid a [] (Returned r)); try eassumption;
        try reflexivity.
      -- cbn. rewrite app_nil_r. reflexivity.
      -- constructor.
      -- unfold counts_ok, refresh_calls, sends, logouts in *. cbn [log set_procs]. lia.
  - (* the response of the refresh call *)
    destruct Hat as (rt & hdr & ->). destruct Hc as (Hr & Hs & Hl).
    destruct (truthy_data r) as [data|] eqn:Hdata.
    + rewrite (deliver_refresh_succeeds w pid _ a result r data Hp Hdata).
      eapply (inv_update argsl w _ pid a [_; _] AwaitRetry); try eassumption.
      -- reflexivity.
      -- cbn [log]. rewrite <- app_assoc. reflexivity.
      -- constructor; [reflexivity|]. constructor; [reflexivity|constructor].
      -- eexists. reflexivity.
      -- unfold counts_ok, refresh_calls, sends, logouts in *. cbn [log].
         rewrite !count_snoc, !by_call_Sent, !by_call_Dispatched, send_of_self,
           refresh_call_self by exact Ha.
         cbn. lia.
    + rewrite (deliver_refresh_fails w pid _ a result r Hp Hdata).
      eapply (inv_update argsl w _ pid a _ (Returned result)); try eassumption;
        try reflexivity.
      -- constructor; [reflexivity|constructor].
      -- unfold counts_ok, refresh_calls, sends, logouts in *. cbn [log].
         rewrite !count_snoc, !by_call_Dispatched. cbn. lia.
  - (* the response of the retry *)
    destruct Hat as (hdr & ->). destruct Hc as (Hr & Hs & Hl).
    rewrite (deliver_retry_returns w pid _ r Hp).
    eapply (inv_update argsl w _ pid a [] (Returned r)); try eassumption;
      try reflexivity.
    -- cbn. rewrite app_nil_r. reflexivity.
    -- constructor.
    -- unfold counts_ok, refresh_calls, sends, logouts in *. cbn [log set_procs]. lia.
  - (* the call has returned *)
    subst p. rewrite (deliver_returned w pid r result Hp). exact Hinv.
Qed.

Lemma inv_run (argsl : list Args) (schedule : list (nat * QueryResult)) (w : World) :
  Forall (fun a => is_refresh a = false) argsl ->
  inv argsl w ->
  inv argsl (run w schedule).
Proof.
  intros Hall. revert w.
  induction schedule as [|[pid r] schedule IH]; intros w Hinv; [exact Hinv|].
  cbn [run fold_left fst snd]. apply IH. apply inv_deliver; assumption.
Qed.

(** Every world reached from an empty store of calls. *)
Lemma inv_reachable (state : AuthState.t) (storage : gmap string string)
      (argsl : list Args) (schedule : list (nat * QueryResult)) :
  Forall (fun a => is_refresh a = false) argsl ->
  inv argsl (run (launch_all (initial state storage) argsl) schedule).
Proof.
  intros Hall. apply inv_run; [exact Hall|].
  apply (inv_launch_all argsl [] _ Hall). apply inv_initial.
Qed.

(** *** From calls to totals *)

Lemma count_below_S (f : Event -> bool) (n : nat) (l : list Event) :
  count (fun e => (pid_of e <? S n)%nat && f e) l
  = (count (fun e => (pid_of e <? n)%nat && f e) l + count (by_call n f) l)%nat.
Proof.
  unfold count, by_call. induction l as [|e l IH]; [reflexivity|].
  cbn [List.filter].
  destruct (Nat.ltb_spec (pid_of e) (S n)), (Nat.ltb_spec (pid_of e) n),
    (Nat.eqb_spec (pid_of e) n); try lia;
    destruct (f e); cbn [andb length]; lia.
Qed.

Lemma count_below_le (f : Event -> bool) (l : list Event) (n : nat) :
  (forall pid, (pid < n)%nat -> (count (by_call pid f) l <= 1)%nat) ->
  (count (fun e => (pid_of e <? n)%nat && f e) l <= n)%nat.
Proof.
  induction n as [|n IH]; intros Hone.
  - rewrite count_none; [lia|]. apply Forall_forall. intros e _. reflexivity.
  - rewrite count_below_S.
    pose proof (Hone n ltac:(lia)).
    assert (count (fun e => (pid_of e <? n)%nat && f e) l <= n)%nat
      by (apply IH; intros pid Hpid; apply Hone; lia).
    lia.
Qed.

Lemma count_all_below (f : Event -> bool) (l : list Event) (n : nat) :
  Forall (fun e => (pid_of e < n)%nat) l ->
  count f l = count (fun e => (pid_of e <? n)%nat && f e) l.
Proof.
  unfold count. induction 1 as [|e l He _ IH]; [reflexivity|].
  cbn [List.filter]. destruct (Nat.ltb_spec (pid_of e) n); [|lia].
  cbn. destruct (f e); cbn; rewrite IH; reflexivity.
Qed.

Lemma inv_bounds (argsl : list Args) (w : World) (pid : nat) (a : Args) :
  inv argsl w ->
  argsl !! pid = Some a ->
  (refresh_calls pid w <= 1)%nat
  /\ (1 <= sends pid a w <= 1 + refresh_calls pid w)%nat
  /\ (logouts pid w <= 1)%nat.
Proof.
  intros (_ & _ & Hcalls) Hpid.
  destruct (Hcalls pid a Hpid) as (ph & p & _ & _ & Hc).
  destruct ph; cbn in Hc; lia.
Qed.

Lemma inv_totals (argsl : list Args) (w : World) :
  inv argsl w ->
  (total_refresh_calls w <= length argsl)%nat
  /\ (total_logouts w <= length argsl)%nat.
Proof.
  intros Hinv. pose proof Hinv as (_ & Hlog & _).
  unfold total_refresh_calls, total_logouts.
  rewrite (count_all_below is_refresh_call _ _ Hlog),
    (count_all_below is_logout_signal _ _ Hlog).
  split; apply count_below_le; intros pid Hpid;
    destruct (lookup_lt_is_Some_2 argsl pid Hpid) as [a Ha];
    destruct (inv_bounds argsl w pid a Hinv Ha) as (Hr & _ & Hl); assumption.
Qed.

Lemma run_all_returned (w : World) (schedule : list (nat * QueryResult)) :
  (forall pid p, procs w !! pid = Some p -> exists r, p = Ret r) ->
  run w schedule = w.
Proof.
  intros Hret. induction schedule as [|[pid r] schedule IH]; [reflexivity|].
  cbn [run fold_left fst snd].
  assert (Hd : deliver w pid r = w).
  { destruct (procs w !! pid) as [p|] eqn:Hp.
    - destruct (Hret pid p Hp) as [r0 ->]. eapply deliver_returned. exact Hp.
    - apply deliver_nothing. exact Hp. }
  rewrite Hd. exact IH.
Qed.

(** *** Several calls answered one after the other *)

Lemma launch_all_spec (argsl : list Args) (w : World) :
  Forall (fun a => is_refresh a = false) argsl ->
  auth (launch_all w argsl) = auth w
  /\ localStorage (launch_all w argsl) = localStorage w
  /\ procs (launch_all w argsl)
     = (procs w
        ++ map (fun a => Await {| args := a; authorization := prepareHeaders (auth w) |}
                               (after_first a)) argsl)%list
  /\ total_refresh_calls (launch_all w argsl) = total_refresh_calls w
  /\ total_logouts (launch_all w argsl) = total_logouts w.
Proof.
  revert w. induction argsl as [|a argsl IH]; intros w Hall.
  { cbn. rewrite app_nil_r. repeat split. }
  apply Forall_cons in Hall as [Ha Hall].
  cbn [launch_all fold_left]. fold (launch_all (launch w a) argsl).
  destruct (IH (launch w a) Hall) as (Hauth & Hst & Hprocs & Hrc & Hlo).
  rewrite Hauth, Hst, Hprocs, Hrc, Hlo. rewrite launch_eq.
  cbn [auth localStorage procs]. unfold total_refresh_calls, total_logouts. cbn [log].
  rewrite !count_snoc. cbn [is_refresh_call is_logout_signal args]. rewrite Ha.
  rewrite <- app_assoc. cbn [app map]. rewrite !Nat.add_0_r. repeat split.
Qed.

Lemma count_by_call_le (pid : nat) (f : Event -> bool) (l : list Event) :
  (count (by_call pid f) l <= count f l)%nat.
Proof.
  induction l as [|e l IH]; [reflexivity|].
  rewrite !count_cons. unfold by_call at 1.
  destruct (Nat.eqb (pid_of e) pid), (f e); cbn; lia.
Qed.

Section CountMap.
Variable g : nat * QueryResult -> Event.
Variable f : Event -> bool.

Lemma count_map_all (l : list (nat * QueryResult)) :
  (forall d, f (g d) = true) -> count f (map g l) = length l.
Proof.
  intros Hf. induction l as [|d l IH]; [reflexivity|].
  cbn [map]. rewrite count_cons, Hf, IH. reflexivity.
Qed.

Lemma count_map_none (l : list (nat * QueryResult)) :
  (forall d, f (g d) = false) -> count f (map g l) = 0%nat.
Proof.
  intros Hf. induction l as [|d l IH]; [reflexivity|].
  cbn [map]. rewrite count_cons, Hf, IH. reflexivity.
Qed.

Lemma count_map_absent (pid : nat) (l : list (nat * QueryResult)) :
  (forall d, pid_of (g d) = d.1) ->
  pid ∉ l.*1 ->
  count (by_call pid f) (map g l) = 0%nat.
Proof.
  intros Hg. induction l as [|d l IH]; intros Hpid; [reflexivity|].
  cbn [map]. rewrite count_cons. unfold by_call at 1. rewrite Hg.
  rewrite fmap_cons in Hpid. apply not_elem_of_cons in Hpid as [Hne Hpid].
  destruct (Nat.eqb_spec d.1 pid) as [Heq|_]; [congruence|].
  cbn. apply IH. exact Hpid.
Qed.

Lemma count_map_once (pid : nat) (l : list (nat * QueryResult)) :
  (forall d, pid_of (g d) = d.1) ->
  (forall d, f (g d) = true) ->
  NoDup l.*1 ->
  pid ∈ l.*1 ->
  count (by_call pid f) (map g l) = 1%nat.
Proof.
  intros Hg Hf. induction l as [|d l IH]; intros Hnd Hpid.
  { apply elem_of_nil in Hpid. contradiction. }
  rewrite fmap_cons in Hnd, Hpid. apply NoDup_cons in Hnd as [Hd Hnd].
  cbn [map]. rewrite count_cons. unfold by_call at 1. rewrite Hg, Hf.
  destruct (Nat.eqb_spec d.1 pid) as [Heq|Hne].
  - subst pid. rewrite count_map_absent by assumption. reflexivity.
  - apply elem_of_cons in Hpid as [Heq|Hpid]; [congruence|].
    cbn. apply IH; assumption.
Qed.

End CountMap.

(** Calls that wait for their first response are answered 401, one after
    the other, while the store holds a refresh token: each sends a refresh
    call and waits for it; nothing else happens. *)
Lemma run_first_401 (schedule : list (nat * QueryResult)) (w : World) :
  JS.truthy_opt (AuthState.refreshToken (auth w)) = true ->
  NoDup schedule.*1 ->
  Forall (fun d => is401 d.2 = true) schedule ->
  (forall pid, pid ∈ schedule.*1 ->
     exists req a, procs w !! pid = Some (Await req (after_first a))) ->
  let refresh := {| args := refreshArgs (AuthState.refreshToken (auth w));
                    authorization := prepareHeaders (auth w) |} in
  auth (run w schedule) = auth w
  /\ localStorage (run w schedule) = localStorage w
  /\ log (run w schedule) = (log w ++ map (fun d => Sent d.1 refresh) schedule)%list
  /\ (forall pid, pid ∉ schedule.*1 -> procs (run w schedule) !! pid = procs w !! pid)
  /\ (forall pid r req a,
        (pid, r) ∈ schedule ->
        procs w !! pid = Some (Await req (after_first a)) ->
        procs (run w schedule) !! pid = Some (Await refresh (after_refresh a r))).
Proof.
  revert w. induction schedule as [|[pid0 r0] schedule IH]; intros w Hrt Hnd Hall Hprocs.
  { cbn. rewrite app_nil_r. repeat split; try reflexivity.
    intros pid r req a Hin. apply elem_of_nil in Hin. contradiction. }
  rewrite fmap_cons in Hnd. apply NoDup_cons in Hnd as [Hfresh Hnd]. cbn [fst] in Hfresh.
  apply Forall_cons in Hall as [Hr0 Hall]. cbn [snd] in Hr0.
  destruct (Hprocs pid0) as (req0 & a0 & Hp0); [rewrite fmap_cons; apply elem_of_cons; left; reflexivity|].
  cbn [run fold_left fst snd].
  fold (run (deliver w pid0 r0) schedule).
  pose proof (deliver_first_refreshes w pid0 req0 a0 r0 Hp0 Hr0 Hrt) as Hd.
  cbv zeta in Hd.
  remember (deliver w pid0 r0) as w1 eqn:Hw1.
  assert (Hauth1 : auth w1 = auth w) by (rewrite Hd; reflexivity).
  assert (Hprocs1 : procs w1
                    = <[pid0 := Await {| args := refreshArgs (AuthState.refreshToken (auth w));
                                         authorization := prepareHeaders (auth w) |}
                                      (after_refresh a0 r0)]> (procs w))
    by (rewrite Hd; reflexivity).
  assert (Hother : forall pid, pid <> pid0 -> procs w1 !! pid = procs w !! pid).
  { intros pid Hne. rewrite Hprocs1. apply list_lookup_insert_ne. congruence. }
  destruct (IH w1) as (Hauth & Hst & Hlog & Hout & Hin).
  - rewrite Hauth1. exact Hrt.
  - exact Hnd.
  - exact Hall.
  - intros pid Hpid. rewrite Hother; [|intros ->; contradiction].
    apply Hprocs. rewrite fmap_cons. apply elem_of_cons. right. exact Hpid.
  - cbv zeta. rewrite Hauth1 in Hlog, Hin.
    split; [rewrite Hauth; exact Hauth1|].
    split; [rewrite Hst, Hd; reflexivity|].
    split.
    { rewrite Hlog, Hd. cbn [log map fst]. rewrite <- app_assoc. reflexivity. }
    split.
    { intros pid Hpid. rewrite fmap_cons in Hpid. cbn [fst] in Hpid.
      apply not_elem_of_cons in Hpid as [Hne Hpid].
      rewrite Hout by exact Hpid. apply Hother. exact Hne. }
    intros pid r req a Hmem Hp.
    apply elem_of_cons in Hmem as [Heq|Hmem].
    + injection Heq as -> ->.
      rewrite Hout by exact Hfresh.
      pose proof (deliver_first_refreshes w pid0 req a r0 Hp Hr0 Hrt) as Hd'.
      cbv zeta in Hd'. rewrite <- Hw1 in Hd'. rewrite Hd'. cbn [procs].
      apply list_lookup_insert_eq. apply lookup_lt_Some in Hp. exact Hp.
    + assert (Hne : pid <> pid0).
      { intros ->. apply Hfresh. apply list_elem_of_fmap.
        exists (pid0, r). split; [reflexivity|exact Hmem]. }
      eapply Hin; [exact Hmem|]. rewrite Hother by exact Hne. exact Hp.
Qed.

(** Calls that wait for their refresh call are answered without truthy
    data, one after the other: each emits a logout signal and returns the
    401 it had received; nothing else happens. *)
Lemma run_refresh_fails (schedule : list (nat * QueryResult)) (w : World) :
  NoDup schedule.*1 ->
  Forall (fun d => truthy_data d.2 = None) schedule ->
  (forall pid, pid ∈ schedule.*1 ->
     exists req a result, procs w !! pid = Some (Await req (after_refresh a result))) ->
  log (run w schedule)
  = (log w ++ map (fun d => Dispatched d.1 AuthSlice.logout) schedule)%list
  /\ (schedule <> [] -> cleared (auth (run w schedule)))
  /\ (forall pid, pid ∉ schedule.*1 -> procs (run w schedule) !! pid = procs w !! pid)
  /\ (forall pid req a result,
        pid ∈ schedule.*1 ->
        procs w !! pid = Some (Await req (after_refresh a result)) ->
        procs (run w schedule) !! pid = Some (Ret result)).
Proof.
  revert w. induction schedule as [|[pid0 r0] schedule IH]; intros w Hnd Hall Hprocs.
  { cbn. rewrite app_nil_r. split; [reflexivity|].
    split; [intros Hne; exfalso; apply Hne; reflexivity|].
    split; [reflexivity|].
    intros pid req a result Hin. apply elem_of_nil in Hin. contradiction. }
  rewrite fmap_cons in Hnd. apply NoDup_cons in Hnd as [Hfresh Hnd]. cbn [fst] in Hfresh.
  apply Forall_cons in Hall as [Hr0 Hall]. cbn [snd] in Hr0.
  destruct (Hprocs pid0) as (req0 & a0 & result0 & Hp0);
    [rewrite fmap_cons; apply elem_of_cons; left; reflexivity|].
  cbn [run fold_left fst snd].
  fold (run (deliver w pid0 r0) schedule).
  pose proof (deliver_refresh_fails w pid0 req0 a0 result0 r0 Hp0 Hr0) as Hd.
  remember (deliver w pid0 r0) as w1 eqn:Hw1.
  assert (Hother : forall pid, pid <> pid0 -> procs w1 !! pid = procs w !! pid).
  { intros pid Hne. rewrite Hd. cbn [procs]. apply list_lookup_insert_ne. congruence. }
  destruct (IH w1) as (Hlog & Hclear & Hout & Hin).
  - exact Hnd.
  - exact Hall.
  - intros pid Hpid. rewrite Hother; [|intros ->; contradiction].
    apply Hprocs. rewrite fmap_cons. apply elem_of_cons. right. exact Hpid.
  - split.
    { rewrite Hlog, Hd. cbn [log map fst]. rewrite <- app_assoc. reflexivity. }
    split.
    { intros _. destruct schedule as [|d schedule'].
      - cbn. rewrite Hd. cbn [auth]. apply logout_clears.
      - apply Hclear. discriminate. }
    split.
    { intros pid Hpid. rewrite fmap_cons in Hpid. cbn [fst] in Hpid.
      apply not_elem_of_cons in Hpid as [Hne Hpid].
      rewrite Hout by exact Hpid. apply Hother. exact Hne. }
    intros pid req a result Hmem Hp.
    rewrite fmap_cons in Hmem. cbn [fst] in Hmem.
    apply elem_of_cons in Hmem as [->|Hmem].
    + rewrite Hout by exact Hfresh.
      pose proof (deliver_refresh_fails w pid0 req a result r0 Hp Hr0) as Hd'.
      rewrite <- Hw1 in Hd'. rewrite Hd'. cbn [procs].
      apply list_lookup_insert_eq. apply lookup_lt_Some in Hp. exact Hp.
    + assert (Hne : pid <> pid0) by (intros ->; contradiction).
      eapply Hin; [exact Hmem|]. rewrite Hother by exact Hne. exact Hp.
Qed.

(** C1 (as the code has it). There is no shared refresh: each call of
    [baseQueryWithReauth] that receives a 401 issues a refresh call of its
    own and awaits its own outcome.  When requests in flight are answered
    401 while a refresh token is present, in any order, each of them sends
    a refresh call and waits for it: as many refresh calls as requests.
    When then their refresh calls fail, in any order, each of them emits a
    logout signal and returns the 401 it had received: as many logout
    signals as failed refresh calls, and the credentials are cleared.  And
    whatever the responses and the order in which they arrive: every request
    issues at most one refresh call, sends its own request at most twice
    (the original and at most one retry, the retry only after its refresh
    call) and emits at most one logout signal; so there are at most [N]
    refresh calls and at most [N] logout signals in all. *)
Theorem each_call_refreshes_for_itself
  (state : AuthState.t) (storage : gmap string string) (argsl : list Args)
  (first second schedule : list (nat * QueryResult)) :
  Forall (fun a => is_refresh a = false) argsl ->
  JS.truthy_opt (AuthState.refreshToken state) = true ->
  NoDup first.*1 ->
  Forall (fun d => (d.1 < length argsl)%nat /\ is401 d.2 = true) first ->
  NoDup second.*1 ->
  Forall (fun d => d.1 ∈ first.*1 /\ truthy_data d.2 = None) second ->
  let w0 := launch_all (initial state storage) argsl in
  let w1 := run w0 first in
  let w2 := run w1 second in
  let w := run w0 schedule in
  let refresh := {| args := refreshArgs (AuthState.refreshToken state);
                    authorization := prepareHeaders state |} in
  total_refresh_calls w1 = length first
  /\ total_logouts w1 = 0%nat
  /\ (forall pid r, (pid, r) ∈ first ->
        refresh_calls pid w1 = 1%nat
        /\ exists a, argsl !! pid = Some a
                     /\ procs w1 !! pid = Some (Await refresh (after_refresh a r)))
  /\ total_refresh_calls w2 = length first
  /\ total_logouts w2 = length second
  /\ (forall pid r, (pid, r) ∈ first -> pid ∈ second.*1 ->
        procs w2 !! pid = Some (Ret r)
        /\ logouts pid w2 = 1%nat
        /\ refresh_calls pid w2 = 1%nat)
  /\ (second <> [] -> cleared (auth w2))
  /\ (forall pid a, argsl !! pid = Some a ->
        (refresh_calls pid w <= 1)%nat
        /\ (1 <= sends pid a w <= 1 + refresh_calls pid w)%nat
        /\ (logouts pid w <= 1)%nat)
  /\ (total_refresh_calls w <= length argsl)%nat
  /\ (total_logouts w <= length argsl)%nat.
Proof.
  intros Hargs Hrt Hnd1 Hall1 Hnd2 Hall2 w0 w1 w2 w refresh.
  (* the requests are out *)
  destruct (launch_all_spec argsl (initial state storage) Hargs)
    as (Hauth0 & Hst0 & Hprocs0 & Hrc0 & Hlo0).
  fold w0 in Hauth0, Hst0, Hprocs0, Hrc0, Hlo0.
  cbn [initial auth procs app] in Hauth0, Hprocs0.
  change (total_refresh_calls (initial state storage)) with 0%nat in Hrc0.
  change (total_logouts (initial state storage)) with 0%nat in Hlo0.
  assert (Hwait0 : forall pid a, argsl !! pid = Some a ->
            procs w0 !! pid
            = Some (Await {| args := a; authorization := prepareHeaders state |}
                          (after_first a))).
  { intros pid a Ha. rewrite Hprocs0, list_lookup_fmap, Ha. reflexivity. }
  assert (Harg : forall pid, pid ∈ first.*1 -> exists a, argsl !! pid = Some a).
  { intros pid Hpid. apply list_elem_of_fmap in Hpid as ([pid' r] & -> & Hmem).
    rewrite Forall_forall in Hall1. destruct (Hall1 _ Hmem) as [Hlt _].
    apply lookup_lt_is_Some_2. exact Hlt. }
  (* first responses *)
  destruct (run_first_401 first w0) as (Hauth1 & Hst1 & Hlog1 & Hout1 & Hin1).
  { rewrite Hauth0. exact Hrt. }
  { exact Hnd1. }
  { eapply Forall_impl; [exact Hall1|]. intros d [_ Hd]. exact Hd. }
  { intros pid Hpid. destruct (Harg pid Hpid) as [a Ha]. eauto. }
  fold w1 in Hauth1, Hst1, Hlog1, Hout1, Hin1. rewrite Hauth0 in Hlog1, Hin1.
  fold refresh in Hlog1, Hin1.
  assert (Hwait1 : forall pid r a, (pid, r) ∈ first -> argsl !! pid = Some a ->
            procs w1 !! pid = Some (Await refresh (after_refresh a r))).
  { intros pid r a Hmem Ha. eapply Hin1; [exact Hmem|]. apply Hwait0. exact Ha. }
  (* refresh responses *)
  destruct (run_refresh_fails second w1) as (Hlog2 & Hclear2 & Hout2 & Hin2).
  { exact Hnd2. }
  { eapply Forall_impl; [exact Hall2|]. intros d [_ Hd]. exact Hd. }
  { intros pid Hpid. apply list_elem_of_fmap in Hpid as ([pid' r'] & -> & Hmem).
    rewrite Forall_forall in Hall2. destruct (Hall2 _ Hmem) as [Hfirst _]. cbn [fst] in *.
    destruct (Harg pid' Hfirst) as [a Ha].
    apply list_elem_of_fmap in Hfirst as ([pid'' r] & Heq & Hmem1). cbn [fst] in Heq. subst pid''.
    eauto. }
  fold w2 in Hlog2, Hclear2, Hout2, Hin2.
  (* counting *)
  assert (Hcount1 : forall f, count f (log w1)
                     = (count f (log w0) + count f (map (fun d => Sent d.1 refresh) first))%nat).
  { intros f. rewrite Hlog1. apply count_app. }
  assert (Hcount2 : forall f, count f (log w2)
                     = (count f (log w1)
                        + count f (map (fun d => Dispatched d.1 AuthSlice.logout) second))%nat).
  { intros f. rewrite Hlog2. apply count_app. }
  assert (Hzero0 : forall pid f, count f (log w0) = 0%nat ->
                                 count (by_call pid f) (log w0) = 0%nat).
  { intros pid f Hf. pose proof (count_by_call_le pid f (log w0)). lia. }
  assert (Hrc1 : total_refresh_calls w1 = length first).
  { unfold total_refresh_calls in *. rewrite Hcount1, Hrc0.
    rewrite count_map_all by reflexivity. reflexivity. }
  assert (Hlo1 : total_logouts w1 = 0%nat).
  { unfold total_logouts in *. rewrite Hcount1, Hlo0.
    rewrite count_map_none by reflexivity. reflexivity. }
  assert (Hrc1' : forall pid, pid ∈ first.*1 -> refresh_calls pid w1 = 1%nat).
  { intros pid Hpid. unfold refresh_calls. rewrite Hcount1.
    rewrite (Hzero0 pid is_refresh_call Hrc0).
    rewrite count_map_once; [reflexivity|reflexivity|reflexivity|exact Hnd1|exact Hpid]. }
  assert (Hlo1' : forall pid, logouts pid w1 = 0%nat).
  { intros pid. unfold logouts.
    pose proof (count_by_call_le pid is_logout_signal (log w1)) as Hle.
    unfold total_logouts in Hlo1. lia. }
  split; [exact Hrc1|]. split; [exact Hlo1|].
  split.
  { intros pid r Hmem.
    assert (Hpid : pid ∈ first.*1).
    { apply list_elem_of_fmap. exists (pid, r). split; [reflexivity|exact Hmem]. }
    split; [apply Hrc1'; exact Hpid|].
    destruct (Harg pid Hpid) as [a Ha]. exists a. split; [exact Ha|].
    apply Hwait1; assumption. }
  split.
  { unfold total_refresh_calls in *. rewrite Hcount2, Hrc1.
    rewrite count_map_none by reflexivity. lia. }
  split.
  { unfold total_logouts in *. rewrite Hcount2, Hlo1.
    rewrite count_map_all by reflexivity. reflexivity. }
  split.
  { intros pid r Hmem Hpid2.
    assert (Hpid : pid ∈ first.*1).
    { apply list_elem_of_fmap. exists (pid, r). split; [reflexivity|exact Hmem]. }
    destruct (Harg pid Hpid) as [a Ha].
    split; [eapply Hin2; [exact Hpid2|apply Hwait1; eassumption]|].
    split.
    - unfold logouts. rewrite Hcount2. fold (logouts pid w1). rewrite Hlo1'.
      rewrite count_map_once; [reflexivity|reflexivity|reflexivity|exact Hnd2|exact Hpid2].
    - unfold refresh_calls. rewrite Hcount2. fold (refresh_calls pid w1).
      rewrite (Hrc1' pid Hpid).
      assert (Hnone : count (by_call pid is_refresh_call)
                            (map (fun d => Dispatched d.1 AuthSlice.logout) second) = 0%nat).
      { pose proof (count_by_call_le pid is_refresh_call
                      (map (fun d => Dispatched d.1 AuthSlice.logout) second)) as Hle.
        rewrite (count_map_none _ is_refresh_call second) in Hle by reflexivity. lia. }
      rewrite Hnone. reflexivity. }
  split; [exact Hclear2|].
  (* any schedule *)
  assert (Hinv : inv argsl w) by (apply inv_reachable; exact Hargs).
  split; [|apply inv_totals; exact Hinv].
  intros pid a Hpid. apply (inv_bounds argsl w pid a Hinv Hpid).
Qed.

(** C2. A single request that receives a 401 while a refresh token is
    present issues exactly one refresh call, carrying that token; when the
    refresh succeeds the new credentials are stored and the original request
    is sent again exactly once; the response of the retry is returned as it
    is, a second 401 included, with no further call and no dispatch, and
    whatever arrives afterwards changes nothing. *)
Theorem refresh_once_retry_once
  (state : AuthState.t) (storage : gmap string string) (a : Args)
  (r1 refreshResult r2 : QueryResult) (data : Data)
  (schedule : list (nat * QueryResult)) :
  is_refresh a = false ->
  is401 r1 = true ->
  JS.truthy_opt (AuthState.refreshToken state) = true ->
  truthy_data refreshResult = Some data ->
  let w0 := launch (initial state storage) a in
  let w1 := deliver w0 0 r1 in
  let w2 := deliver w1 0 refreshResult in
  let w3 := deliver w2 0 r2 in
  let credentials := AuthSlice.setCredentials (asAuthResponse data) in
  log w1 = (log w0 ++ [Sent 0 {| args := refreshArgs (AuthState.refreshToken state);
                                authorization := prepareHeaders state |}])%list
  /\ total_refresh_calls w1 = 1%nat
  /\ sends 0 a w1 = 1%nat
  /\ auth w2 = AuthSlice.reducer state credentials
  /\ log w2 = (log w1 ++ [Dispatched 0 credentials;
                          Sent 0 {| args := a;
                                    authorization := prepareHeaders (auth w2) |}])%list
  /\ total_refresh_calls w2 = 1%nat
  /\ sends 0 a w2 = 2%nat
  /\ procs w3 = [Ret r2]
  /\ log w3 = log w2
  /\ auth w3 = auth w2
  /\ total_refresh_calls w3 = 1%nat
  /\ sends 0 a w3 = 2%nat
  /\ total_logouts w3 = 0%nat
  /\ run w3 schedule = w3.
Proof.
  intros Ha H401 Hrt Hdata w0 w1 w2 w3 credentials.
  assert (E0 : w0 = {| auth := state; localStorage := storage;
                       procs := [Await {| args := a; authorization := prepareHeaders state |}
                                       (after_first a)];
                       log := [Sent 0 {| args := a;
                                         authorization := prepareHeaders state |}] |})
    by reflexivity.
  assert (E1 : w1 = {| auth := state; localStorage := storage;
                       procs := [Await {| args := refreshArgs (AuthState.refreshToken state);
                                          authorization := prepareHeaders state |}
                                       (after_refresh a r1)];
                       log := log w0 ++ [Sent 0 {| args := refreshArgs
                                                             (AuthState.refreshToken state);
                                                   authorization := prepareHeaders state |}]
                    |}).
  { unfold w1. rewrite E0.
    erewrite deliver_first_refreshes; [reflexivity|reflexivity|exact H401|exact Hrt]. }
  assert (E2 : w2 = {| auth := AuthSlice.reducer state credentials;
                       localStorage := storage;
                       procs := [Await {| args := a;
                                          authorization :=
                                            prepareHeaders (AuthSlice.reducer state credentials) |}
                                       after_retry];
                       log := (log w1 ++ [Dispatched 0 credentials])
                              ++ [Sent 0 {| args := a;
                                            authorization :=
                                              prepareHeaders
                                                (AuthSlice.reducer state credentials) |}] |}).
  { unfold w2. rewrite E1.
    erewrite deliver_refresh_succeeds; [reflexivity|reflexivity|exact Hdata]. }
  assert (E3 : w3 = set_procs [Ret r2] w2).
  { unfold w3. rewrite E2. erewrite deliver_retry_returns; reflexivity. }
  assert (C1 : total_refresh_calls w1 = 1%nat).
  { rewrite E1, E0. unfold total_refresh_calls, count. cbn. rewrite Ha. reflexivity. }
  assert (S1 : sends 0 a w1 = 1%nat).
  { rewrite E1, E0. unfold sends. cbn [log app].
    rewrite !count_cons, count_nil, !by_call_Sent, send_of_self, send_of_refresh
      by exact Ha.
    reflexivity. }
  assert (C2 : total_refresh_calls w2 = 1%nat).
  { rewrite E2. unfold total_refresh_calls in *. cbn [log].
    rewrite !count_snoc, C1. cbn. rewrite Ha. reflexivity. }
  assert (S2 : sends 0 a w2 = 2%nat).
  { rewrite E2. unfold sends in *. cbn [log].
    rewrite !count_snoc, S1, by_call_Sent, by_call_Dispatched, send_of_self. reflexivity. }
  split; [rewrite E1; reflexivity|].
  split; [exact C1|]. split; [exact S1|].
  split; [rewrite E2; reflexivity|].
  split; [rewrite E2; cbn [log auth]; rewrite <- app_assoc; reflexivity|].
  split; [exact C2|]. split; [exact S2|].
  split; [rewrite E3; reflexivity|].
  split; [rewrite E3; reflexivity|].
  split; [rewrite E3; reflexivity|].
  split; [rewrite E3; exact C2|].
  split; [rewrite E3; exact S2|].
  split.
  { rewrite E3, E2, E1, E0. unfold total_logouts, count. cbn. reflexivity. }
  apply run_all_returned. rewrite E3. intros pid p Hp. cbn [procs set_procs] in Hp.
  destruct pid as [|pid]; cbn in Hp; [|discriminate].
  injection Hp as <-. eexists. reflexivity.
Qed.

(** C3. When a request receives a 401 and the store holds no refresh token,
    or when the refresh call it issued fails, the credential state is
    cleared (no access token, no refresh token, [isAuthenticated] false, both
    keys gone from [localStorage]) and exactly one logout signal is emitted;
    the call returns without sending anything more. *)
Theorem auth_failure_forces_logout (w : World) (pid : nat) (r : QueryResult) :
  refresh_ruled_out w pid r ->
  let w' := deliver w pid r in
  cleared (auth w')
  /\ localStorage w' !! AuthSlice.tokenKey = None
  /\ localStorage w' !! AuthSlice.refreshTokenKey = None
  /\ log w' = (log w ++ [Dispatched pid AuthSlice.logout])%list
  /\ logouts pid w' = S (logouts pid w)
  /\ total_logouts w' = S (total_logouts w)
  /\ total_refresh_calls w' = total_refresh_calls w
  /\ (exists result, procs w' !! pid = Some (Ret result))
  /\ (forall status, truthy_data (ResultError status) = None).
Proof.
  intros Hcase w'.
  assert (Hw' : exists result,
             w' = {| auth := AuthSlice.reducer (auth w) AuthSlice.logout;
                     localStorage := AuthSlice.reducer_storage (localStorage w) AuthSlice.logout;
                     procs := <[pid := Ret result]> (procs w);
                     log := log w ++ [Dispatched pid AuthSlice.logout] |}
             /\ (pid < length (procs w))%nat).
  { destruct Hcase as [(req & a & Hp & H401 & Hrt)|(req & a & result & Hp & Hdata)].
    - exists r. split; [eapply deliver_first_logs_out; eassumption|].
      eapply lookup_lt_Some. exact Hp.
    - exists result. split; [eapply deliver_refresh_fails; eassumption|].
      eapply lookup_lt_Some. exact Hp. }
  destruct Hw' as (result & -> & Hlt).
  split; [apply logout_clears|].
  split; [cbn; rewrite lookup_delete_ne by discriminate; apply lookup_delete_eq|].
  split; [cbn; apply lookup_delete_eq|].
  split; [reflexivity|].
  split; [unfold logouts; cbn [log]; rewrite count_snoc, by_call_Dispatched; cbn; lia|].
  split; [unfold total_logouts; cbn [log]; rewrite count_snoc; cbn; lia|].
  split; [unfold total_refresh_calls; cbn [log]; rewrite count_snoc; cbn; lia|].
  split; [exists result; cbn [procs]; apply list_lookup_insert_eq; exact Hlt|].
  reflexivity.
Qed.

End TransportFacts.

Section TransportExamples.
Import Api.

(** Two requests in flight, both answered 401 while a refresh token is
    present: each issues a refresh call.  Both refresh calls fail: each
    request emits a logout signal. *)
Lemma two_concurrent_401_two_refresh_calls :
  let state := AuthState.mk None (Some "mock-jwt-token-1") (Some "mock-refresh-token-1")
                            true false None in
  let r401 := @ResultError example_data (HttpStatus 401) in
  let w0 := launch_all (initial state ∅) [ArgsUrl "/users"; ArgsUrl "/products"] in
  let w1 := run w0 [(0%nat, r401); (1%nat, r401)] in
  let w2 := run w1 [(0%nat, ResultError (HttpStatus 401));
                    (1%nat, ResultError (HttpStatus 401))] in
  total_refresh_calls w1 = 2%nat
  /\ ~ (total_refresh_calls w1 <= 1)%nat
  /\ procs w2 = [Ret r401; Ret r401]
  /\ total_logouts w2 = 2%nat
  /\ total_logouts w2 <> 1%nat.
Proof.
  assert (Hc : @total_refresh_calls example_data
                 (run (launch_all
                         (initial (AuthState.mk None (Some "mock-jwt-token-1")
                                                (Some "mock-refresh-token-1") true false None)
                                  ∅)
                         [ArgsUrl "/users"; ArgsUrl "/products"])
                      [(0%nat, ResultError (HttpStatus 401));
                       (1%nat, ResultError (HttpStatus 401))]) = 2%nat)
    by (vm_compute; reflexivity).
  cbv zeta. rewrite Hc.
  split; [reflexivity|]. split; [lia|].
  split; [vm_compute; reflexivity|].
  assert (Hl : forall n : nat, n = 2%nat -> n = 2%nat /\ n <> 1%nat) by (intros n ->; lia).
  apply Hl. vm_compute. reflexivity.
Qed.

Lemma each_call_refreshes_for_itself_witness :
  let state := AuthState.mk None (Some "mock-jwt-token-1") (Some "mock-refresh-token-1")
                            true false None in
  let argsl := [ArgsUrl "/users"; ArgsUrl "/products"; ArgsUrl "/dashboard/metrics"] in
  let r401 := @ResultError example_data (HttpStatus 401) in
  let first := [(1%nat, r401); (0%nat, r401); (2%nat, r401)] in
  let second := [(2%nat, @ResultError example_data (HttpStatus 403));
                 (0%nat, @ResultData example_data None);
                 (1%nat, @ResultError example_data FETCH_ERROR)] in
  let w1 := run (launch_all (initial state ∅) argsl) first in
  let w2 := run w1 second in
  Forall (fun a => is_refresh a = false) argsl
  /\ JS.truthy_opt (AuthState.refreshToken state) = true
  /\ NoDup first.*1
  /\ Forall (fun d => (d.1 < length argsl)%nat /\ is401 d.2 = true) first
  /\ NoDup second.*1
  /\ Forall (fun d => d.1 ∈ first.*1 /\ truthy_data d.2 = None) second
  /\ total_refresh_calls w1 = 3%nat
  /\ total_logouts w2 = 3%nat
  /\ procs w2 !! 0%nat = Some (Ret r401)
  /\ cleared (auth w2).
Proof.
  intros state argsl r401 first second w1 w2.
  assert (Hargs : Forall (fun a => is_refresh a = false) argsl)
    by (repeat constructor).
  assert (Hrt : JS.truthy_opt (AuthState.refreshToken state) = true) by reflexivity.
  assert (Hnd1 : NoDup first.*1) by (cbn; apply (bool_decide_unpack _); reflexivity).
  assert (Hall1 : Forall (fun d => (d.1 < length argsl)%nat /\ is401 d.2 = true) first).
  { repeat constructor; cbn; lia. }
  assert (Hnd2 : NoDup second.*1) by (cbn; apply (bool_decide_unpack _); reflexivity).
  assert (Hall2 : Forall (fun d => d.1 ∈ first.*1 /\ truthy_data d.2 = None) second).
  { repeat constructor; cbn; apply (bool_decide_unpack _); reflexivity. }
  destruct (each_call_refreshes_for_itself state ∅ argsl first second []
              Hargs Hrt Hnd1 Hall1 Hnd2 Hall2)
    as (Hrc1 & _ & _ & _ & Hlo2 & Hret & Hclear & _).
  split; [exact Hargs|]. split; [exact Hrt|]. split; [exact Hnd1|].
  split; [exact Hall1|]. split; [exact Hnd2|]. split; [exact Hall2|].
  split; [exact Hrc1|]. split; [exact Hlo2|].
  split.
  - destruct (Hret 0%nat r401) as [Hp _]; [| |exact Hp].
    + apply elem_of_cons. right. apply elem_of_cons. left. reflexivity.
    + cbn. apply (bool_decide_unpack _). reflexivity.
  - apply Hclear. discriminate.
Defined.

Lemma refresh_once_retry_once_witness :
  let state := AuthState.mk None (Some "mock-jwt-token-1") (Some "mock-refresh-token-1")
                            true false None in
  let fresh := AuthResponse.mk no_user "mock-jwt-token-2" "mock-refresh-token-2" 3600 in
  let a := ArgsUrl "/users?page=1&pageSize=25&search=" in
  let r401 := @ResultError example_data (HttpStatus 401) in
  let refreshed := @ResultData example_data (Some fresh) in
  let w3 := deliver (deliver (deliver (launch (initial state ∅) a) 0 r401) 0 refreshed)
                    0 r401 in
  is_refresh a = false
  /\ is401 r401 = true
  /\ JS.truthy_opt (AuthState.refreshToken state) = true
  /\ truthy_data refreshed = Some (Some fresh)
  /\ procs w3 = [Ret r401]
  /\ total_refresh_calls w3 = 1%nat
  /\ sends 0 a w3 = 2%nat.
Proof.
  intros state fresh a r401 refreshed w3.
  assert (Ha : is_refresh a = false) by reflexivity.
  assert (H401 : is401 r401 = true) by reflexivity.
  assert (Hrt : JS.truthy_opt (AuthState.refreshToken state) = true) by reflexivity.
  assert (Hdata : truthy_data refreshed = Some (Some fresh)) by reflexivity.
  destruct (refresh_once_retry_once state ∅ a r401 refreshed r401 (Some fresh) []
              Ha H401 Hrt Hdata)
    as (_ & _ & _ & _ & _ & _ & _ & Hprocs & _ & _ & Hcalls & Hsends & _).
  split; [exact Ha|]. split; [exact H401|]. split; [exact Hrt|]. split; [exact Hdata|].
  split; [exact Hprocs|]. split; [exact Hcalls|exact Hsends].
Defined.

Lemma auth_failure_forces_logout_witness :
  let state := AuthState.mk None (Some "mock-jwt-token-1") None true false None in
  let r401 := @ResultError example_data (HttpStatus 401) in
  let w := launch (initial state {[ AuthSlice.tokenKey := "mock-jwt-token-1" ]})
                  (ArgsUrl "/users") in
  refresh_ruled_out w 0 r401
  /\ cleared (auth (deliver w 0 r401))
  /\ total_logouts (deliver w 0 r401) = 1%nat.
Proof.
  intros state r401 w.
  assert (Hcase : refresh_ruled_out w 0 r401).
  { left. eexists _, _. split; [reflexivity|]. split; reflexivity. }
  destruct (auth_failure_forces_logout w 0 r401 Hcase)
    as (Hcleared & _ & _ & _ & _ & Htotal & _).
  split; [exact Hcase|]. split; [exact Hcleared|exact Htotal].
Defined.

(** The other way into the forced logout: the refresh call comes back with
    an error. *)
Example refresh_failure_logs_out :
  let state := AuthState.mk None (Some "mock-jwt-token-1") (Some "stale") true false None in
  let r401 := @ResultError example_data (HttpStatus 401) in
  let w := deliver (launch (initial state ∅) (ArgsUrl "/users")) 0 r401 in
  let w' := deliver w 0 (ResultError (HttpStatus 403)) in
  refresh_ruled_out w 0 (ResultError (HttpStatus 403))
  /\ auth w' = AuthState.mk None None None false false None
  /\ procs w' = [Ret r401].
Proof.
  cbv zeta. split; [|split; reflexivity].
  right. eexists _, _, _. split; reflexivity.
Qed.

End TransportExamples.

Section PaginationWindowFacts.
Import UsePagination.

(** X1. On a page that exists, the hook's [startIndex] and [endIndex]
    delimit a non-empty block of at most [pageSize] items inside the
    collection: a full block on every page but the last, which ends at the
    last item; and the block of the next page starts right behind. *)
Theorem page_window_bounds (totalItems : Z) (st : State) :
  0 < pageSize st ->
  1 <= page st <= totalPages totalItems st ->
  0 <= startIndex st <= endIndex totalItems st
  /\ endIndex totalItems st <= totalItems - 1
  /\ endIndex totalItems st - startIndex st + 1 <= pageSize st
  /\ (page st < totalPages totalItems st ->
      endIndex totalItems st - startIndex st + 1 = pageSize st
      /\ startIndex (nextPage totalItems st st) = endIndex totalItems st + 1)
  /\ (page st = totalPages totalItems st -> endIndex totalItems st = totalItems - 1).
Proof.
  intros Hps Hpage.
  pose proof (Math_ceil_div_bounds totalItems (pageSize st) Hps) as Hc.
  fold (totalPages totalItems st) in Hc.
  unfold endIndex, startIndex, nextPage, hasNextPage.
  set (tp := totalPages totalItems st) in *.
  set (p := page st) in *. set (ps := pageSize st) in *.
  assert (Hs : (p - 1) * ps <= (tp - 1) * ps) by nia.
  split; [split; [nia|lia]|].
  split; [lia|]. split; [lia|].
  split.
  - intros Hlt. assert (p * ps <= (tp - 1) * ps) by nia.
    split; [lia|].
    destruct (Z.ltb_spec p tp); [|lia]. cbn [page pageSize]. lia.
  - intros Heq. assert ((p - 1) * ps + ps = tp * ps) by nia. lia.
Qed.

Lemma page_window_bounds_witness :
  let st := mkState 6 25 in
  0 < pageSize st
  /\ 1 <= page st <= totalPages 137 st
  /\ 0 <= startIndex st <= endIndex 137 st
  /\ startIndex st = 125 /\ endIndex 137 st = 136.
Proof.
  intros st.
  assert (Hps : 0 < pageSize st) by (cbn; lia).
  assert (Hpage : 1 <= page st <= totalPages 137 st) by (vm_compute; split; discriminate).
  destruct (page_window_bounds 137 st Hps Hpage) as (Hwindow & _).
  split; [exact Hps|]. split; [exact Hpage|]. split; [exact Hwindow|]. split; reflexivity.
Defined.

(** The integers from [first] to [last]. *)
Lemma elem_of_consecutive (first last n : Z) :
  n ∈ map (fun i => first + Z.of_nat i) (seq 0 (Z.to_nat (last - first + 1)))
  <-> first <= n <= last.
Proof.
  rewrite list_elem_of_In, in_map_iff. split.
  - intros (i & <- & Hi). apply in_seq in Hi. lia.
  - intros Hn. exists (Z.to_nat (n - first)). split; [lia|].
    apply in_seq. lia.
Qed.

Lemma lookup_consecutive (first : Z) (len i : nat) (n : Z) :
  map (fun i => first + Z.of_nat i) (seq 0 len) !! i = Some n ->
  n = first + Z.of_nat i /\ (i < len)%nat.
Proof.
  rewrite list_lookup_fmap. intros Hi.
  destruct (seq 0 len !! i) as [j|] eqn:Hj; [|discriminate].
  apply lookup_seq in Hj as [-> Hlt]. cbn in Hi. injection Hi as <-. split; [reflexivity|lia].
Qed.

(** The shape of [pageNumbers]: the integers from [first] to [last], with
    what the arithmetic of the hook guarantees about the two ends. *)
Lemma pageNumbers_shape (totalItems : Z) (st : State) :
  exists first last,
    pageNumbers totalItems st
    = map (fun i => first + Z.of_nat i) (seq 0 (Z.to_nat (last - first + 1)))
    /\ 1 <= first
    /\ last <= totalPages totalItems st
    /\ last - first + 1 <= 5
    /\ (1 <= page st <= totalPages totalItems st -> first <= page st <= last)
    /\ (5 <= totalPages totalItems st -> last - first + 1 = 5)
    /\ (0 <= totalPages totalItems st <= 5 ->
        first = 1 /\ last = totalPages totalItems st).
Proof.
  unfold pageNumbers.
  change (JS.Math_floor_div 5 2) with 2.
  set (tp := totalPages totalItems st). set (p := page st).
  cbv zeta.
  set (last := Z.min tp (Z.max 1 (p - 2) + 5 - 1)).
  destruct (Z.ltb_spec (last - Z.max 1 (p - 2) + 1) 5) as [Hshort|Hfull].
  - exists (Z.max 1 (last - 5 + 1)), last. split; [reflexivity|]. subst last. lia.
  - exists (Z.max 1 (p - 2)), last. split; [reflexivity|]. subst last. lia.
Qed.

(** X2. For a positive page size, the page numbers offered by the hook are
    at most five consecutive integers, all of them existing pages; they
    include the current page if it exists; there are exactly five when there
    are at least five pages, and otherwise they are all the pages there
    are. *)
Theorem pageNumbers_window (totalItems : Z) (st : State) :
  0 < pageSize st ->
  let numbers := pageNumbers totalItems st in
  let pages := totalPages totalItems st in
  (length numbers <= 5)%nat
  /\ (forall n, n ∈ numbers -> 1 <= n <= pages)
  /\ (forall i n m, numbers !! i = Some n -> numbers !! S i = Some m -> m = n + 1)
  /\ (1 <= page st <= pages -> page st ∈ numbers)
  /\ (5 <= pages -> length numbers = 5%nat)
  /\ (0 <= pages <= 5 -> forall n, n ∈ numbers <-> 1 <= n <= pages).
Proof.
  intros _. cbv zeta.
  destruct (pageNumbers_shape totalItems st)
    as (first & last & -> & Hfirst & Hlast & Hlen & Hcur & Hfull & Hall).
  split; [rewrite length_map, length_seq; lia|].
  split; [intros n Hn; apply elem_of_consecutive in Hn; lia|].
  split.
  { intros i n m Hn Hm.
    apply lookup_consecutive in Hn as [-> _]. apply lookup_consecutive in Hm as [-> _]. lia. }
  split; [intros Hp; apply elem_of_consecutive; auto|].
  split; [intros Hp; rewrite length_map, length_seq; lia|].
  intros Hp n. rewrite elem_of_consecutive. destruct (Hall Hp) as [-> ->]. reflexivity.
Qed.

Lemma pageNumbers_window_witness :
  let st := mkState 6 25 in
  0 < pageSize st
  /\ pageNumbers 137 st = [2; 3; 4; 5; 6]
  /\ page st ∈ pageNumbers 137 st.
Proof.
  intros st.
  assert (Hps : 0 < pageSize st) by (cbn; lia).
  destruct (pageNumbers_window 137 st Hps) as (_ & _ & _ & Hcur & _).
  split; [exact Hps|]. split; [reflexivity|].
  apply Hcur. vm_compute. split; discriminate.
Defined.

Example pageNumbers_examples :
  pageNumbers 137 (mkState 1 25) = [1; 2; 3; 4; 5]
  /\ pageNumbers 137 (mkState 6 25) = [2; 3; 4; 5; 6]
  /\ pageNumbers 250 (mkState 5 25) = [3; 4; 5; 6; 7]
  /\ pageNumbers 60 (mkState 2 25) = [1; 2; 3]
  /\ pageNumbers 0 (mkState 1 25) = [].
Proof. repeat split. Qed.

(** X3. For a positive page size: going to the next page and, after the
    component has rendered, back again returns to the state one started
    from, and so does going back and then forth; on the last page (or
    beyond) [nextPage] does nothing, and on page 1 (or below) [previousPage]
    does nothing, whatever the cells hold by then.  Without a render in
    between the callbacks still test what their own render saw: on page 1
    [previousPage] right after [nextPage] undoes nothing, and [nextPage]
    called twice advances by two pages, also past the last one. *)
Theorem next_previous_round_trip (totalItems : Z) (st : State) :
  0 < pageSize st ->
  (1 <= page st -> hasNextPage totalItems st = true ->
   let st' := nextPage totalItems st st in
   previousPage st' st' = st)
  /\ (page st <= totalPages totalItems st -> hasPreviousPage st = true ->
      let st' := previousPage st st in
      nextPage totalItems st' st' = st)
  /\ (totalPages totalItems st <= page st -> forall prev, nextPage totalItems st prev = prev)
  /\ (page st <= 1 -> forall prev, previousPage st prev = prev)
  /\ (page st = 1 -> hasNextPage totalItems st = true ->
      previousPage st (nextPage totalItems st st) = {| page := 2; pageSize := pageSize st |})
  /\ (hasNextPage totalItems st = true ->
      nextPage totalItems st (nextPage totalItems st st)
      = {| page := page st + 2; pageSize := pageSize st |}).
Proof.
  intros _.
  destruct st as [p ps]. unfold nextPage, previousPage, hasNextPage, hasPreviousPage, totalPages.
  cbn [page pageSize].
  repeat split.
  - intros Hp Hn. rewrite Hn. cbn [page pageSize].
    destruct (Z.ltb_spec 1 (p + 1)); [|lia]. f_equal. lia.
  - intros Hp Hprev. rewrite Hprev. cbn [page pageSize].
    destruct (Z.ltb_spec (p - 1) (JS.Math_ceil_div totalItems ps)); [|lia]. f_equal. lia.
  - intros Hp prev. destruct (Z.ltb_spec p (JS.Math_ceil_div totalItems ps)); [lia|reflexivity].
  - intros Hp prev. destruct (Z.ltb_spec 1 p); [lia|reflexivity].
  - intros -> Hn. rewrite Hn. reflexivity.
  - intros Hn. rewrite Hn. cbn [page pageSize]. f_equal. lia.
Qed.

Lemma next_previous_round_trip_witness :
  let st := mkState 1 25 in
  0 < pageSize st
  /\ previousPage (nextPage 50 st st) (nextPage 50 st st) = st
  /\ previousPage st (nextPage 50 st st) = mkState 2 25
  /\ nextPage 50 st (nextPage 50 st st) = mkState 3 25.
Proof.
  intros st.
  assert (Hps : 0 < pageSize st) by (cbn; lia).
  destruct (next_previous_round_trip 50 st Hps) as (Hback & _ & _ & _ & Hsame & Htwice).
  split; [exact Hps|].
  split; [apply Hback; [cbn; lia|reflexivity]|].
  split; [apply Hsame; reflexivity|].
  apply Htwice. reflexivity.
Defined.

End PaginationWindowFacts.

Section MockApiPageFacts.

(** [slice] between two indices inside the non-negative range is [take]
    after [drop]. *)
Lemma slice_take_drop {A : Type} (l : list A) (start stop : Z) :
  0 <= start <= stop ->
  JS.slice l start stop = take (Z.to_nat (stop - start)) (drop (Z.to_nat start) l).
Proof.
  intros Hse. unfold JS.slice, JS.slice_index.
  destruct (Z.ltb_spec start 0) as [|_]; [lia|].
  destruct (Z.ltb_spec stop 0) as [|_]; [lia|].
  set (len := Z.of_nat (length l)).
  destruct (Z.le_gt_cases len start) as [Hout|Hin].
  - rewrite !drop_ge by lia. destruct (Z.to_nat _), (Z.to_nat _); reflexivity.
  - replace (Z.min start len) with start by lia.
    destruct (Z.le_gt_cases stop len) as [Hstop|Hstop].
    + replace (Z.min stop len) with stop by lia. reflexivity.
    + replace (Z.min stop len) with len by lia.
      rewrite !take_ge; [reflexivity| |]; rewrite length_drop; lia.
Qed.

Lemma getUsers_data (mockUsers : list User.t) (page pageSize : Z) (search : string) :
  0 <= pageSize -> 1 <= page ->
  PaginatedResponse.data (MockApi.getUsers mockUsers page pageSize search)
  = take (Z.to_nat pageSize)
         (drop (Z.to_nat ((page - 1) * pageSize)) (MockApi.filtered mockUsers search)).
Proof.
  intros Hps Hpage. unfold MockApi.getUsers. cbn [PaginatedResponse.data].
  rewrite slice_take_drop by nia. f_equal. lia.
Qed.

Lemma filtered_elem (mockUsers : list User.t) (search : string) (u : User.t) :
  u ∈ MockApi.filtered mockUsers search ->
  u ∈ mockUsers
  /\ (JS.truthy search = true -> MockApi.matches (JS.toLowerCase search) u = true).
Proof.
  unfold MockApi.filtered. destruct (JS.truthy search).
  - rewrite list_elem_of_In, filter_In, <- list_elem_of_In. intros [Hin Hm]. auto.
  - intros Hin. split; [exact Hin|discriminate].
Qed.

(** X4. A page that exists holds the block of the matching users that
    belongs to it: the users at positions [(page - 1) * pageSize] up to
    [page * pageSize] of the filtered list, in order.  It is never empty,
    never longer than [pageSize], full on every page but the last, and each
    of its rows is one of the stored users and satisfies the search. *)
Theorem getUsers_page_contents
  (mockUsers : list User.t) (page pageSize : Z) (search : string) :
  0 < pageSize ->
  let r := MockApi.getUsers mockUsers page pageSize search in
  let data := PaginatedResponse.data r in
  let pages := Pagination.totalPages (PaginatedResponse.pagination r) in
  1 <= page <= pages ->
  data = take (Z.to_nat pageSize)
              (drop (Z.to_nat ((page - 1) * pageSize)) (MockApi.filtered mockUsers search))
  /\ (1 <= length data)%nat
  /\ Z.of_nat (length data) <= pageSize
  /\ (page < pages -> Z.of_nat (length data) = pageSize)
  /\ (forall u, u ∈ data ->
        u ∈ mockUsers
        /\ (JS.truthy search = true -> MockApi.matches (JS.toLowerCase search) u = true)).
Proof.
  intros Hps r data pages Hpage.
  assert (Hdata : data = take (Z.to_nat pageSize)
                           (drop (Z.to_nat ((page - 1) * pageSize))
                                 (MockApi.filtered mockUsers search)))
    by (apply getUsers_data; lia).
  pose proof (Math_ceil_div_bounds
                (Z.of_nat (length (MockApi.filtered mockUsers search))) pageSize Hps) as Hc.
  change (JS.Math_ceil_div _ pageSize) with pages in Hc.
  set (fl := MockApi.filtered mockUsers search) in *.
  assert (Hstart : 0 <= (page - 1) * pageSize <= (pages - 1) * pageSize) by nia.
  assert (Hnext : page < pages -> (page - 1) * pageSize + pageSize <= (pages - 1) * pageSize)
    by (intros; nia).
  destruct Hc as [Hc _].
  set (off := (page - 1) * pageSize) in *. set (top := (pages - 1) * pageSize) in *.
  split; [exact Hdata|].
  rewrite Hdata, length_take, length_drop.
  split; [lia|]. split; [lia|].
  split.
  - intros Hlt. specialize (Hnext Hlt). lia.
  - intros u Hu. apply (filtered_elem mockUsers search u).
    eapply subseteq_drop, subseteq_take. exact Hu.
Qed.

Lemma getUsers_page_contents_witness :
  let users := [User.mk "user-1" "user1@enterprise.com" "John" "Smith" RoleAdmin None None "" "" true;
                User.mk "user-2" "user2@enterprise.com" "Jane" "Brown" RoleUser None None "" "" true;
                User.mk "user-3" "user3@enterprise.com" "Emma" "Smith" RoleUser None None "" "" false] in
  let r := MockApi.getUsers users 2 2 "" in
  0 < 2
  /\ 1 <= 2 <= Pagination.totalPages (PaginatedResponse.pagination r)
  /\ (1 <= length (PaginatedResponse.data r))%nat
  /\ map User.id (PaginatedResponse.data r) = ["user-3"].
Proof.
  intros users r.
  assert (Hps : 0 < 2) by lia.
  assert (Hpage : 1 <= 2 <= Pagination.totalPages (PaginatedResponse.pagination r))
    by (vm_compute; split; discriminate).
  destruct (getUsers_page_contents users 2 2 "" Hps Hpage) as (_ & Hrows & _).
  split; [exact Hps|]. split; [exact Hpage|]. split; [exact Hrows|]. reflexivity.
Defined.

(** Cutting a list into blocks of [n] and gluing the first [k] blocks
    together gives its first [k * n] elements. *)
Lemma concat_blocks {A : Type} (l : list A) (n k : nat) :
  concat (map (fun i => take n (drop (i * n) l)) (seq 0 k)) = take (k * n) l.
Proof.
  induction k as [|k IH]; [reflexivity|].
  rewrite seq_S, map_app, concat_app, IH. cbn [map concat plus].
  rewrite app_nil_r, take_take_drop. f_equal. lia.
Qed.

(** X5. The pages partition the result: for a positive page size, the data
    of pages 1 to [totalPages], one after the other, are exactly the
    matching users, each once and in their order. *)
Theorem getUsers_pages_partition
  (mockUsers : list User.t) (pageSize : Z) (search : string) :
  0 < pageSize ->
  let pages := JS.Math_ceil_div (Z.of_nat (length (MockApi.filtered mockUsers search)))
                                pageSize in
  concat (map (fun i => PaginatedResponse.data
                          (MockApi.getUsers mockUsers (Z.of_nat i + 1) pageSize search))
              (seq 0 (Z.to_nat pages)))
  = MockApi.filtered mockUsers search.
Proof.
  intros Hps pages.
  pose proof (Math_ceil_div_bounds
                (Z.of_nat (length (MockApi.filtered mockUsers search))) pageSize Hps) as Hc.
  fold pages in Hc.
  set (fl := MockApi.filtered mockUsers search) in *.
  rewrite (map_ext _ (fun i => take (Z.to_nat pageSize) (drop (i * Z.to_nat pageSize) fl))).
  - rewrite concat_blocks. apply take_ge. nia.
  - intros i. rewrite getUsers_data by lia. fold fl. do 2 f_equal. nia.
Qed.

Lemma getUsers_pages_partition_witness :
  let users := [User.mk "user-1" "user1@enterprise.com" "John" "Smith" RoleAdmin None None "" "" true;
                User.mk "user-2" "user2@enterprise.com" "Jane" "Brown" RoleUser None None "" "" true;
                User.mk "user-3" "user3@enterprise.com" "Emma" "Smith" RoleUser None None "" "" false] in
  0 < 1
  /\ (PaginatedResponse.data (MockApi.getUsers users 1 1 "smith")
      ++ PaginatedResponse.data (MockApi.getUsers users 2 1 "smith"))%list
     = MockApi.filtered users "smith".
Proof.
  intros users.
  assert (Hps : 0 < 1) by lia.
  pose proof (getUsers_pages_partition users 1 "smith" Hps) as Hall.
  split; [exact Hps|]. rewrite <- Hall. reflexivity.
Defined.

Lemma lower_ascii_idempotent (c : ascii) :
  JS.lower_ascii (JS.lower_ascii c) = JS.lower_ascii c.
Proof. destruct c as [[] [] [] [] [] [] [] []]; reflexivity. Qed.

Lemma toLowerCase_idempotent (s : string) :
  JS.toLowerCase (JS.toLowerCase s) = JS.toLowerCase s.
Proof.
  induction s as [|c s IH]; [reflexivity|].
  cbn. rewrite lower_ascii_idempotent, IH. reflexivity.
Qed.

Lemma toLowerCase_truthy (s : string) :
  JS.truthy (JS.toLowerCase s) = JS.truthy s.
Proof. destruct s; reflexivity. Qed.

(** X6. The search is insensitive to the case of the search text: two search
    texts that differ only in the case of their letters give the same
    response, page for page; in particular a text and its lower-case form
    do. *)
Theorem getUsers_search_case_insensitive
  (mockUsers : list User.t) (page pageSize : Z) (search search' : string) :
  JS.toLowerCase search = JS.toLowerCase search' ->
  MockApi.getUsers mockUsers page pageSize search
  = MockApi.getUsers mockUsers page pageSize search'
  /\ MockApi.getUsers mockUsers page pageSize (JS.toLowerCase search)
     = MockApi.getUsers mockUsers page pageSize search.
Proof.
  intros Hlow.
  assert (Hf : forall s s', JS.toLowerCase s = JS.toLowerCase s' ->
                            MockApi.filtered mockUsers s = MockApi.filtered mockUsers s').
  { intros s s' H. unfold MockApi.filtered.
    rewrite <- (toLowerCase_truthy s), <- (toLowerCase_truthy s'), H. reflexivity. }
  unfold MockApi.getUsers.
  rewrite (Hf search search' Hlow).
  rewrite (Hf (JS.toLowerCase search) search' ltac:(rewrite toLowerCase_idempotent; exact Hlow)).
  split; reflexivity.
Qed.

Lemma getUsers_search_case_insensitive_witness :
  let users := [User.mk "user-1" "user1@enterprise.com" "John" "Smith" RoleAdmin None None "" "" true;
                User.mk "user-2" "user2@enterprise.com" "Jane" "Brown" RoleUser None None "" "" true] in
  JS.toLowerCase "SmItH" = JS.toLowerCase "smith"
  /\ MockApi.getUsers users 1 25 "SmItH" = MockApi.getUsers users 1 25 "smith".
Proof.
  intros users.
  assert (Hlow : JS.toLowerCase "SmItH" = JS.toLowerCase "smith") by reflexivity.
  split; [exact Hlow|].
  exact (proj1 (getUsers_search_case_insensitive users 1 25 "SmItH" "smith" Hlow)).
Defined.

(** X7. A page outside the result holds no rows but still reports the page
    number that was asked for and the true totals: this is so for page 0
    and for every page beyond [totalPages]. *)
Theorem getUsers_page_out_of_range
  (mockUsers : list User.t) (page pageSize : Z) (search : string) :
  0 < pageSize ->
  let r := MockApi.getUsers mockUsers page pageSize search in
  page = 0 \/ Pagination.totalPages (PaginatedResponse.pagination r) < page ->
  PaginatedResponse.data r = []
  /\ Pagination.page (PaginatedResponse.pagination r) = page
  /\ Pagination.total (PaginatedResponse.pagination r)
     = Z.of_nat (length (MockApi.filtered mockUsers search)).
Proof.
  intros Hps r Hpage. split; [|split; reflexivity].
  pose proof (Math_ceil_div_bounds
                (Z.of_nat (length (MockApi.filtered mockUsers search))) pageSize Hps) as Hc.
  pose proof (Math_ceil_div_nonneg
                (Z.of_nat (length (MockApi.filtered mockUsers search))) pageSize Hps
                ltac:(lia)) as Hnn.
  change (JS.Math_ceil_div _ pageSize)
    with (Pagination.totalPages (PaginatedResponse.pagination r)) in Hc, Hnn.
  set (pages := Pagination.totalPages (PaginatedResponse.pagination r)) in *.
  destruct Hpage as [->|Hbeyond].
  - unfold r, MockApi.getUsers, JS.slice, JS.slice_index. cbn [PaginatedResponse.data].
    set (len := Z.of_nat (length (MockApi.filtered mockUsers search))).
    destruct (Z.ltb_spec ((0 - 1) * pageSize) 0); [|lia].
    destruct (Z.ltb_spec ((0 - 1) * pageSize + pageSize) 0); [lia|].
    replace (Z.to_nat _) with 0%nat by lia. reflexivity.
  - unfold r. rewrite getUsers_data by lia.
    rewrite drop_ge; [destruct (Z.to_nat pageSize); reflexivity|].
    assert (pages * pageSize <= (page - 1) * pageSize) by nia. lia.
Qed.

Lemma getUsers_page_out_of_range_witness :
  let users := [User.mk "user-1" "user1@enterprise.com" "John" "Smith" RoleAdmin None None "" "" true;
                User.mk "user-2" "user2@enterprise.com" "Jane" "Brown" RoleUser None None "" "" true] in
  let r := MockApi.getUsers users 0 25 "" in
  0 < 25
  /\ (0 = 0 \/ Pagination.totalPages (PaginatedResponse.pagination r) < 0)
  /\ PaginatedResponse.data r = []
  /\ Pagination.totalPages (PaginatedResponse.pagination r) = 1.
Proof.
  intros users r.
  assert (Hps : 0 < 25) by lia.
  assert (Hpage : 0 = 0 \/ Pagination.totalPages (PaginatedResponse.pagination r) < 0)
    by (left; reflexivity).
  destruct (getUsers_page_out_of_range users 0 25 "" Hps Hpage) as (Hdata & _).
  split; [exact Hps|]. split; [exact Hpage|]. split; [exact Hdata|reflexivity].
Defined.

(** A negative page number counts from the end of the result: [slice]
    takes its negative bounds relative to the length. *)
Example getUsers_negative_page :
  let users := map (fun i => User.mk (MockApi.decimal (Z.of_nat i)) "" "" "" RoleUser
                                     None None "" "" true) (seq 1 7) in
  map User.id (PaginatedResponse.data (MockApi.getUsers users (-1) 2 ""))
  = ["4"; "5"].
Proof. reflexivity. Qed.

End MockApiPageFacts.

Section MockApiCrudFacts.

Lemma find_filter_out (mockUsers : list User.t) (id : string) :
  List.find (fun u => String.eqb (User.id u) id) (MockApi.deleteUser mockUsers id) = None.
Proof.
  unfold MockApi.deleteUser. induction mockUsers as [|u l IH]; [reflexivity|].
  cbn [List.filter]. destruct (String.eqb (User.id u) id) eqn:Hu; cbn [negb]; [exact IH|].
  cbn [List.find]. rewrite Hu. exact IH.
Qed.

Lemma find_filter_other (mockUsers : list User.t) (id id' : string) :
  id' <> id ->
  List.find (fun u => String.eqb (User.id u) id') (MockApi.deleteUser mockUsers id)
  = List.find (fun u => String.eqb (User.id u) id') mockUsers.
Proof.
  intros Hne. unfold MockApi.deleteUser. induction mockUsers as [|u l IH]; [reflexivity|].
  cbn [List.filter List.find].
  destruct (String.eqb_spec (User.id u) id) as [Hid|Hid]; cbn [negb].
  - destruct (String.eqb_spec (User.id u) id') as [Hid'|_]; [congruence|exact IH].
  - cbn [List.find]. destruct (String.eqb (User.id u) id'); [reflexivity|exact IH].
Qed.

Lemma filter_absent (mockUsers : list User.t) (id : string) :
  List.find (fun u => String.eqb (User.id u) id) mockUsers = None ->
  MockApi.deleteUser mockUsers id = mockUsers.
Proof.
  unfold MockApi.deleteUser. induction mockUsers as [|u l IH]; [reflexivity|].
  cbn [List.find List.filter]. destruct (String.eqb (User.id u) id); [discriminate|].
  cbn [negb]. intros H. rewrite (IH H). reflexivity.
Qed.

(** X8. A user created through the mock backend can be fetched by the id it
    was given, also when an older user happens to carry the same id; it
    stands first in the unfiltered listing, whose total grows by one.  Fields
    missing from the form data are filled in: empty strings for the names and
    the e-mail, the role [user], and the account is active. *)
Theorem createUser_then_getUserById
  (mockUsers : list User.t) (userData : PartialUser.t) (now : Z)
  (createdAt updatedAt : string) (pageSize : Z) :
  let '(newUser, mockUsers') := MockApi.createUser mockUsers userData now createdAt updatedAt in
  MockApi.getUserById mockUsers' (User.id newUser) = Resolved newUser
  /\ User.id newUser = "user-" ++ MockApi.decimal now
  /\ User.isActive newUser = true
  /\ (PartialUser.role userData = None -> User.role newUser = RoleUser)
  /\ (PartialUser.email userData = None -> User.email newUser = "")
  /\ Pagination.total (PaginatedResponse.pagination (MockApi.getUsers mockUsers' 1 pageSize ""))
     = Pagination.total (PaginatedResponse.pagination (MockApi.getUsers mockUsers 1 pageSize ""))
       + 1
  /\ (0 < pageSize ->
      head (PaginatedResponse.data (MockApi.getUsers mockUsers' 1 pageSize "")) = Some newUser).
Proof.
  cbn [MockApi.createUser].
  split.
  { unfold MockApi.getUserById. cbn [List.find User.id]. rewrite String.eqb_refl. reflexivity. }
  split; [reflexivity|]. split; [reflexivity|].
  split; [intros ->; reflexivity|]. split; [intros ->; reflexivity|].
  split.
  { unfold MockApi.getUsers, MockApi.filtered. cbn. lia. }
  intros Hps. rewrite getUsers_data by lia.
  unfold MockApi.filtered. cbn [JS.truthy String.eqb negb].
  replace (Z.to_nat ((1 - 1) * pageSize)) with 0%nat by lia. cbn [drop].
  destruct (Z.to_nat pageSize) eqn:Hn; [lia|]. reflexivity.
Qed.

(** X9. Deleting through the mock backend never fails.  Afterwards no user
    with that id can be fetched, every other user is fetched as before,
    deleting again changes nothing, and deleting an id that no user carries
    leaves the list as it was. *)
Theorem deleteUser_then_getUserById (mockUsers : list User.t) (id : string) :
  let mockUsers' := MockApi.deleteUser mockUsers id in
  MockApi.getUserById mockUsers' id = Rejected "User not found"
  /\ (forall id', id' <> id ->
        MockApi.getUserById mockUsers' id' = MockApi.getUserById mockUsers id')
  /\ MockApi.deleteUser mockUsers' id = mockUsers'
  /\ (MockApi.getUserById mockUsers id = Rejected "User not found" ->
      mockUsers' = mockUsers)
  /\ (length mockUsers' <= length mockUsers)%nat.
Proof.
  cbv zeta. unfold MockApi.getUserById.
  split; [rewrite find_filter_out; reflexivity|].
  split; [intros id' Hne; rewrite find_filter_other by exact Hne; reflexivity|].
  split; [apply filter_absent, find_filter_out|].
  split.
  - intros Hfind. apply filter_absent.
    destruct (List.find _ mockUsers); [discriminate|reflexivity].
  - unfold MockApi.deleteUser. apply filter_length_le.
Qed.

Lemma findIndex_Some {A : Type} (f : A -> bool) (l : list A) (i : nat) :
  JS.findIndex f l = Some i ->
  exists x, l !! i = Some x /\ f x = true
            /\ forall j y, (j < i)%nat -> l !! j = Some y -> f y = false.
Proof.
  revert i. induction l as [|a l IH]; intros i; [discriminate|].
  cbn [JS.findIndex]. destruct (f a) eqn:Ha.
  - intros [= <-]. exists a. split; [reflexivity|]. split; [exact Ha|]. intros j y Hj. lia.
  - destruct (JS.findIndex f l) as [k|] eqn:Hk; [|discriminate].
    cbn. intros [= <-]. destruct (IH k eq_refl) as (x & Hx & Hfx & Hbefore).
    exists x. split; [exact Hx|]. split; [exact Hfx|].
    intros [|j] y Hj Hy; cbn in Hy.
    + injection Hy as <-. exact Ha.
    + apply (Hbefore j y); [lia|exact Hy].
Qed.

Lemma findIndex_None {A : Type} (f : A -> bool) (l : list A) :
  JS.findIndex f l = None -> List.find f l = None.
Proof.
  induction l as [|a l IH]; [reflexivity|].
  cbn [JS.findIndex List.find]. destruct (f a); [discriminate|].
  destruct (JS.findIndex f l); [discriminate|]. intros _. apply IH. reflexivity.
Qed.

(** X10. Updating through the mock backend fails with [User not found], and
    changes nothing, exactly when no user carries the id.  Otherwise the
    first user with that id, and only that entry, is replaced by itself
    merged with the form data and stamped with the new [updatedAt]; the list
    keeps its length and the merged user is what is returned. *)
Theorem mockApi_updateUser_spec
  (mockUsers : list User.t) (id : string) (userData : PartialUser.t) (updatedAt : string) :
  let '(outcome, mockUsers') := MockApi.updateUser mockUsers id userData updatedAt in
  length mockUsers' = length mockUsers
  /\ (MockApi.getUserById mockUsers id = Rejected "User not found" ->
      outcome = Rejected "User not found" /\ mockUsers' = mockUsers)
  /\ (forall old, MockApi.getUserById mockUsers id = Resolved old ->
        exists index,
          mockUsers !! index = Some old
          /\ outcome = Resolved (MockApi.set_updatedAt updatedAt (PartialUser.spread old userData))
          /\ mockUsers' = <[index := MockApi.set_updatedAt updatedAt
                                       (PartialUser.spread old userData)]> mockUsers
          /\ (forall j, j <> index -> mockUsers' !! j = mockUsers !! j)
          /\ User.updatedAt (MockApi.set_updatedAt updatedAt (PartialUser.spread old userData))
             = updatedAt).
Proof.
  unfold MockApi.updateUser, MockApi.getUserById.
  destruct (JS.findIndex (fun u => String.eqb (User.id u) id) mockUsers) as [index|] eqn:Hidx.
  - destruct (findIndex_Some _ _ _ Hidx) as (x & Hx & Hfx & Hbefore).
    rewrite Hx.
    assert (Hfind : List.find (fun u => String.eqb (User.id u) id) mockUsers = Some x).
    { clear Hidx. revert index Hx Hbefore.
      induction mockUsers as [|a l IH]; intros index Hx Hbefore; [discriminate|].
      cbn [List.find]. destruct index as [|index]; cbn in Hx.
      - injection Hx as ->. rewrite Hfx. reflexivity.
      - rewrite (Hbefore 0%nat a ltac:(lia) eq_refl).
        apply (IH index Hx). intros j y Hj Hy. apply (Hbefore (S j) y); [lia|exact Hy]. }
    rewrite Hfind.
    split; [apply length_insert|].
    split; [discriminate|].
    intros old [= <-]. exists index.
    split; [exact Hx|]. split; [reflexivity|]. split; [reflexivity|].
    split; [|reflexivity].
    intros j Hj. apply list_lookup_insert_ne. congruence.
  - rewrite (findIndex_None _ _ Hidx).
    split; [reflexivity|]. split; [intros _; split; reflexivity|discriminate].
Qed.

End MockApiCrudFacts.

Section LoginFacts.

Lemma demoUsers_lookup (loadedAt email : string) (d : MockApi.DemoUser) :
  MockApi.demoUsers loadedAt !! email = Some d ->
  (email = "admin@enterprise.com"
   /\ d = MockApi.mkDemoUser "admin123" (MockApi.adminUser loadedAt))
  \/ (email = "manager@enterprise.com"
      /\ d = MockApi.mkDemoUser "manager123" (MockApi.managerUser loadedAt))
  \/ (email = "user@enterprise.com"
      /\ d = MockApi.mkDemoUser "user123" (MockApi.regularUser loadedAt)).
Proof.
  unfold MockApi.demoUsers. rewrite !lookup_insert, lookup_empty.
  repeat case_decide; intros [= <-]; subst; auto.
Qed.

Lemma issued_refresh_token_has_prefix (n : Z) :
  String.prefix "mock-refresh-token" ("mock-refresh-token-" ++ MockApi.decimal n) = true.
Proof. reflexivity. Qed.

(** X11. [mockApi.login] resolves exactly for the three demo accounts with
    their own passwords and rejects everything else with
    [Invalid email or password].  The response carries the account of the
    e-mail that logged in and freshly stamped tokens. *)
Theorem login_spec (loadedAt : string) (now now' : Z) (email pass : string) :
  let demo := [("admin@enterprise.com", "admin123");
               ("manager@enterprise.com", "manager123");
               ("user@enterprise.com", "user123")] in
  ((email, pass) ∈ demo ->
   exists response,
     MockApi.login loadedAt now now' email pass = Resolved response
     /\ User.email (AuthResponse.user response) = email
     /\ AuthResponse.token response = "mock-jwt-token-" ++ MockApi.decimal now
     /\ AuthResponse.refreshToken response = "mock-refresh-token-" ++ MockApi.decimal now'
     /\ AuthResponse.expiresIn response = 3600)
  /\ ((email, pass) ∉ demo ->
      MockApi.login loadedAt now now' email pass = Rejected "Invalid email or password").
Proof.
  cbv zeta. split.
  - intros Hin. rewrite !elem_of_cons, elem_of_nil in Hin.
    destruct Hin as [[= -> ->]|[[= -> ->]|[[= -> ->]|[]]]];
      eexists; (split; [reflexivity|]); repeat split.
  - intros Hout. unfold MockApi.login.
    destruct (MockApi.demoUsers loadedAt !! email) as [d|] eqn:Hd; [|reflexivity].
    destruct (String.eqb_spec (MockApi.password d) pass) as [Hp|Hp]; [|reflexivity].
    exfalso. apply Hout. rewrite !elem_of_cons.
    apply demoUsers_lookup in Hd.
    destruct Hd as [[-> ->]|[[-> ->]|[-> ->]]]; cbn in Hp; subst pass; auto.
Qed.

(** X12. [mockApi.refreshToken] accepts exactly the tokens that start with
    [mock-refresh-token]: every refresh token issued by a login or by an
    earlier refresh is accepted.  Whoever logged in, the refreshed session
    is that of the admin demo account. *)
Theorem refreshToken_spec
  (loadedAt : string) (now now' n n' : Z) (email pass token : string) :
  (forall response,
     MockApi.login loadedAt now now' email pass = Resolved response ->
     exists refreshed,
       MockApi.refreshToken loadedAt n n' (AuthResponse.refreshToken response)
       = Resolved refreshed
       /\ AuthResponse.user refreshed = MockApi.adminUser loadedAt
       /\ User.role (AuthResponse.user refreshed) = RoleAdmin
       /\ exists again,
            MockApi.refreshToken loadedAt n n' (AuthResponse.refreshToken refreshed)
            = Resolved again)
  /\ (String.prefix "mock-refresh-token" token = false ->
      MockApi.refreshToken loadedAt n n' token = Rejected "Invalid refresh token")
  /\ (String.prefix "mock-refresh-token" token = true ->
      exists refreshed, MockApi.refreshToken loadedAt n n' token = Resolved refreshed).
Proof.
  split; [|split].
  - intros response Hlogin. unfold MockApi.login in Hlogin.
    destruct (MockApi.demoUsers loadedAt !! email) as [d|]; [|discriminate].
    destruct (negb _); [discriminate|]. injection Hlogin as <-.
    eexists. split; [reflexivity|]. split; [reflexivity|]. split; [reflexivity|].
    eexists. reflexivity.
  - intros Hp. unfold MockApi.refreshToken. rewrite Hp. reflexivity.
  - intros Hp. unfold MockApi.refreshToken. rewrite Hp. eexists. reflexivity.
Qed.

End LoginFacts.

Section SessionFacts.
Import AuthThunks.

Lemma issued_token_truthy (n : Z) :
  JS.truthy ("mock-jwt-token-" ++ MockApi.decimal n) = true.
Proof. reflexivity. Qed.

(** X13. A login that succeeds leaves the session authenticated, with the
    user and the tokens of the response in the state and both tokens in
    [localStorage]; after a reload of the page the session is still
    authenticated with the same tokens, but the user is not known any more.
    A login that fails stores nothing: the tokens in the state and the
    storage are what they were and the error message is recorded. *)
Theorem loginAsync_session
  (s : Session) (loadedAt : string) (now now' : Z) (email pass : string) :
  let s' := run_thunk s (fun storage => loginAsync storage loadedAt now now' email pass) in
  (forall response,
     MockApi.login loadedAt now now' email pass = Resolved response ->
     AuthState.user (auth s') = Some (AuthResponse.user response)
     /\ AuthState.token (auth s') = Some (AuthResponse.token response)
     /\ AuthState.refreshToken (auth s') = Some (AuthResponse.refreshToken response)
     /\ AuthState.isAuthenticated (auth s') = true
     /\ AuthState.isLoading (auth s') = false
     /\ localStorage s' !! AuthSlice.tokenKey = Some (AuthResponse.token response)
     /\ localStorage s' !! AuthSlice.refreshTokenKey
        = Some (AuthResponse.refreshToken response)
     /\ AuthState.token (auth (reload s')) = AuthState.token (auth s')
     /\ AuthState.refreshToken (auth (reload s')) = AuthState.refreshToken (auth s')
     /\ AuthState.isAuthenticated (auth (reload s')) = true
     /\ AuthState.user (auth (reload s')) = None)
  /\ (forall message,
        MockApi.login loadedAt now now' email pass = Rejected message ->
        AuthState.error (auth s') = Some message
        /\ AuthState.isLoading (auth s') = false
        /\ AuthState.token (auth s') = AuthState.token (auth s)
        /\ AuthState.isAuthenticated (auth s') = AuthState.isAuthenticated (auth s)
        /\ localStorage s' = localStorage s).
Proof.
  cbv zeta. unfold run_thunk, loginAsync. split.
  - intros response Hlogin. rewrite Hlogin. cbn.
    assert (Htok : AuthResponse.token response = "mock-jwt-token-" ++ MockApi.decimal now).
    { unfold MockApi.login in Hlogin.
      destruct (MockApi.demoUsers loadedAt !! email); [|discriminate].
      destruct (negb _); [discriminate|]. injection Hlogin as <-. reflexivity. }
    rewrite lookup_insert_ne by discriminate.
    rewrite !lookup_insert_eq.
    repeat split. rewrite Htok. reflexivity.
  - intros message Hlogin. rewrite Hlogin. cbn. repeat split.
Qed.

(** X14. After [logout], after [logoutAsync] and after a rejected
    [refreshTokenAsync] both tokens are gone from [localStorage], so that a
    reload of the page starts unauthenticated with no token, whatever was
    stored and whatever the state was before. *)
Theorem logout_survives_reload
  (s : Session) (loadedAt : string) (now now' : Z) (refreshToken : string) :
  let signed_out :=
    {| AuthState.user := None; AuthState.token := None; AuthState.refreshToken := None;
       AuthState.isAuthenticated := false; AuthState.isLoading := false;
       AuthState.error := None |} in
  auth (reload (dispatch s AuthSlice.logout)) = signed_out
  /\ auth (reload (run_thunk s logoutAsync)) = signed_out
  /\ (String.prefix "mock-refresh-token" refreshToken = false ->
      let s' := run_thunk s (fun storage =>
                               refreshTokenAsync storage loadedAt now now' refreshToken) in
      Api.cleared (auth s') /\ auth (reload s') = signed_out).
Proof.
  cbv zeta.
  assert (Hgone : forall m : gmap string string,
             AuthSlice.initialState
               (delete AuthSlice.refreshTokenKey (delete AuthSlice.tokenKey m))
             = {| AuthState.user := None; AuthState.token := None;
                  AuthState.refreshToken := None; AuthState.isAuthenticated := false;
                  AuthState.isLoading := false; AuthState.error := None |}).
  { intros m. unfold AuthSlice.initialState.
    rewrite lookup_delete_ne by discriminate. rewrite !lookup_delete_eq. reflexivity. }
  split; [apply Hgone|]. split; [apply Hgone|].
  intros Hp. unfold run_thunk, refreshTokenAsync, MockApi.refreshToken. rewrite Hp.
  cbn [negb fold_left dispatch auth localStorage reload AuthSlice.reducer_storage].
  split; [repeat split|apply Hgone].
Qed.

Lemma logout_survives_reload_witness :
  let s := mkSession (AuthState.mk None (Some "mock-jwt-token-1") (Some "stale") true false None)
                     {[ AuthSlice.tokenKey := "mock-jwt-token-1" ]} in
  AuthState.isAuthenticated (auth (reload s)) = true
  /\ AuthState.isAuthenticated (auth (reload (dispatch s AuthSlice.logout))) = false.
Proof.
  intros s.
  destruct (logout_survives_reload s "" 0 0 "stale") as (Hlogout & _).
  split; [reflexivity|]. rewrite Hlogout. reflexivity.
Defined.

End SessionFacts.

Section RouteGuardFacts.
Import UsePermissions.

(** X15. The route guard sends an unauthenticated visitor to the login page
    and a user whose role is not among the allowed ones to the dashboard; in
    every other case it renders the page.  One of these other cases is an
    authenticated session whose user is not known, as after a reload of the
    page with a stored token: the role check is then skipped, the guard
    renders every page route, while the sidebar, which asks
    [canAccessRoute], shows no entry at all. *)
Theorem route_guard_spec
  (state : AuthState.t) (allowedRoles : option (list UserRole))
  (localStorage : gmap string string) (path : string) :
  (ProtectedRoute.render state allowedRoles = ProtectedRoute.NavigateToLogin
   <-> AuthState.isAuthenticated state = false)
  /\ (ProtectedRoute.render state allowedRoles = ProtectedRoute.NavigateToDashboard
      <-> AuthState.isAuthenticated state = true
          /\ exists roles u,
               allowedRoles = Some roles /\ AuthState.user state = Some u
               /\ roles <> [] /\ User.role u ∉ roles)
  /\ (JS.truthy_opt (localStorage !! AuthSlice.tokenKey) = true ->
      let reloaded := AuthSlice.initialState localStorage in
      ProtectedRoute.render reloaded allowedRoles = ProtectedRoute.Children
      /\ App.page_renders reloaded path = true
      /\ App.filteredNav reloaded = []).
Proof.
  assert (Hinc : forall (roles : list UserRole) role,
             includes roles role = true <-> role ∈ roles).
  { intros roles role. unfold includes. rewrite existsb_exists. split.
    - intros (y & Hy & Heq). apply bool_decide_eq_true in Heq. subst y.
      apply list_elem_of_In. exact Hy.
    - intros Hin. exists role. split; [apply list_elem_of_In; exact Hin|].
      apply bool_decide_eq_true. reflexivity. }
  split; [|split].
  - unfold ProtectedRoute.render.
    destruct (AuthState.isAuthenticated state); cbn [negb].
    + split; [|discriminate].
      destruct allowedRoles as [roles|], (selectUserRole state) as [role|]; try discriminate.
      destruct (_ && _); discriminate.
    + split; reflexivity.
  - unfold ProtectedRoute.render, selectUserRole.
    destruct (AuthState.isAuthenticated state); cbn [negb].
    2:{ split; [discriminate|]. intros [H _]. discriminate H. }
    destruct allowedRoles as [roles|], (AuthState.user state) as [u|]; cbn [option_map].
    + destruct roles as [|r roles].
      * cbn. split; [discriminate|]. intros (_ & roles' & u' & [= <-] & _ & Hne & _).
        exfalso. apply Hne. reflexivity.
      * cbn [length Nat.ltb Nat.leb andb].
        destruct (includes (r :: roles) (User.role u)) eqn:Hi; cbn [negb].
        -- split; [discriminate|]. intros (_ & roles' & u' & [= <-] & [= <-] & _ & Hout).
           exfalso. apply Hout. apply Hinc. exact Hi.
        -- split; [|reflexivity]. intros _. split; [reflexivity|].
           exists (r :: roles), u. split; [reflexivity|]. split; [reflexivity|].
           split; [discriminate|]. intros Hin. apply Hinc in Hin. congruence.
    + split; [discriminate|]. intros (_ & roles' & u' & _ & [=] & _).
    + split; [discriminate|]. intros (_ & roles' & u' & [=] & _).
    + split; [discriminate|]. intros (_ & roles' & u' & [=] & _).
  - intros Htok. cbv zeta.
    assert (Hr : forall roles,
               ProtectedRoute.render (AuthSlice.initialState localStorage) roles
               = ProtectedRoute.Children).
    { intros roles. unfold ProtectedRoute.render, AuthSlice.initialState.
      cbn [AuthState.isAuthenticated]. rewrite Htok. cbn [negb].
      unfold selectUserRole. cbn [AuthState.user option_map].
      destruct roles; reflexivity. }
    split; [apply Hr|]. split; [unfold App.page_renders; rewrite !Hr; reflexivity|].
    reflexivity.
Qed.

Lemma route_guard_spec_witness :
  let stored : gmap string string := {[ AuthSlice.tokenKey := "mock-jwt-token-1" ]} in
  JS.truthy_opt (stored !! AuthSlice.tokenKey) = true
  /\ App.page_renders (AuthSlice.initialState stored) "/settings" = true.
Proof.
  intros stored.
  assert (Htok : JS.truthy_opt (stored !! AuthSlice.tokenKey) = true).
  { unfold stored. rewrite lookup_singleton_eq. reflexivity. }
  destruct (route_guard_spec (AuthSlice.initialState stored) None stored "/settings")
    as (_ & _ & Hreload).
  split; [exact Htok|]. exact (proj1 (proj2 (Hreload Htok))).
Defined.

(** X16. For a signed-in user the sidebar and the routes agree: a
    navigation entry is shown exactly when the route it points to renders
    its page for that user. *)
Theorem sidebar_agrees_with_routes (state : AuthState.t) (u : User.t) (item : Config.NavItem) :
  AuthState.isAuthenticated state = true ->
  AuthState.user state = Some u ->
  item ∈ Config.navigationConfig ->
  (item ∈ App.filteredNav state <-> App.page_renders state (Config.path item) = true).
Proof.
  intros Hauth Huser Hitem.
  unfold App.filteredNav. rewrite list_elem_of_In, filter_In, <- list_elem_of_In.
  unfold App.page_renders, ProtectedRoute.render, selectUserRole, canAccessRoute.
  rewrite Hauth, Huser. cbn [negb option_map].
  unfold Config.navigationConfig in Hitem.
  rewrite !elem_of_cons, elem_of_nil in Hitem.
  destruct Hitem as [->|[->|[->|[->|[->|[]]]]]];
    destruct (User.role u); cbn; split;
    try (intros [_ H]; exact H); try discriminate; try reflexivity;
    intros _; (split; [|reflexivity]);
    unfold Config.navigationConfig; rewrite !elem_of_cons; auto 10.
Qed.

Lemma sidebar_agrees_with_routes_witness :
  let manager := MockApi.managerUser "2026-01-01T00:00:00.000Z" in
  let state := AuthState.mk (Some manager) (Some "mock-jwt-token-1")
                            (Some "mock-refresh-token-1") true false None in
  let users := Config.mkNavItem "users" "Users" "/users" "Users" [RoleAdmin; RoleManager] in
  AuthState.isAuthenticated state = true
  /\ AuthState.user state = Some manager
  /\ users ∈ Config.navigationConfig
  /\ users ∈ App.filteredNav state
  /\ map Config.id (App.filteredNav state) = ["dashboard"; "users"; "products"; "reports"]
  /\ App.page_renders state "/users" = true
  /\ App.page_renders state "/settings" = false.
Proof.
  intros manager state users.
  assert (Hauth : AuthState.isAuthenticated state = true) by reflexivity.
  assert (Huser : AuthState.user state = Some manager) by reflexivity.
  assert (Hitem : users ∈ Config.navigationConfig).
  { unfold Config.navigationConfig, users. rewrite !elem_of_cons. auto. }
  assert (Hpage : App.page_renders state (Config.path users) = true) by reflexivity.
  destruct (sidebar_agrees_with_routes state manager users Hauth Huser Hitem) as [_ Hshown].
  split; [exact Hauth|]. split; [exact Huser|]. split; [exact Hitem|].
  split; [exact (Hshown Hpage)|]. repeat split.
Defined.

(** X17. Permissions grow with the role: what a [user] may do a [manager]
    may do, and what a [manager] may do an [admin] may do; an [admin] holds
    every permission, and without a role nothing is permitted.  Over the
    permissions a role holds, [hasAllPermissions] and [hasAnyPermission] are
    the universal and the existential quantifier. *)
Theorem permissions_grow_with_role (permission : Permission) (required : list Permission)
        (userRole : option UserRole) :
  (hasPermission (Some RoleUser) permission = true ->
   hasPermission (Some RoleManager) permission = true)
  /\ (hasPermission (Some RoleManager) permission = true ->
      hasPermission (Some RoleAdmin) permission = true)
  /\ hasPermission (Some RoleAdmin) permission = true
  /\ hasPermission None permission = false
  /\ (hasAllPermissions userRole required = true
      <-> forall p, p ∈ required -> hasPermission userRole p = true)
  /\ (hasAnyPermission userRole required = true
      <-> exists p, p ∈ required /\ hasPermission userRole p = true).
Proof.
  split; [destruct permission; vm_compute; congruence|].
  split; [intros _; destruct permission; reflexivity|].
  split; [destruct permission; reflexivity|].
  split; [reflexivity|].
  unfold hasAllPermissions, hasAnyPermission, hasPermission. split.
  - rewrite forallb_forall. split; intros Hall p Hp; apply Hall;
      [apply list_elem_of_In|apply list_elem_of_In]; exact Hp.
  - rewrite existsb_exists. split; intros (p & Hp & Hhas); exists p;
      (split; [apply list_elem_of_In; exact Hp|exact Hhas]).
Qed.

End RouteGuardFacts.

Section UsersSliceMutationFacts.
Import UsersSlice.

Lemma find_insert_found (l : list User.t) (id : string) (index : nat) (payload : User.t) :
  JS.findIndex (has_id id) l = Some index ->
  has_id id payload = true ->
  List.find (has_id id) (<[index := payload]> l) = Some payload.
Proof.
  revert index. induction l as [|a l IH]; intros index; [discriminate|].
  cbn [JS.findIndex]. destruct (has_id id a) eqn:Ha.
  - intros [= <-] Hp. cbn. rewrite Hp. reflexivity.
  - destruct (JS.findIndex (has_id id) l) as [k|]; [|discriminate].
    cbn. intros [= <-] Hp. cbn. rewrite Ha. apply IH; [reflexivity|exact Hp].
Qed.

Lemma filter_sublist_of {A : Type} (f : A -> bool) (l : list A) :
  List.filter f l `sublist_of` l.
Proof.
  induction l as [|a l IH]; [constructor|].
  cbn [List.filter]. destruct (f a); [apply sublist_skip|apply sublist_cons]; exact IH.
Qed.


(** X19. A confirmed delete removes from the stored page every user that
    carries the id and nothing else: the users with other ids remain, in
    their order.  The selection is cleared exactly when it was the deleted
    user. *)
Theorem deleteUser_fulfilled_spec (state : UsersState) (id : string) :
  let state' := reducer state (deleteUser_fulfilled id) in
  (forall u, u ∈ users state' <-> u ∈ users state /\ has_id id u = false)
  /\ users state' `sublist_of` users state
  /\ List.find (has_id id) (users state') = None
  /\ selectedUser state' = (if selected_has_id state id then None else selectedUser state)
  /\ isDeleting state' = false.
Proof.
  cbv zeta. unfold reducer. cbv zeta.
  set (kept := List.filter (fun u => negb (has_id id u)) (users (set_isDeleting false state))).
  assert (Hsel : selected_has_id
                   (set_pagination
                      (Pagination.set_total
                         (Pagination.total
                            (pagination (set_users kept (set_isDeleting false state))) - 1)
                         (pagination (set_users kept (set_isDeleting false state))))
                      (set_users kept (set_isDeleting false state))) id
                 = selected_has_id state id) by reflexivity.
  rewrite Hsel.
  assert (Hkept : forall u, u ∈ kept <-> u ∈ users state /\ has_id id u = false).
  { intros u. unfold kept. cbn [users set_isDeleting].
    rewrite list_elem_of_In, filter_In, <- list_elem_of_In, negb_true_iff. reflexivity. }
  assert (Hsub : kept `sublist_of` users state) by apply filter_sublist_of.
  assert (Hfind : List.find (has_id id) kept = None).
  { destruct (List.find (has_id id) kept) as [u|] eqn:Hu; [|reflexivity].
    apply find_some in Hu as [Hin Hid]. apply list_elem_of_In, Hkept in Hin as [_ Hno].
    congruence. }
  destruct (selected_has_id state id);
    cbn [users selectedUser isDeleting set_users set_selectedUser set_pagination set_isDeleting];
    repeat split; try assumption; try (apply Hkept; assumption); apply Hkept.
Qed.

(** X20. Create and delete keep the count by plus and minus one and never
    recompute the number of pages: [totalPages], [page] and [pageSize] stay
    as the last fetch left them.  So when the total was a multiple of the
    page size, the stored [totalPages] is no longer the ceiling of
    [total / pageSize] after a create; and a delete lowers the total also
    when the page holds no user with that id. *)
Theorem create_delete_leave_totalPages (state : UsersState) (created : User.t) (id : string) :
  let after_create := reducer state (createUser_fulfilled created) in
  let after_delete := reducer state (deleteUser_fulfilled id) in
  Pagination.totalPages (pagination after_create) = Pagination.totalPages (pagination state)
  /\ Pagination.totalPages (pagination after_delete) = Pagination.totalPages (pagination state)
  /\ Pagination.page (pagination after_create) = Pagination.page (pagination state)
  /\ Pagination.pageSize (pagination after_create) = Pagination.pageSize (pagination state)
  /\ users after_create = created :: users state
  /\ (0 < Pagination.pageSize (pagination state) ->
      Spec.is_ceiling (Pagination.totalPages (pagination state))
                      (Pagination.total (pagination state))
                      (Pagination.pageSize (pagination state)) ->
      Pagination.total (pagination state)
      = Pagination.totalPages (pagination state) * Pagination.pageSize (pagination state) ->
      ~ Spec.is_ceiling (Pagination.totalPages (pagination after_create))
                        (Pagination.total (pagination after_create))
                        (Pagination.pageSize (pagination after_create)))
  /\ (List.find (has_id id) (users state) = None ->
      users after_delete = users state
      /\ Pagination.total (pagination after_delete) = Pagination.total (pagination state) - 1).
Proof.
  cbv zeta.
  assert (Hd : pagination (reducer state (deleteUser_fulfilled id))
               = Pagination.set_total (Pagination.total (pagination state) - 1)
                                      (pagination state)).
  { unfold reducer. cbv zeta.
    match goal with |- context [if ?c then _ else _] => destruct c end; reflexivity. }
  assert (Hu : users (reducer state (deleteUser_fulfilled id))
               = List.filter (fun u => negb (has_id id u)) (users state)).
  { unfold reducer. cbv zeta.
    match goal with |- context [if ?c then _ else _] => destruct c end; reflexivity. }
  rewrite Hd, Hu.
  split; [reflexivity|]. split; [reflexivity|]. split; [reflexivity|].
  split; [reflexivity|]. split; [reflexivity|].
  split.
  - cbn. unfold Spec.is_ceiling. intros Hps Hceil Hmult [Hlow Hhigh]. lia.
  - intros Hnone. split; [|reflexivity].
    exact (filter_absent (users state) id Hnone).
Qed.

Example delete_on_initial_state :
  Pagination.total (pagination (reducer initialState (deleteUser_fulfilled "user-1"))) = -1.
Proof. reflexivity. Qed.

Example create_makes_totalPages_stale :
  let fetched := reducer initialState
                   (fetchUsers_fulfilled (PaginatedResponse.mk [] (Pagination.mk 1 25 50 2))) in
  let created := reducer fetched (createUser_fulfilled Api.no_user) in
  pagination created = Pagination.mk 1 25 51 2
  /\ JS.Math_ceil_div 51 25 = 3.
Proof. split; reflexivity. Qed.

End UsersSliceMutationFacts.

Section OptimisticStatusFacts.
Import UsersSlice.




End OptimisticStatusFacts.

Section TableViewFacts.
Import UsersSlice.

(** X22. What the users table shows around a fetch.  After a fetch that
    failed the table shows the error message and not the rows, although the
    rows of the last good page are still stored.  The next fetch clears the
    error when it starts: while it runs the stored rows are shown again (or
    the spinner, when there are none) and both pagination buttons are
    disabled.  A rejected create, update or delete puts the table into the
    same error view. *)
Theorem users_table_view (state : UsersState) (message : option string) (reason : string) :
  let failed := reducer state (fetchUsers_rejected message) in
  let loading := reducer state fetchUsers_pending in
  UsersPage.tableView failed
  = DataTable.ErrorView (JS.or_default message "Failed to fetch users")
  /\ users failed = users state
  /\ (users state <> [] -> UsersPage.tableView loading = DataTable.TableView (users state))
  /\ (users state = [] -> UsersPage.tableView loading = DataTable.LoadingView)
  /\ UsersPage.previousButton loading = None
  /\ UsersPage.nextButton loading = None
  /\ (JS.truthy reason = true -> isLoading state = false ->
      UsersPage.tableView (reducer state (createUser_rejected reason))
      = DataTable.ErrorView reason
      /\ UsersPage.tableView (reducer state (updateUser_rejected reason))
         = DataTable.ErrorView reason
      /\ UsersPage.tableView (reducer state (deleteUser_rejected reason))
         = DataTable.ErrorView reason).
Proof.
  cbv zeta. unfold UsersPage.tableView, UsersPage.previousButton, UsersPage.nextButton,
    DataTable.view, DataTable.previousButton, DataTable.nextButton.
  cbn [reducer users isLoading error pagination set_isLoading set_error set_isCreating
       set_isUpdating set_isDeleting andb].
  split.
  { assert (Ht : JS.truthy (JS.or_default message "Failed to fetch users") = true).
    { unfold JS.or_default. destruct message as [m|]; [|reflexivity].
      destruct (JS.truthy m) eqn:Hm; [exact Hm|reflexivity]. }
    rewrite Ht. reflexivity. }
  split; [reflexivity|].
  split; [intros Hne; destruct (users state); [congruence|reflexivity]|].
  split; [intros ->; reflexivity|].
  split; [rewrite orb_true_r; reflexivity|].
  split; [rewrite orb_true_r; reflexivity|].
  intros Hreason Hload. rewrite Hload, Hreason. cbn [andb]. repeat split.
Qed.

Lemma users_table_view_witness :
  let admin := MockApi.adminUser "2026-01-01T00:00:00.000Z" in
  let state := reducer initialState
                 (fetchUsers_fulfilled (PaginatedResponse.mk [admin] (Pagination.mk 1 25 1 1))) in
  JS.truthy "User not found" = true
  /\ isLoading state = false
  /\ UsersPage.tableView state = DataTable.TableView [admin]
  /\ UsersPage.tableView (reducer state (updateUser_rejected "User not found"))
     = DataTable.ErrorView "User not found".
Proof.
  intros admin state.
  assert (Hreason : JS.truthy "User not found" = true) by reflexivity.
  assert (Hload : isLoading state = false) by reflexivity.
  destruct (users_table_view state None "User not found") as (_ & _ & _ & _ & _ & _ & Hrej).
  destruct (Hrej Hreason Hload) as (_ & Hupdate & _).
  split; [exact Hreason|]. split; [exact Hload|]. split; [reflexivity|exact Hupdate].
Defined.

End TableViewFacts.

Section TransportMoreFacts.
Import Api.
Context `{Unknown}.

(** X23. Only a 401 sets the re-authentication off.  A call whose first
    response is anything else (data, another HTTP error, a timeout or a
    network failure) returns that response as it is: it has sent its one
    request, it sends nothing more, dispatches nothing and leaves the
    credentials alone, whatever else is in flight. *)
Theorem other_failures_pass_through (w0 : World) (a : Args) (r : QueryResult) :
  is401 r = false ->
  let pid := length (procs w0) in
  let w := deliver (launch w0 a) pid r in
  procs w !! pid = Some (Ret r)
  /\ auth w = auth w0
  /\ localStorage w = localStorage w0
  /\ log w = (log w0 ++ [Sent pid {| args := a;
                                     authorization := prepareHeaders (auth w0) |}])%list
  /\ is401 (ResultError TIMEOUT_ERROR) = false
  /\ is401 (ResultError FETCH_ERROR) = false
  /\ (forall code, code <> 401 -> is401 (ResultError (HttpStatus code)) = false)
  /\ (forall data, is401 (ResultData data) = false).
Proof.
  intros Hr pid w.
  assert (Hp : procs (launch w0 a) !! pid
               = Some (Await {| args := a; authorization := prepareHeaders (auth w0) |}
                             (after_first a))).
  { rewrite launch_eq. cbn [procs]. apply list_lookup_middle. reflexivity. }
  unfold w. rewrite (deliver_first_passes _ pid _ a r Hp Hr), launch_eq.
  cbn [set_procs procs auth localStorage log].
  split.
  { apply list_lookup_insert_eq. rewrite length_app. cbn. unfold pid. lia. }
  repeat split.
  intros code Hcode. cbn. apply Z.eqb_neq. exact Hcode.
Qed.

(** X24. A call of [baseQueryWithReauth] needs at most three responses: to
    its request, to its refresh call and to its retry.  After three
    deliveries it has returned, having sent at most three requests, and what
    it returns is the response to the retry if there was one and the first
    response otherwise. *)
Theorem call_returns_within_three_responses
  (state : AuthState.t) (storage : gmap string string) (a : Args)
  (r1 r2 r3 : QueryResult) :
  let w := run (launch (initial state storage) a) [(0%nat, r1); (0%nat, r2); (0%nat, r3)] in
  let retried := is401 r1 && JS.truthy_opt (AuthState.refreshToken state)
                 && bool_decide (truthy_data r2 <> None) in
  procs w = [Ret (if retried then r3 else r1)]
  /\ (length (log w) <= 4)%nat
  /\ (count (fun e => match e with Sent _ _ => true | _ => false end) (log w) <= 3)%nat.
Proof.
  cbv zeta. unfold run. cbn [fold_left fst snd].
  set (w0 := launch (initial state storage) a).
  assert (Hp0 : procs w0 !! 0%nat
                = Some (Await {| args := a; authorization := prepareHeaders state |}
                              (after_first a))) by reflexivity.
  destruct (is401 r1) eqn:H401; cbn [andb].
  - destruct (JS.truthy_opt (AuthState.refreshToken state)) eqn:Hrt; cbn [andb].
    + rewrite (deliver_first_refreshes w0 0 _ a r1 Hp0 H401 Hrt).
      destruct (truthy_data r2) as [data|] eqn:Hdata.
      * match goal with |- context [deliver ?W 0%nat r2] =>
          rewrite (deliver_refresh_succeeds W 0 _ a r1 r2 data eq_refl Hdata) end.
        match goal with |- context [deliver ?W 0%nat r3] =>
          rewrite (deliver_retry_returns W 0 _ r3 eq_refl) end.
        rewrite bool_decide_eq_true_2 by discriminate.
        split; [reflexivity|]. split; [cbn; lia|]. unfold count. cbn. lia.
      * match goal with |- context [deliver ?W 0%nat r2] =>
          rewrite (deliver_refresh_fails W 0 _ a r1 r2 eq_refl Hdata) end.
        match goal with |- context [deliver ?W 0%nat r3] =>
          rewrite (deliver_returned W 0 r3 r1 eq_refl) end.
        rewrite bool_decide_eq_false_2 by (intros Hn; apply Hn; reflexivity).
        split; [reflexivity|]. split; [cbn; lia|]. unfold count. cbn. lia.
    + rewrite (deliver_first_logs_out w0 0 _ a r1 Hp0 H401 Hrt).
      match goal with |- context [deliver ?W 0%nat r2] =>
        rewrite (deliver_returned W 0 r2 r1 eq_refl) end.
      match goal with |- context [deliver ?W 0%nat r3] =>
        rewrite (deliver_returned W 0 r3 r1 eq_refl) end.
      split; [reflexivity|]. split; [cbn; lia|]. unfold count. cbn. lia.
  - rewrite (deliver_first_passes w0 0 _ a r1 Hp0 H401).
    match goal with |- context [deliver ?W 0%nat r2] =>
      rewrite (deliver_returned W 0 r2 r1 eq_refl) end.
    match goal with |- context [deliver ?W 0%nat r3] =>
      rewrite (deliver_returned W 0 r3 r1 eq_refl) end.
    split; [reflexivity|]. split; [cbn; lia|]. unfold count. cbn. lia.
Qed.


(** X26. A refresh made by the transport reaches the store only: the new
    credentials are dispatched with [setCredentials], which writes nothing to
    [localStorage].  The state then holds the new tokens while a reload of
    the page would start again from whatever was stored before. *)
Theorem transport_refresh_is_not_persisted
  (w : World) (pid : nat) (req : Request) (a : Args) (result r : QueryResult) (data : Data) :
  procs w !! pid = Some (Await req (after_refresh a result)) ->
  truthy_data r = Some data ->
  let w' := deliver w pid r in
  AuthState.token (auth w') = Some (AuthResponse.token (asAuthResponse data))
  /\ AuthState.refreshToken (auth w') = Some (AuthResponse.refreshToken (asAuthResponse data))
  /\ AuthState.isAuthenticated (auth w') = true
  /\ localStorage w' = localStorage w
  /\ AuthSlice.initialState (localStorage w') = AuthSlice.initialState (localStorage w).
Proof.
  intros Hp Hdata. cbv zeta.
  rewrite (deliver_refresh_succeeds w pid req a result r data Hp Hdata).
  repeat split.
Qed.

End TransportMoreFacts.

Section TransportMoreExamples.
Import Api.

Lemma other_failures_pass_through_witness :
  let state := AuthState.mk None (Some "mock-jwt-token-1") (Some "mock-refresh-token-1")
                            true false None in
  let timeout := @ResultError example_data TIMEOUT_ERROR in
  let w := deliver (launch (initial state ∅) (ArgsUrl "/users")) 0 timeout in
  is401 timeout = false
  /\ procs w = [Ret timeout]
  /\ auth w = state.
Proof.
  intros state timeout w.
  assert (Hr : is401 timeout = false) by reflexivity.
  destruct (other_failures_pass_through (initial state ∅) (ArgsUrl "/users") timeout Hr)
    as (_ & Hauth & _).
  split; [exact Hr|]. split; [reflexivity|exact Hauth].
Defined.


Lemma transport_refresh_is_not_persisted_witness :
  let state := AuthState.mk None (Some "mock-jwt-token-1") (Some "mock-refresh-token-1")
                            true false None in
  let stored : gmap string string :=
    <[ AuthSlice.refreshTokenKey := "mock-refresh-token-1" ]>
      {[ AuthSlice.tokenKey := "mock-jwt-token-1" ]} in
  let fresh := AuthResponse.mk no_user "mock-jwt-token-2" "mock-refresh-token-2" 3600 in
  let r401 := @ResultError example_data (HttpStatus 401) in
  let refreshed := @ResultData example_data (Some fresh) in
  let w := deliver (launch (initial state stored) (ArgsUrl "/users")) 0 r401 in
  let w' := deliver w 0 refreshed in
  (exists req, procs w !! 0%nat = Some (Await req (after_refresh (ArgsUrl "/users") r401)))
  /\ AuthState.token (auth w') = Some "mock-jwt-token-2"
  /\ AuthState.token (AuthSlice.initialState (localStorage w')) = Some "mock-jwt-token-1".
Proof.
  intros state stored fresh r401 refreshed w w'.
  assert (Hp : procs w !! 0%nat
               = Some (Await {| args := refreshArgs (Some "mock-refresh-token-1");
                                authorization := Some "Bearer mock-jwt-token-1" |}
                             (after_refresh (ArgsUrl "/users") r401))) by reflexivity.
  assert (Hdata : truthy_data refreshed = Some (Some fresh)) by reflexivity.
  destruct (transport_refresh_is_not_persisted w 0 _ (ArgsUrl "/users") r401
              refreshed (Some fresh) Hp Hdata)
    as (Htok & _ & _ & Hstore & _).
  split; [eexists; exact Hp|]. split; [exact Htok|].
  unfold w'. rewrite Hstore.
  assert (Hls : localStorage w = stored) by reflexivity.
  rewrite Hls. unfold AuthSlice.initialState, stored. cbn [AuthState.token].
  rewrite lookup_insert_ne by discriminate. apply lookup_singleton_eq.
Defined.

End TransportMoreExamples.

Section UiSliceFacts.
Import UiSlice.

Lemma addNotification_notifications
  (state : UIState) (payload : NotificationPayload) (now : Z) (created : string) :
  notifications (reducer state (addNotification payload now created))
  = take 50 (mkNotification ("notif-" ++ MockApi.decimal now) (p_type payload)
                            (p_title payload) (p_message payload) false created
             :: notifications state).
Proof.
  cbn [reducer]. cbv zeta. cbn [notifications set_notifications].
  set (l := _ :: notifications state).
  destruct (Nat.ltb_spec 50 (length l)) as [Hlong|Hshort]; cbn [notifications set_notifications].
  - rewrite slice_take_drop by lia. reflexivity.
  - symmetry. apply take_ge. exact Hshort.
Qed.

Lemma reducer_keeps_cap (state : UIState) (action : Action) :
  (length (notifications state) <= 50)%nat ->
  (length (notifications (reducer state action)) <= 50)%nat.
Proof.
  intros Hcap. destruct action; try exact Hcap.
  - rewrite addNotification_notifications, length_take. lia.
  - cbn [reducer]. destruct (JS.findIndex _ _); [|exact Hcap].
    cbn [notifications set_notifications]. rewrite length_alter. exact Hcap.
  - cbn [reducer notifications set_notifications]. rewrite length_map. exact Hcap.
  - cbn. lia.
Qed.

(** X27. The slice never holds more than 50 notifications, whatever is
    dispatched: a new notification goes to the front, unread, and pushes the
    oldest out once there are 50; accordingly the unread count shown on the
    bell never exceeds 50. *)
Theorem notifications_capped
  (onLine : bool) (actions : list Action)
  (payload : NotificationPayload) (now : Z) (created : string) :
  let state := dispatch_all (initialState onLine) actions in
  let added := reducer state (addNotification payload now created) in
  (length (notifications state) <= 50)%nat
  /\ (selectUnreadNotificationsCount state <= 50)%nat
  /\ notifications added
     = take 50 (mkNotification ("notif-" ++ MockApi.decimal now) (p_type payload)
                               (p_title payload) (p_message payload) false created
                :: notifications state)
  /\ (exists newest, head (notifications added) = Some newest
                     /\ read newest = false /\ title newest = p_title payload)
  /\ ((length (notifications state) < 50)%nat ->
      length (notifications added) = S (length (notifications state)))
  /\ (length (notifications state) = 50%nat -> length (notifications added) = 50%nat).
Proof.
  cbv zeta.
  assert (Hcap : forall (acts : list Action) (s : UIState),
             (length (notifications s) <= 50)%nat ->
             (length (notifications (dispatch_all s acts)) <= 50)%nat).
  { induction acts as [|a acts IH]; intros s Hs; [exact Hs|].
    cbn [dispatch_all fold_left]. apply IH, reducer_keeps_cap, Hs. }
  pose proof (Hcap actions (initialState onLine) ltac:(cbn; lia)) as Hlen.
  set (state := dispatch_all (initialState onLine) actions) in *.
  split; [exact Hlen|].
  split.
  { unfold selectUnreadNotificationsCount.
    pose proof (filter_length_le (fun n => negb (read n)) (notifications state)). lia. }
  rewrite addNotification_notifications.
  split; [reflexivity|].
  split; [eexists; cbn; repeat split|].
  split; intros Hn; rewrite length_take; cbn [length]; lia.
Qed.

Lemma unread_alter (l : list Notification) (index : nat) :
  (length (List.filter (fun n => negb (read n)) (alter (set_read true) index l))
   <= length (List.filter (fun n => negb (read n)) l)
   <= S (length (List.filter (fun n => negb (read n)) (alter (set_read true) index l))))%nat.
Proof.
  revert index. induction l as [|a l IH]; intros index; [destruct index; simpl; lia|].
  destruct index as [|index]; cbn [alter list_alter List.filter].
  - cbn [read set_read negb]. destruct (negb (read a)); cbn [length]; lia.
  - specialize (IH index). destruct (negb (read a)); cbn [length]; lia.
Qed.

Lemma find_alter_read (l : list Notification) (i : string) (index : nat) (n : Notification) :
  JS.findIndex (fun n => String.eqb (id n) i) l = Some index ->
  List.find (fun n => String.eqb (id n) i) l = Some n ->
  List.find (fun n => String.eqb (id n) i) (alter (set_read true) index l)
  = Some (set_read true n).
Proof.
  revert index. induction l as [|a l IH]; intros index; [discriminate|].
  cbn [JS.findIndex List.find]. destruct (String.eqb (id a) i) eqn:Ha.
  - intros [= <-] [= <-]. cbn [alter list_alter List.find].
    change (id (set_read true a)) with (id a). rewrite Ha. reflexivity.
  - destruct (JS.findIndex _ l) as [k|]; [|discriminate].
    intros Hk Hn. cbn in Hk. injection Hk as <-.
    cbn [alter list_alter List.find]. rewrite Ha. apply IH; [reflexivity|exact Hn].
Qed.

(** X28. Marking never raises the unread count.  [markAllNotificationsAsRead]
    brings it to zero and keeps the notifications otherwise as they are.
    [markNotificationAsRead] marks the first notification that carries the
    id, so that the count falls by at most one, and does nothing when no
    notification carries the id. *)
Theorem marking_notifications_read (state : UIState) (i : string) :
  let all := reducer state markAllNotificationsAsRead in
  let one := reducer state (markNotificationAsRead i) in
  selectUnreadNotificationsCount all = 0%nat
  /\ map id (notifications all) = map id (notifications state)
  /\ (selectUnreadNotificationsCount one <= selectUnreadNotificationsCount state
      <= S (selectUnreadNotificationsCount one))%nat
  /\ length (notifications one) = length (notifications state)
  /\ (forall n, List.find (fun n => String.eqb (id n) i) (notifications state) = Some n ->
        List.find (fun n => String.eqb (id n) i) (notifications one) = Some (set_read true n))
  /\ (List.find (fun n => String.eqb (id n) i) (notifications state) = None -> one = state).
Proof.
  cbv zeta. split; [|split].
  - unfold selectUnreadNotificationsCount. cbn [reducer notifications set_notifications].
    induction (notifications state) as [|a l IH]; [reflexivity|]. cbn. exact IH.
  - cbn [reducer notifications set_notifications]. rewrite map_map. reflexivity.
  - unfold selectUnreadNotificationsCount. cbn [reducer].
    destruct (JS.findIndex (fun n => String.eqb (id n) i) (notifications state))
      as [index|] eqn:Hidx; cbn [notifications set_notifications].
    + split; [apply unread_alter|]. split; [apply length_alter|].
      split; [intros n Hn; apply find_alter_read; assumption|].
      intros Hnone. exfalso.
      destruct (findIndex_Some _ _ _ Hidx) as (x & Hx & Hfx & _).
      apply list_elem_of_lookup_2, list_elem_of_In in Hx.
      pose proof (find_none _ _ Hnone x Hx) as Hno. cbn beta in Hno. congruence.
    + split; [lia|]. split; [reflexivity|].
      split; [|reflexivity].
      intros n Hn. rewrite (findIndex_None _ _ Hidx) in Hn. discriminate.
Qed.

(** The handlers of the [online] and [offline] events. *)
Example offline_then_online :
  let state := dispatch_all (initialState true)
                 (handleOffline 1 "t1" ++ handleOnline 2 "t2")%list in
  isOnline state = true
  /\ map title (notifications state) = ["Connection Restored"; "Connection Lost"]
  /\ selectUnreadNotificationsCount state = 2%nat.
Proof. repeat split. Qed.

End UiSliceFacts.

Section UsersThunkFacts.
Import UsersSlice.

(** X29. The fetch the users page issues for its table state brings the
    store in line with that table state: the stored page is the backend's
    answer for [tableState.page], [tableState.pageSize] and the debounced
    search, its pagination reports that page and page size, the loading flag
    is down and an error left by an earlier action is cleared; the table
    state and the selection are not touched.  A fetch without arguments asks
    for page 1 of 25 with an empty search. *)
Theorem users_page_fetch_cycle
  (state : UsersState) (mockUsers : list User.t) (debouncedSearch : string) :
  let state' := dispatch_all state
                  (UsersThunks.fetchUsers mockUsers
                     (UsersPage.fetchEffect state debouncedSearch)) in
  let response := MockApi.getUsers mockUsers (TableState.page (tableState state))
                                   (TableState.pageSize (tableState state)) debouncedSearch in
  users state' = PaginatedResponse.data response
  /\ pagination state' = PaginatedResponse.pagination response
  /\ Pagination.page (pagination state') = TableState.page (tableState state)
  /\ Pagination.pageSize (pagination state') = TableState.pageSize (tableState state)
  /\ isLoading state' = false
  /\ error state' = None
  /\ tableState state' = tableState state
  /\ selectedUser state' = selectedUser state
  /\ UsersPage.tableView state'
     = (if (length (PaginatedResponse.data response) =? 0)%nat
        then DataTable.EmptyView
        else DataTable.TableView (PaginatedResponse.data response))
  /\ UsersThunks.fetchUsers mockUsers (UsersThunks.mkFetchUsersArg None None None)
     = [fetchUsers_pending; fetchUsers_fulfilled (MockApi.getUsers mockUsers 1 25 "")].
Proof.
  cbv zeta. unfold UsersThunks.fetchUsers, UsersPage.fetchEffect, dispatch_all.
  cbn [fold_left UsersThunks.page UsersThunks.pageSize UsersThunks.search PartialUser.over].
  cbn [reducer]. cbv zeta.
  cbn [users pagination isLoading error tableState selectedUser
       set_isLoading set_error set_users set_pagination].
  repeat split.
Qed.

Lemma findIndex_find {A : Type} (f : A -> bool) (l : list A) (i : nat) (x : A) :
  JS.findIndex f l = Some i -> l !! i = Some x -> List.find f l = Some x.
Proof.
  revert i. induction l as [|a l IH]; intros i; [discriminate|].
  cbn [JS.findIndex List.find]. destruct (f a) eqn:Ha.
  - intros [= <-] [= <-]. reflexivity.
  - destruct (JS.findIndex f l) as [k|]; [|discriminate].
    intros Hk Hx. cbn in Hk. injection Hk as <-. cbn in Hx. apply (IH k eq_refl Hx).
Qed.

Lemma users_after_update_fulfilled (state : UsersState) (payload : User.t) :
  users (reducer state (updateUser_fulfilled payload))
  = match JS.findIndex (has_id (User.id payload)) (users state) with
    | Some index => <[index := payload]> (users state)
    | None => users state
    end
  /\ error (reducer state (updateUser_fulfilled payload)) = error state.
Proof.
  unfold reducer. cbv zeta. cbn [users set_isUpdating].
  destruct (JS.findIndex (has_id (User.id payload)) (users state));
    match goal with |- context [if ?c then _ else _] => destruct c end;
    split; reflexivity.
Qed.

(** X30. Updating a user the backend does not know fails with
    [User not found] and leaves everything as it was: the backend list, the
    stored page, its pagination and the selection; the message is recorded as
    the error.  Updating a user the backend knows, without changing its id,
    stores the backend's merged user: the backend returns it for that id, and
    so does the stored page when it held a user with that id. *)
Theorem updateUser_thunk_spec
  (state : UsersState) (mockUsers : list User.t) (id : string) (data : PartialUser.t)
  (updatedAt : string) :
  let '(actions, mockUsers') := UsersThunks.updateUser mockUsers id data updatedAt in
  let state' := dispatch_all state actions in
  (MockApi.getUserById mockUsers id = Rejected "User not found" ->
   mockUsers' = mockUsers
   /\ users state' = users state
   /\ pagination state' = pagination state
   /\ selectedUser state' = selectedUser state
   /\ error state' = Some "User not found"
   /\ isUpdating state' = false)
  /\ (forall old,
        MockApi.getUserById mockUsers id = Resolved old ->
        PartialUser.id data = None ->
        let updated := MockApi.set_updatedAt updatedAt (PartialUser.spread old data) in
        MockApi.getUserById mockUsers' id = Resolved updated
        /\ error state' = None
        /\ (List.find (has_id id) (users state) <> None ->
            List.find (has_id id) (users state') = Some updated)).
Proof.
  unfold UsersThunks.updateUser, MockApi.updateUser, MockApi.getUserById.
  change (fun u : User.t => String.eqb (User.id u) id) with (has_id id).
  destruct (JS.findIndex (has_id id) mockUsers) as [index|] eqn:Hidx.
  - destruct (findIndex_Some _ _ _ Hidx) as (x & Hx & Hfx & _).
    rewrite Hx, (findIndex_find _ _ _ _ Hidx Hx). cbv zeta.
    split; [discriminate|].
    intros old [= <-] Hid.
    set (updated := MockApi.set_updatedAt updatedAt (PartialUser.spread x data)).
    assert (Huid : User.id updated = id).
    { unfold updated. cbn. rewrite Hid. cbn. apply String.eqb_eq. exact Hfx. }
    assert (Hself : has_id id updated = true)
      by (unfold has_id; rewrite Huid; apply String.eqb_refl).
    unfold dispatch_all. cbn [fold_left].
    destruct (users_after_update_fulfilled (reducer state updateUser_pending) updated)
      as [Husers Herror].
    split; [rewrite (find_insert_found mockUsers id index updated Hidx Hself); reflexivity|].
    split; [rewrite Herror; reflexivity|].
    intros Hsome. rewrite Husers, Huid.
    change (users (reducer state updateUser_pending)) with (users state).
    destruct (JS.findIndex (has_id id) (users state)) as [j|] eqn:Hj.
    + apply find_insert_found; assumption.
    + exfalso. apply Hsome. apply findIndex_None. exact Hj.
  - rewrite (findIndex_None _ _ Hidx). cbv zeta.
    split; [intros _; repeat split|]. intros old Hold. discriminate Hold.
Qed.

Lemma updateUser_thunk_spec_witness :
  let admin := MockApi.adminUser "2026-01-01T00:00:00.000Z" in
  let state := reducer initialState
                 (fetchUsers_fulfilled (PaginatedResponse.mk [admin] (Pagination.mk 1 25 1 1))) in
  let patch := PartialUser.mk None None None None None None None None None (Some false) in
  let result := UsersThunks.updateUser [admin] "x" patch "2026-06-01T00:00:00.000Z" in
  MockApi.getUserById [admin] "x" = Rejected "User not found"
  /\ snd result = [admin]
  /\ users (dispatch_all state (fst result)) = [admin]
  /\ error (dispatch_all state (fst result)) = Some "User not found".
Proof.
  intros admin state patch result.
  assert (Hmissing : MockApi.getUserById [admin] "x" = Rejected "User not found")
    by reflexivity.
  pose proof (updateUser_thunk_spec state [admin] "x" patch "2026-06-01T00:00:00.000Z")
    as Hspec.
  fold result in Hspec. destruct result as [actions mockUsers'].
  destruct Hspec as [Hspec _]. destruct (Hspec Hmissing) as (Hb & Hu & _ & _ & He & _).
  split; [exact Hmissing|]. split; [exact Hb|]. split; [exact Hu|exact He].
Defined.

End UsersThunkFacts.
